(** * Exercise Tracker: a shallow embedding of [index.js]

    The service is an Express application over two Mongoose collections
    (users and exercises).  This development embeds the four API handlers
    of [index.js] as functions on an explicit world (the two collections,
    the server clock, the pending storage failures and the sequence of
    storage calls made so far) and proves the properties the service
    specification states about them.

    Conventions of the embedding.
    - A JavaScript string is a [string]; a character stands for one code
      unit below 256.
    - A form or query field is an [option string]: [None] is [undefined].
      Fields sent several times (arrays) are outside the model.
    - The JavaScript numbers that [parseInt] returns are [NaN], the
      [None] of an option, the doubles that hold an integer, and the two
      infinities.  A double that holds an integer is the [Z] it holds;
      [parseInt] rounds what it reads to the nearest double.
    - A [Date] is its time value: milliseconds since the epoch, UTC.
    - A handler runs from its request to its answer without another
      handler in between.  What a concurrent request does to the store
      between two storage calls shows to a handler only as a failure that
      the backend reports, a duplicate key for instance; the world
      announces such failures in [pending]. *)

From Stdlib Require Import ZArith List String Ascii Bool Lia.
Import ListNotations.

#[local] Open Scope string_scope.
#[local] Open Scope Z_scope.

(** ** JavaScript built-ins used by the handlers *)

Module Js.

(** [!v] for a value that is [undefined] or a string. *)
Definition falsy (v : option string) : bool :=
  match v with
  | None => true
  | Some "" => true
  | Some _ => false
  end.

Definition truthy (v : option string) : bool := negb (falsy v).

(** [ToString] of a value that is [undefined] or a string. *)
Definition ToString (v : option string) : string :=
  match v with
  | None => "undefined"
  | Some s => s
  end.

(** White space that [parseInt] skips: TAB, LF, VT, FF, CR, SP, NBSP. *)
Definition isStrWhiteSpaceChar (c : ascii) : bool :=
  let n := nat_of_ascii c in
  (Nat.eqb n 9 || Nat.eqb n 10 || Nat.eqb n 11 || Nat.eqb n 12
   || Nat.eqb n 13 || Nat.eqb n 32 || Nat.eqb n 160)%bool.

Fixpoint trimStart (s : string) : string :=
  match s with
  | String c rest => if isStrWhiteSpaceChar c then trimStart rest else s
  | EmptyString => s
  end.

(** Value of a character as a digit in some radix up to 16. *)
Definition digitValue (c : ascii) : option Z :=
  let n := Z.of_nat (nat_of_ascii c) in
  if (48 <=? n) && (n <=? 57) then Some (n - 48)
  else if (97 <=? n) && (n <=? 102) then Some (n - 87)
  else if (65 <=? n) && (n <=? 70) then Some (n - 55)
  else None.

(** The longest prefix of [s] made of radix-[R] digits. *)
Fixpoint digitsPrefix (R : Z) (s : string) : list Z :=
  match s with
  | String c rest =>
      match digitValue c with
      | Some d => if d <? R then d :: digitsPrefix R rest else []
      | None => []
      end
  | EmptyString => []
  end.

Definition mathInt (R : Z) (ds : list Z) : Z :=
  fold_left (fun acc d => acc * R + d) ds 0.

(** The steps of [parseInt(string)], with no radix argument, up to the
    mathematical integer that the digits denote with their sign; [None]
    when no digit is read. *)
Definition parseMathInt (input : string) : option Z :=
  let S0 := trimStart input in
  let '(sign, S1) :=
    match S0 with
    | String "-" rest => (-1, rest)
    | String "+" rest => (1, rest)
    | _ => (1, S0)
    end in
  let '(R, S2) :=
    match S1 with
    | String "0" (String "x" rest) => (16, rest)
    | String "0" (String "X" rest) => (16, rest)
    | _ => (10, S1)
    end in
  match digitsPrefix R S2 with
  | [] => None
  | ds => Some (sign * mathInt R ds)
  end.

(** A number that is not [NaN]: a double that holds an integer, or an
    infinity with its sign. *)
Inductive number :=
| Finite (z : Z)
| Infinite (negative : bool).

(** The double nearest to an integer [a >= 0], ties going to the even
    mantissa: integers below 2^53 are doubles; above, the 53 leading bits
    are kept and the rest is rounded. *)
Definition roundToDouble (a : Z) : Z :=
  if a <? 2 ^ 53 then a
  else
    let e := Z.log2 a - 52 in
    let q := a / 2 ^ e in
    let r := a mod 2 ^ e in
    let half := 2 ^ (e - 1) in
    let q' := if (half <? r) || ((r =? half) && Z.odd q) then q + 1
              else q in
    q' * 2 ^ e.

(** The number value of an integer: its nearest double, or an infinity
    when that lies beyond the largest double. *)
Definition toNumber (z : Z) : number :=
  let m := roundToDouble (Z.abs z) in
  if 2 ^ 1024 <=? m then Infinite (z <? 0) else Finite (Z.sgn z * m).

(** [parseInt(string)] with no radix argument; [None] is [NaN].  Every
    digit read counts towards the result, in base 16 as in base 10.  The
    sign of a zero is not kept: the handlers do not tell the two zeros
    apart, and [JSON.stringify] writes 0 for both. *)
Definition parseInt (input : string) : option number :=
  match parseMathInt input with
  | Some z => Some (toNumber z)
  | None => None
  end.

(** [isNaN(n)]. *)
Definition isNaN (n : option number) : bool :=
  match n with
  | None => true
  | Some _ => false
  end.

(** [n > 0]. *)
Definition positive (n : number) : bool :=
  match n with
  | Finite z => 0 <? z
  | Infinite negative => negb negative
  end.

(** What [JSON.stringify] writes for a number: the integer, or [null],
    here [None], for an infinity. *)
Definition jsonNumber (n : number) : option Z :=
  match n with
  | Finite z => Some z
  | Infinite _ => None
  end.

(** *** Day and year arithmetic of the language standard *)

Definition msPerDay : Z := 86400000.

Definition Day (t : Z) : Z := t / msPerDay.

Definition DayFromYear (y : Z) : Z :=
  365 * (y - 1970) + (y - 1969) / 4 - (y - 1901) / 100 + (y - 1601) / 400.

Definition DaysInYear (y : Z) : Z :=
  if negb (y mod 4 =? 0) then 365
  else if negb (y mod 100 =? 0) then 366
  else if negb (y mod 400 =? 0) then 365
  else 366.

Definition InLeapYear (y : Z) : Z := if DaysInYear y =? 366 then 1 else 0.

(** The year that holds day number [d]: the largest [y] with
    [DayFromYear y <= d].  A first guess from the mean length of a year is
    off by at most one. *)
Definition YearFromDay (d : Z) : Z :=
  let y := 1970 + (400 * d) / 146097 in
  if d <? DayFromYear y then y - 1
  else if DayFromYear (y + 1) <=? d then y + 1
  else y.

Definition DayWithinYear (d : Z) : Z := d - DayFromYear (YearFromDay d).

(** Day numbers, within a year, at which the months start. *)
Definition monthStart (leap : Z) (m : Z) : Z :=
  match m with
  | 0 => 0
  | 1 => 31
  | 2 => 59 + leap
  | 3 => 90 + leap
  | 4 => 120 + leap
  | 5 => 151 + leap
  | 6 => 181 + leap
  | 7 => 212 + leap
  | 8 => 243 + leap
  | 9 => 273 + leap
  | 10 => 304 + leap
  | 11 => 334 + leap
  | _ => 365 + leap
  end.

Definition MonthFromDay (d : Z) : Z :=
  let leap := InLeapYear (YearFromDay d) in
  let w := DayWithinYear d in
  if w <? monthStart leap 1 then 0
  else if w <? monthStart leap 2 then 1
  else if w <? monthStart leap 3 then 2
  else if w <? monthStart leap 4 then 3
  else if w <? monthStart leap 5 then 4
  else if w <? monthStart leap 6 then 5
  else if w <? monthStart leap 7 then 6
  else if w <? monthStart leap 8 then 7
  else if w <? monthStart leap 9 then 8
  else if w <? monthStart leap 10 then 9
  else if w <? monthStart leap 11 then 10
  else 11.

Definition DateFromDay (d : Z) : Z :=
  DayWithinYear d
  - monthStart (InLeapYear (YearFromDay d)) (MonthFromDay d) + 1.

Definition WeekDay (d : Z) : Z := (d + 4) mod 7.

(** [MakeDay(year, month, date)] for a month in 0..11. *)
Definition MakeDay (year month date : Z) : Z :=
  DayFromYear year + monthStart (InLeapYear year) month + date - 1.

Definition DaysInMonth (year month : Z) : Z :=
  monthStart (InLeapYear year) (month + 1) - monthStart (InLeapYear year) month.

(** *** Decimal text *)

Definition digitChar (d : Z) : ascii := ascii_of_nat (Z.to_nat (48 + d)).

Fixpoint decimalDigits (fuel : nat) (n : Z) (acc : string) : string :=
  match fuel with
  | O => acc
  | S fuel' =>
      let acc' := String (digitChar (n mod 10)) acc in
      if n <? 10 then acc' else decimalDigits fuel' (n / 10) acc'
  end.

(** Decimal text of [n >= 0]. *)
Definition decimalString (n : Z) : string :=
  decimalDigits (S (Z.to_nat (Z.log2 n))) n "".

Fixpoint zeros (k : nat) : string :=
  match k with
  | O => ""
  | S k' => String "0" (zeros k')
  end.

Definition ToZeroPaddedDecimalString (n : Z) (minLength : nat) : string :=
  let s := decimalString n in
  zeros (minLength - String.length s) ++ s.

Definition weekDayName (w : Z) : string :=
  match w with
  | 0 => "Sun" | 1 => "Mon" | 2 => "Tue" | 3 => "Wed"
  | 4 => "Thu" | 5 => "Fri" | _ => "Sat"
  end.

Definition monthName (m : Z) : string :=
  match m with
  | 0 => "Jan" | 1 => "Feb" | 2 => "Mar" | 3 => "Apr"
  | 4 => "May" | 5 => "Jun" | 6 => "Jul" | 7 => "Aug"
  | 8 => "Sep" | 9 => "Oct" | 10 => "Nov" | _ => "Dec"
  end.

(** [DateString]: week day, month, day of the month and year of a day
    number, as in "Tue Jan 31 2023". *)
Definition DateString (d : Z) : string :=
  let yv := YearFromDay d in
  let yearSign := if 0 <=? yv then "" else "-" in
  weekDayName (WeekDay d) ++ " " ++ monthName (MonthFromDay d) ++ " "
  ++ ToZeroPaddedDecimalString (DateFromDay d) 2 ++ " "
  ++ yearSign ++ ToZeroPaddedDecimalString (Z.abs yv) 4.

(** *** The date-only form [YYYY-MM-DD] of the date-time string format *)

Definition decimalDigit (c : ascii) : option Z :=
  let n := Z.of_nat (nat_of_ascii c) in
  if (48 <=? n) && (n <=? 57) then Some (n - 48) else None.

Fixpoint decimalField (s : list ascii) (acc : Z) : option Z :=
  match s with
  | [] => Some acc
  | c :: rest =>
      match decimalDigit c with
      | Some d => decimalField rest (acc * 10 + d)
      | None => None
      end
  end.

(** A well-formed [YYYY-MM-DD] with an existing day denotes midnight UTC
    of that day; anything else is left to the host's parser. *)
Definition parseDateOnly (s : string) : option Z :=
  match list_ascii_of_string s with
  | [y1; y2; y3; y4; "-"%char; m1; m2; "-"%char; d1; d2] =>
      match decimalField [y1; y2; y3; y4] 0,
            decimalField [m1; m2] 0,
            decimalField [d1; d2] 0 with
      | Some y, Some m, Some d =>
          if (1 <=? m) && (m <=? 12) && (1 <=? d)
             && (d <=? DaysInMonth y (m - 1))
          then Some (MakeDay y (m - 1) d * msPerDay)
          else None
      | _, _, _ => None
      end
  | _ => None
  end.

End Js.

(** ** The document store

    Two collections kept in insertion order.  A world also holds the
    server clock, the failures the backend is about to report (one entry
    per round trip, [None] or a missing entry meaning that the round trip
    goes through), the storage calls made so far, and the next fresh
    identifier. *)

Definition ObjectId := N.

Module User.
Record t := { _id : ObjectId; username : string }.
End User.

Module Exercise.
Record t := {
  _id : ObjectId;
  userId : ObjectId;
  description : string;
  duration : Js.number;
  date : Z
}.
End Exercise.

(** An error object, as far as the handlers inspect it. *)
Record JsError := {
  name : string;
  code : option Z;
  path : option string
}.

Definition CastError (p : string) : JsError :=
  {| name := "CastError"; code := None; path := Some p |}.

(** What the backend reports when a unique index is violated. *)
Definition DuplicateKeyError : JsError :=
  {| name := "MongoError"; code := Some 11000; path := None |}.

Inductive StorageCall :=
| UserFindOne
| UserSave
| UserFind
| UserFindById
| ExerciseSave
| ExerciseFind.

Record World := {
  users : list User.t;
  exercises : list Exercise.t;
  clock : Z;
  pending : list (option JsError);
  calls : list StorageCall;
  nextId : ObjectId
}.

(** What the platform decides: how a path segment is cast to an
    identifier, how [Date.parse] reads a string that is not in the
    date-only form, and the offset of local time at a given instant. *)
Record Host := {
  castObjectId : string -> option ObjectId;
  hostDateParse : string -> option Z;
  LocalTZA : Z -> Z
}.

(** *** Awaited computations: state and exceptions *)

Definition Async (A : Type) : Type := World -> (JsError + A) * World.

Definition ret {A} (a : A) : Async A := fun w => (inr a, w).

Definition throw {A} (e : JsError) : Async A := fun w => (inl e, w).

Definition bind {A B} (m : Async A) (k : A -> Async B) : Async B :=
  fun w =>
    match m w with
    | (inr a, w') => k a w'
    | (inl e, w') => (inl e, w')
    end.

Notation "'let*' x ':=' m 'in' k" := (bind m (fun x => k))
  (at level 10, x pattern, m at level 100, k at level 200).

Notation "m ';;' k" := (bind m (fun _ => k))
  (at level 100, right associativity).

Definition gets {A} (f : World -> A) : Async A := fun w => (inr (f w), w).

(** [try { ... } catch (err) { ... }] around an awaited body. *)
Definition tryCatch {A} (body : Async A) (handler : JsError -> A)
  : World -> A * World :=
  fun w =>
    match body w with
    | (inr a, w') => (a, w')
    | (inl e, w') => (handler e, w')
    end.

(** The world after one more storage call, after one round trip, with one
    identifier drawn, with one more document. *)
Definition noteCall (c : StorageCall) (w : World) : World :=
  {| users := users w; exercises := exercises w; clock := clock w;
     pending := pending w; calls := calls w ++ [c]; nextId := nextId w |}.

Definition consume (w : World) : World :=
  {| users := users w; exercises := exercises w; clock := clock w;
     pending := tl (pending w); calls := calls w; nextId := nextId w |}.

Definition drawId (w : World) : World :=
  {| users := users w; exercises := exercises w; clock := clock w;
     pending := pending w; calls := calls w;
     nextId := N.succ (nextId w) |}.

Definition withUser (u : User.t) (w : World) : World :=
  {| users := users w ++ [u]; exercises := exercises w; clock := clock w;
     pending := pending w; calls := calls w; nextId := nextId w |}.

Definition withExercise (e : Exercise.t) (w : World) : World :=
  {| users := users w; exercises := exercises w ++ [e]; clock := clock w;
     pending := pending w; calls := calls w; nextId := nextId w |}.

Definition record (c : StorageCall) : Async unit :=
  fun w => (inr tt, noteCall c w).

(** One round trip to the backend: it goes through or reports the next
    pending failure. *)
Definition roundTrip : Async unit :=
  fun w =>
    match pending w with
    | Some e :: _ => (inl e, consume w)
    | _ => (inr tt, consume w)
    end.

Definition freshId : Async ObjectId :=
  fun w => (inr (nextId w), drawId w).

Definition insertUser (u : User.t) : Async unit :=
  fun w => (inr tt, withUser u w).

Definition insertExercise (e : Exercise.t) : Async unit :=
  fun w => (inr tt, withExercise e w).

(** *** Queries *)

(** The date condition [{$gte, $lte}] of a query. *)
Record DateFilter := {
  gte : option Z;
  lte : option Z
}.

Definition emptyFilter : DateFilter := {| gte := None; lte := None |}.

Definition keys (f : DateFilter) : nat :=
  (match gte f with Some _ => 1 | None => 0 end)
  + (match lte f with Some _ => 1 | None => 0 end).

Definition matchesDate (f : DateFilter) (d : Z) : bool :=
  match gte f with Some a => a <=? d | None => true end
  && match lte f with Some b => d <=? b | None => true end.

(** [Exercise.find({userId}).select(...)], then [where] and [limit]. *)
Record ExerciseQuery := {
  q_userId : string;
  q_where : option DateFilter;
  q_limit : option Js.number
}.

Definition Exercise_find (userId : string) : ExerciseQuery :=
  {| q_userId := userId; q_where := None; q_limit := None |}.

Definition where_date (q : ExerciseQuery) (f : DateFilter) : ExerciseQuery :=
  {| q_userId := q_userId q; q_where := Some f; q_limit := q_limit q |}.

Definition limit (q : ExerciseQuery) (n : Js.number) : ExerciseQuery :=
  {| q_userId := q_userId q; q_where := q_where q; q_limit := Some n |}.

Definition selects (oid : ObjectId) (f : option DateFilter)
  (e : Exercise.t) : bool :=
  N.eqb (Exercise.userId e) oid
  && match f with
     | Some f => matchesDate f (Exercise.date e)
     | None => true
     end.

(** The first user with a given name, with a given identifier. *)
Definition byName (username : string) (l : list User.t) : option User.t :=
  find (fun u => String.eqb (User.username u) username) l.

Definition byId (oid : ObjectId) (l : list User.t) : option User.t :=
  find (fun u => N.eqb (User._id u) oid) l.

(** A limit keeps the first documents.  The store is taken to accept
    every positive limit: one beyond the number of documents, an infinite
    one included, keeps them all. *)
Definition capped {A} (n : option Js.number) (l : list A) : list A :=
  match n with
  | Some (Js.Finite n) => firstn (Z.to_nat n) l
  | Some (Js.Infinite _) => l
  | None => l
  end.

Section Service.

Variable host : Host.

(** [new Date(s).getTime()] for a string [s]; [None] is [NaN]. *)
Definition Date_new (s : string) : option Z :=
  match Js.parseDateOnly s with
  | Some t => Some t
  | None => hostDateParse host s
  end.

(** [d.toDateString()]: the calendar day of [d] in local time. *)
Definition toDateString (d : Z) : string :=
  Js.DateString (Js.Day (d + LocalTZA host d)).

(** Casting a string to an identifier for the path [p] of a query. *)
Definition castAt (p : string) (s : string) : Async ObjectId :=
  match castObjectId host s with
  | Some oid => ret oid
  | None => throw (CastError p)
  end.

Definition User_findOne (username : string) : Async (option User.t) :=
  record UserFindOne ;;
  roundTrip ;;
  gets (fun w => byName username (users w)).

Definition User_findById (id : string) : Async (option User.t) :=
  record UserFindById ;;
  let* oid := castAt "_id" id in
  roundTrip ;;
  gets (fun w => byId oid (users w)).

Definition User_find : Async (list User.t) :=
  record UserFind ;;
  roundTrip ;;
  gets users.

Definition User_new (username : string) : Async User.t :=
  let* oid := freshId in
  ret {| User._id := oid; User.username := username |}.

(** [save] of a new user; the unique index on [username] rejects a
    second document with the same name. *)
Definition User_save (u : User.t) : Async User.t :=
  record UserSave ;;
  roundTrip ;;
  let* clash := gets (fun w => byName (User.username u) (users w)) in
  match clash with
  | Some _ => throw DuplicateKeyError
  | None => insertUser u ;; ret u
  end.

Definition Exercise_new (userId : ObjectId) (description : string)
  (duration : Js.number) (date : Z) : Async Exercise.t :=
  let* oid := freshId in
  ret {| Exercise._id := oid; Exercise.userId := userId;
         Exercise.description := description;
         Exercise.duration := duration; Exercise.date := date |}.

Definition Exercise_save (e : Exercise.t) : Async Exercise.t :=
  record ExerciseSave ;;
  roundTrip ;;
  insertExercise e ;;
  ret e.

Definition exec (q : ExerciseQuery) : Async (list Exercise.t) :=
  record ExerciseFind ;;
  let* oid := castAt "userId" (q_userId q) in
  roundTrip ;;
  gets (fun w =>
    capped (q_limit q) (filter (selects oid (q_where q)) (exercises w))).

End Service.

(** ** Requests and responses *)

Module LogEntry.
Record t := {
  description : string;
  duration : Js.number;
  date : string
}.
End LogEntry.

(** The JSON bodies the handlers send. *)
Inductive Json :=
| JError (error : string)
| JUser (username : string) (_id : ObjectId)
| JUsers (all : list User.t)
| JExercise (username description : string) (duration : Js.number)
    (date : string) (_id : ObjectId)
| JLog (username : string) (count : nat) (_id : ObjectId)
    (log : list LogEntry.t).

Record Response := { status : Z; body : Json }.

(** [res.json(b)] and [res.status(s).json({error: m})]. *)
Definition json (b : Json) : Response := {| status := 200; body := b |}.

Definition fail (s : Z) (m : string) : Response :=
  {| status := s; body := JError m |}.

Record ExerciseRequest := {
  ex_params_id : string;
  ex_description : option string;
  ex_duration : option string;
  ex_date : option string
}.

Record LogsRequest := {
  log_params_id : string;
  log_from : option string;
  log_to : option string;
  log_limit : option string
}.

(** The test [if (v)] on a field, giving the string [v] then is. *)
Definition truthyString (v : option string) : option string :=
  if Js.falsy v then None else v.

Definition Handler : Type := World -> Response * World.

Definition send (r : Response) : Handler := fun w => (r, w).

Section Handlers.

Variable host : Host.

(** *** [POST /api/users] *)

(** The [catch] block: [err.code === 11000] tells a duplicate key. *)
Definition catchCreateUser (err : JsError) : Response :=
  match code err with
  | Some 11000 => fail 400 "Username already taken"
  | _ => fail 500 "Could not create user"
  end.

Definition postUsers (username : option string) : Handler :=
  match truthyString username with
  | None => send (fail 400 "Username is required")
  | Some username =>
      tryCatch
        (let* foundUser := User_findOne username in
         match foundUser with
         | Some foundUser =>
             ret (json (JUser (User.username foundUser)
                              (User._id foundUser)))
         | None =>
             let* newUser := User_new username in
             let* savedUser := User_save newUser in
             ret (json (JUser (User.username savedUser)
                              (User._id savedUser)))
         end)
        catchCreateUser
  end.

(** *** [GET /api/users] *)

Definition getUsers : Handler :=
  tryCatch
    (let* users := User_find in
     ret (json (JUsers users)))
    (fun err => fail 500 "Could not retrieve users").

(** The test [err.name === 'CastError' && err.path === '_id']. *)
Definition isIdCastError (err : JsError) : bool :=
  String.eqb (name err) "CastError"
  && match path err with
     | Some p => String.eqb p "_id"
     | None => false
     end.

(** *** [POST /api/users/:_id/exercises] *)

Definition catchAddExercise (err : JsError) : Response :=
  if isIdCastError err
  then fail 400 "Invalid user ID format"
  else fail 500 "Could not add exercise".

(** The date of the exercise: the clock's when [date] is falsy, else
    what [new Date(date)] gives, [None] standing for an invalid date. *)
Definition resolveDate (date : option string) (now : Z) : option Z :=
  match truthyString date with
  | None => Some now
  | Some date => Date_new host date
  end.

Definition postExercise (req : ExerciseRequest) : Handler :=
  fun w =>
  let userId := ex_params_id req in
  match truthyString (ex_description req), truthyString (ex_duration req) with
  | Some description, Some duration =>
      match Js.parseInt duration with
      | None => send (fail 400 "Duration must be a number") w
      | Some durationNum =>
          match resolveDate (ex_date req) (clock w) with
          | None => send (fail 400 "Invalid date format") w
          | Some exerciseDate =>
              tryCatch
                (let* user := User_findById host userId in
                 match user with
                 | None => ret (fail 404 "User not found")
                 | Some user =>
                     let* newExercise :=
                       Exercise_new (User._id user) description
                                    durationNum exerciseDate in
                     let* savedExercise := Exercise_save newExercise in
                     ret (json (JExercise
                       (User.username user)
                       (Exercise.description savedExercise)
                       (Exercise.duration savedExercise)
                       (toDateString host (Exercise.date savedExercise))
                       (User._id user)))
                 end)
                catchAddExercise
                w
          end
      end
  | _, _ => send (fail 400 "Description and duration are required") w
  end.

(** *** [GET /api/users/:_id/logs] *)

Definition catchFetchLogs (err : JsError) : Response :=
  if isIdCastError err
  then fail 400 "Invalid user ID format"
  else fail 500 "Could not retrieve logs".

(** The two blocks that fill [dateFilter]; [inl] is an early return. *)
Definition applyFrom (from : option string) (dateFilter : DateFilter)
  : Response + DateFilter :=
  match truthyString from with
  | None => inr dateFilter
  | Some from =>
      match Date_new host from with
      | Some fromDate =>
          inr {| gte := Some fromDate; lte := lte dateFilter |}
      | None => inl (fail 400 "Invalid 'from' date format")
      end
  end.

Definition applyTo (to : option string) (dateFilter : DateFilter)
  : Response + DateFilter :=
  match truthyString to with
  | None => inr dateFilter
  | Some to =>
      match Date_new host to with
      | Some toDate =>
          inr {| gte := gte dateFilter; lte := Some toDate |}
      | None => inl (fail 400 "Invalid 'to' date format")
      end
  end.

Definition applyLimit (lim : option string) (query : ExerciseQuery)
  : ExerciseQuery :=
  match Js.parseInt (Js.ToString lim) with
  | Some limitNum =>
      if Js.positive limitNum then limit query limitNum else query
  | None => query
  end.

Definition logEntry (ex : Exercise.t) : LogEntry.t :=
  {| LogEntry.description := Exercise.description ex;
     LogEntry.duration := Exercise.duration ex;
     LogEntry.date := toDateString host (Exercise.date ex) |}.

Definition getLogs (req : LogsRequest) : Handler :=
  let userId := log_params_id req in
  tryCatch
    (let* user := User_findById host userId in
     match user with
     | None => ret (fail 404 "User not found")
     | Some user =>
         let query := Exercise_find userId in
         match applyFrom (log_from req) emptyFilter with
         | inl early => ret early
         | inr dateFilter =>
             match applyTo (log_to req) dateFilter with
             | inl early => ret early
             | inr dateFilter =>
                 let query :=
                   if (0 <? keys dateFilter)%nat
                   then where_date query dateFilter
                   else query in
                 let query := applyLimit (log_limit req) query in
                 let* exercises := exec host query in
                 let log := map logEntry exercises in
                 ret (json (JLog (User.username user) (List.length log)
                                 (User._id user) log))
             end
         end
     end)
    catchFetchLogs.

(** The query that [getLogs] runs once both bounds are settled. *)
Definition logQuery (req : LogsRequest) (dateFilter : DateFilter)
  : ExerciseQuery :=
  applyLimit (log_limit req)
    (if (0 <? keys dateFilter)%nat
     then where_date (Exercise_find (log_params_id req)) dateFilter
     else Exercise_find (log_params_id req)).

(** *** Requests that differ in one field, and bodies that pass *)

Definition withDate (date : option string) (req : ExerciseRequest)
  : ExerciseRequest :=
  {| ex_params_id := ex_params_id req;
     ex_description := ex_description req;
     ex_duration := ex_duration req; ex_date := date |}.

Definition withLimit (lim : option string) (req : LogsRequest)
  : LogsRequest :=
  {| log_params_id := log_params_id req; log_from := log_from req;
     log_to := log_to req; log_limit := lim |}.

(** The log of a user, unfiltered. *)
Definition logsOf (id : string) : LogsRequest :=
  {| log_params_id := id; log_from := None; log_to := None;
     log_limit := None |}.

(** The body of an exercise request passes the three checks made before
    the user is looked up. *)
Definition acceptable (req : ExerciseRequest) (now : Z) : Prop :=
  exists description duration durationNum exerciseDate,
    truthyString (ex_description req) = Some description
    /\ truthyString (ex_duration req) = Some duration
    /\ Js.parseInt duration = Some durationNum
    /\ resolveDate (ex_date req) now = Some exerciseDate.

(** *** The service as a whole *)

Inductive Request :=
| PostUsers (username : option string)
| GetUsers
| PostExercise (req : ExerciseRequest)
| GetLogs (req : LogsRequest).

Definition handle (r : Request) : Handler :=
  match r with
  | PostUsers username => postUsers username
  | GetUsers => getUsers
  | PostExercise req => postExercise req
  | GetLogs req => getLogs req
  end.

End Handlers.

(** ** A reference host and the worlds of the examples

    Identifiers are the 24 hexadecimal digits of an [ObjectId], the server
    runs in UTC, and [Date.parse] reads nothing but the date-only form. *)

Definition isHexDigit (c : ascii) : bool :=
  match Js.digitValue c with
  | Some _ => true
  | None => false
  end.

Definition hexObjectId (s : string) : option ObjectId :=
  if Nat.eqb (String.length s) 24
     && forallb isHexDigit (list_ascii_of_string s)
  then Some (Z.to_N (Js.mathInt 16 (Js.digitsPrefix 16 s)))
  else None.

Definition utcHost : Host :=
  {| castObjectId := hexObjectId;
     hostDateParse := fun _ => None;
     LocalTZA := fun _ => 0 |}.

Definition annId : string := "64b7f0c2a1d3e4f5a6b7c8d9".

Definition ann : User.t :=
  match hexObjectId annId with
  | Some oid => {| User._id := oid; User.username := "ann" |}
  | None => {| User._id := 0%N; User.username := "ann" |}
  end.

(** Noon UTC on 31 January 2023. *)
Definition noonJan31 : Z := 1675166400000.

Definition emptyWorld : World :=
  {| users := []; exercises := []; clock := noonJan31; pending := [];
     calls := []; nextId := 1%N |}.

Definition annWorld : World :=
  {| users := [ann]; exercises := []; clock := noonJan31; pending := [];
     calls := []; nextId := 1%N |}.

Definition runRequest : ExerciseRequest :=
  {| ex_params_id := annId; ex_description := Some "run";
     ex_duration := Some "45"; ex_date := None |}.

(** [annWorld] after Ann logged a run at noon without giving a date. *)
Definition annRanWorld : World := snd (postExercise utcHost runRequest annWorld).

(** The log of Ann up to 31 January 2023. *)
Definition untilJan31 : LogsRequest :=
  {| log_params_id := annId; log_from := None;
     log_to := Some "2023-01-31"; log_limit := None |}.

(** The first entry of the log of Ann for January 2023. *)
Definition firstOfJanuary : LogsRequest :=
  {| log_params_id := annId; log_from := Some "2023-01-01";
     log_to := Some "2023-02-01"; log_limit := Some "1" |}.

(** A log asked for with a lower bound that is no date. *)
Definition sinceYesterday : LogsRequest :=
  {| log_params_id := annId; log_from := Some "yesterday";
     log_to := None; log_limit := None |}.

(** A world in which the next lookup goes through and the insert after
    it is refused as a duplicate: another request got in between. *)
Definition raceWorld : World :=
  {| users := [ann]; exercises := []; clock := noonJan31;
     pending := [None; Some DuplicateKeyError]; calls := [];
     nextId := 1%N |}.

(** ** The service over time

    Between two requests the clock moves and backend failures come and
    go; nothing else changes a world. *)

Definition elapse (clock' : Z) (pending' : list (option JsError))
  (w : World) : World :=
  {| users := users w; exercises := exercises w; clock := clock';
     pending := pending'; calls := calls w; nextId := nextId w |}.

Inductive step (host : Host) : World -> World -> Prop :=
| step_request (r : Request) (w : World) :
    step host w (snd (handle host r w))
| step_elapse (clock' : Z) (pending' : list (option JsError)) (w : World) :
    step host w (elapse clock' pending' w).

Inductive later (host : Host) : World -> World -> Prop :=
| later_now (w : World) : later host w w
| later_step (w1 w2 w3 : World) :
    later host w1 w2 -> step host w2 w3 -> later host w1 w3.

(** What a handler answers in a world. *)
Definition answer (h : Handler) (w : World) : Response := fst (h w).

(** Documents are added at the end of the collections, never removed. *)
Definition extends (w w' : World) : Prop :=
  (exists more, users w' = users w ++ more)%list
  /\ (exists more, exercises w' = exercises w ++ more)%list.

(** The next [n] round trips to the backend go through. *)
Definition available (n : nat) (w : World) : Prop :=
  Forall (fun f => f = None) (firstn n (pending w)).

(** No two users share a name: what the unique index maintains. *)
Definition uniqueNames (w : World) : Prop :=
  NoDup (map User.username (users w)).

(** Every identifier in use is below the next fresh one. *)
Definition freshIds (w : World) : Prop :=
  forall u, In u (users w) -> (User._id u < nextId w)%N.

(** Every stored exercise belongs to a stored user. *)
Definition referenced (w : World) : Prop :=
  forall e, In e (exercises w) ->
    exists u, In u (users w) /\ User._id u = Exercise.userId e.

(** No stored name and no stored description is empty. *)
Definition filled (w : World) : Prop :=
  (forall u, In u (users w) -> User.username u <> "")
  /\ (forall e, In e (exercises w) -> Exercise.description e <> "").

(** The users of a list that bear a given name. *)
Definition named (username : string) (l : list User.t) : list User.t :=
  filter (fun u => String.eqb (User.username u) username) l.

(** A string made of decimal digits only. *)
Fixpoint allDecimal (s : string) : bool :=
  match s with
  | EmptyString => true
  | String c rest =>
      match Js.decimalDigit c with
      | Some _ => allDecimal rest
      | None => false
      end
  end.

(** The decimal text of an integer, with its sign when negative. *)
Definition integerString (z : Z) : string :=
  if z <? 0 then String "-" (Js.decimalString (- z))
  else Js.decimalString z.

(** What may follow a decimal numeral for [parseInt] to stop there and
    read it in base ten: the end of the string, or a character that is
    neither a digit nor the [x] of a hexadecimal prefix. *)
Definition endsNumber (rest : string) : bool :=
  match rest with
  | EmptyString => true
  | String c _ =>
      match Js.decimalDigit c with
      | Some _ => false
      | None => negb (Ascii.eqb c "x") && negb (Ascii.eqb c "X")
      end
  end.

(** An identifier that no user of the examples has. *)
Definition bobId : string := "64b7f0c2a1d3e4f5a6b7c8da".

(** The log of Ann from February back to January. *)
Definition backwards : LogsRequest :=
  {| log_params_id := annId; log_from := Some "2023-02-01";
     log_to := Some "2023-01-01"; log_limit := None |}.

(** Ann walked for half an hour on New Year's Day. *)
Definition walkRequest : ExerciseRequest :=
  {| ex_params_id := annId; ex_description := Some "walk";
     ex_duration := Some "30"; ex_date := Some "2023-01-01" |}.

(** The log of a user from a day to the same day. *)
Definition logOfDay (id date : string) : LogsRequest :=
  {| log_params_id := id; log_from := Some date; log_to := Some date;
     log_limit := None |}.

(** The reference host moved five hours west of Greenwich. *)
Definition westHost : Host :=
  {| castObjectId := hexObjectId;
     hostDateParse := fun _ => None;
     LocalTZA := fun _ => -18000000 |}.

(** The identifier that the store of the examples gives first. *)
Definition firstId : string := "000000000000000000000001".

(** The empty store after Ann signed up. *)
Definition signedUpWorld : World := snd (postUsers (Some "ann") emptyWorld).

(** Ann, as she signed up, logs a run and gives no date. *)
Definition firstRun : ExerciseRequest :=
  {| ex_params_id := firstId; ex_description := Some "run";
     ex_duration := Some "45"; ex_date := None |}.

(** A run on New Year's Day whose duration is a one followed by 309
    zeros. *)
Definition endlessRun : ExerciseRequest :=
  {| ex_params_id := annId; ex_description := Some "run";
     ex_duration := Some (String "1" (Js.zeros 309));
     ex_date := Some "2023-01-01" |}.

(** * Properties *)

(** ** Storage calls, one equation each *)

Section StorageFacts.

Variable host : Host.

Lemma User_findOne_run (username : string) (w : World) :
  User_findOne username w =
  match pending w with
  | Some e :: _ => (inl e, consume (noteCall UserFindOne w))
  | _ => (inr (byName username (users w)), consume (noteCall UserFindOne w))
  end.
Proof.
  unfold User_findOne, bind, record, roundTrip, gets; simpl.
  destruct (pending w) as [|[e|] rest]; reflexivity.
Qed.

Lemma User_findById_run (id : string) (w : World) :
  User_findById host id w =
  match castObjectId host id with
  | None => (inl (CastError "_id"), noteCall UserFindById w)
  | Some oid =>
      match pending w with
      | Some e :: _ => (inl e, consume (noteCall UserFindById w))
      | _ => (inr (byId oid (users w)), consume (noteCall UserFindById w))
      end
  end.
Proof.
  unfold User_findById, castAt, bind, record, roundTrip, gets, ret, throw.
  destruct (castObjectId host id); [|reflexivity].
  simpl. destruct (pending w) as [|[e|] rest]; reflexivity.
Qed.

Lemma User_find_run (w : World) :
  User_find w =
  match pending w with
  | Some e :: _ => (inl e, consume (noteCall UserFind w))
  | _ => (inr (users w), consume (noteCall UserFind w))
  end.
Proof.
  unfold User_find, bind, record, roundTrip, gets; simpl.
  destruct (pending w) as [|[e|] rest]; reflexivity.
Qed.

Lemma User_save_run (u : User.t) (w : World) :
  User_save u w =
  match pending w with
  | Some e :: _ => (inl e, consume (noteCall UserSave w))
  | _ =>
      match byName (User.username u) (users w) with
      | Some _ => (inl DuplicateKeyError, consume (noteCall UserSave w))
      | None => (inr u, withUser u (consume (noteCall UserSave w)))
      end
  end.
Proof.
  unfold User_save, bind, record, roundTrip, gets, insertUser, ret, throw.
  simpl. destruct (pending w) as [|[e|] rest]; simpl;
    try reflexivity; destruct (byName _ _); reflexivity.
Qed.

Lemma Exercise_save_run (e : Exercise.t) (w : World) :
  Exercise_save e w =
  match pending w with
  | Some err :: _ => (inl err, consume (noteCall ExerciseSave w))
  | _ => (inr e, withExercise e (consume (noteCall ExerciseSave w)))
  end.
Proof.
  unfold Exercise_save, bind, record, roundTrip, insertExercise, ret.
  simpl. destruct (pending w) as [|[err|] rest]; reflexivity.
Qed.

Lemma exec_run (q : ExerciseQuery) (w : World) :
  exec host q w =
  match castObjectId host (q_userId q) with
  | None => (inl (CastError "userId"), noteCall ExerciseFind w)
  | Some oid =>
      match pending w with
      | Some e :: _ => (inl e, consume (noteCall ExerciseFind w))
      | _ =>
          (inr (capped (q_limit q)
                  (filter (selects oid (q_where q)) (exercises w))),
           consume (noteCall ExerciseFind w))
      end
  end.
Proof.
  unfold exec, castAt, bind, record, roundTrip, gets, ret, throw.
  destruct (castObjectId host (q_userId q)); [|reflexivity].
  simpl. destruct (pending w) as [|[e|] rest]; reflexivity.
Qed.

(** The query of a log request: [where] and [limit] leave the user. *)
Lemma applyLimit_userId (lim : option string) (q : ExerciseQuery) :
  q_userId (applyLimit lim q) = q_userId q.
Proof.
  unfold applyLimit. destruct (Js.parseInt _) as [n|]; [|reflexivity].
  destruct (Js.positive n); reflexivity.
Qed.

Lemma applyLimit_where (lim : option string) (q : ExerciseQuery) :
  q_where (applyLimit lim q) = q_where q.
Proof.
  unfold applyLimit. destruct (Js.parseInt _) as [n|]; [|reflexivity].
  destruct (Js.positive n); reflexivity.
Qed.

(** ** The handlers, one equation each

    Each handler is a decision list; these equations spell it out, world
    by world, and the properties below are read off them. *)

Lemma postUsers_run (username : option string) (w : World) :
  postUsers username w =
  match truthyString username with
  | None => (fail 400 "Username is required", w)
  | Some name =>
      let w1 := consume (noteCall UserFindOne w) in
      match pending w with
      | Some e :: _ => (catchCreateUser e, w1)
      | _ =>
          match byName name (users w) with
          | Some found =>
              (json (JUser (User.username found) (User._id found)), w1)
          | None =>
              let w2 := consume (noteCall UserSave (drawId w1)) in
              match tl (pending w) with
              | Some e :: _ => (catchCreateUser e, w2)
              | _ => (json (JUser name (nextId w)),
                      withUser {| User._id := nextId w;
                                  User.username := name |} w2)
              end
          end
      end
  end.
Proof.
  unfold postUsers. destruct (truthyString username) as [name|];
    [|reflexivity].
  unfold tryCatch, bind at 1. rewrite User_findOne_run.
  destruct (pending w) as [|[e|] rest] eqn:Hp; simpl; try reflexivity.
  - destruct (byName name (users w)) as [found|] eqn:Hf; [reflexivity|].
    cbv beta iota delta [bind ret User_new freshId].
    rewrite User_save_run. simpl.
    rewrite Hp, Hf. reflexivity.
  - destruct (byName name (users w)) as [found|] eqn:Hf; [reflexivity|].
    cbv beta iota delta [bind ret User_new freshId].
    rewrite User_save_run. simpl.
    rewrite Hp. simpl. destruct rest as [|[e|] rest']; simpl;
      try reflexivity; rewrite Hf; reflexivity.
Qed.

Lemma getUsers_run (w : World) :
  getUsers w =
  match pending w with
  | Some e :: _ =>
      (fail 500 "Could not retrieve users", consume (noteCall UserFind w))
  | _ => (json (JUsers (users w)), consume (noteCall UserFind w))
  end.
Proof.
  unfold getUsers, tryCatch, bind. rewrite User_find_run.
  destruct (pending w) as [|[e|] rest]; reflexivity.
Qed.

Lemma postExercise_run (req : ExerciseRequest) (w : World) :
  postExercise host req w =
  match truthyString (ex_description req),
        truthyString (ex_duration req) with
  | Some description, Some duration =>
      match Js.parseInt duration with
      | None => (fail 400 "Duration must be a number", w)
      | Some durationNum =>
          match resolveDate host (ex_date req) (clock w) with
          | None => (fail 400 "Invalid date format", w)
          | Some exerciseDate =>
              let w1 := noteCall UserFindById w in
              match castObjectId host (ex_params_id req) with
              | None => (fail 400 "Invalid user ID format", w1)
              | Some oid =>
                  match pending w with
                  | Some e :: _ => (catchAddExercise e, consume w1)
                  | _ =>
                      match byId oid (users w) with
                      | None => (fail 404 "User not found", consume w1)
                      | Some user =>
                          let w2 :=
                            consume (noteCall ExerciseSave
                                       (drawId (consume w1))) in
                          match tl (pending w) with
                          | Some e :: _ => (catchAddExercise e, w2)
                          | _ =>
                              (json (JExercise (User.username user)
                                       description durationNum
                                       (toDateString host exerciseDate)
                                       (User._id user)),
                               withExercise
                                 {| Exercise._id := nextId w;
                                    Exercise.userId := User._id user;
                                    Exercise.description := description;
                                    Exercise.duration := durationNum;
                                    Exercise.date := exerciseDate |} w2)
                          end
                      end
                  end
              end
          end
      end
  | _, _ => (fail 400 "Description and duration are required", w)
  end.
Proof.
  unfold postExercise, send.
  destruct (truthyString (ex_description req)) as [description|];
    [|reflexivity].
  destruct (truthyString (ex_duration req)) as [duration|]; [|reflexivity].
  destruct (Js.parseInt duration) as [durationNum|]; [|reflexivity].
  destruct (resolveDate host (ex_date req) (clock w)) as [exerciseDate|];
    [|reflexivity].
  unfold tryCatch, bind at 1. rewrite User_findById_run.
  destruct (castObjectId host (ex_params_id req)) as [oid|]; [|reflexivity].
  destruct (pending w) as [|[e|] rest] eqn:Hp; simpl; try reflexivity;
    (destruct (byId oid (users w)) as [user|]; [|reflexivity]);
    cbv beta iota delta [bind ret Exercise_new freshId];
    rewrite Exercise_save_run;
    simpl; rewrite Hp; simpl; try reflexivity.
  destruct rest as [|[e|] rest']; reflexivity.
Qed.

Lemma getLogs_run (req : LogsRequest) (w : World) :
  getLogs host req w =
  let w1 := noteCall UserFindById w in
  match castObjectId host (log_params_id req) with
  | None => (fail 400 "Invalid user ID format", w1)
  | Some oid =>
      match pending w with
      | Some e :: _ => (catchFetchLogs e, consume w1)
      | _ =>
          match byId oid (users w) with
          | None => (fail 404 "User not found", consume w1)
          | Some user =>
              match applyFrom host (log_from req) emptyFilter with
              | inl early => (early, consume w1)
              | inr fromFilter =>
                  match applyTo host (log_to req) fromFilter with
                  | inl early => (early, consume w1)
                  | inr dateFilter =>
                      let query := logQuery req dateFilter in
                      let w2 := consume (noteCall ExerciseFind
                                           (consume w1)) in
                      match tl (pending w) with
                      | Some e :: _ => (catchFetchLogs e, w2)
                      | _ =>
                          let log :=
                            map (logEntry host)
                              (capped (q_limit query)
                                 (filter (selects oid (q_where query))
                                    (exercises w))) in
                          (json (JLog (User.username user)
                                   (List.length log) (User._id user) log),
                           w2)
                      end
                  end
              end
          end
      end
  end.
Proof.
  unfold getLogs, tryCatch, bind at 1. rewrite User_findById_run.
  destruct (castObjectId host (log_params_id req)) as [oid|] eqn:Hc;
    [|reflexivity].
  assert (Hq : forall f, castObjectId host (q_userId (logQuery req f))
                         = Some oid).
  { intro f. unfold logQuery. rewrite applyLimit_userId.
    destruct (0 <? keys f)%nat; exact Hc. }
  destruct (pending w) as [|[e|] rest] eqn:Hp; simpl; try reflexivity;
    (destruct (byId oid (users w)) as [user|]; [|reflexivity]);
    (destruct (applyFrom host (log_from req) emptyFilter)
       as [early|fromFilter]; [reflexivity|]);
    (destruct (applyTo host (log_to req) fromFilter)
       as [early|dateFilter]; [reflexivity|]);
    unfold bind, ret; fold (logQuery req dateFilter);
    rewrite exec_run, Hq; simpl; rewrite Hp; simpl; try reflexivity.
  destruct rest as [|[e|] rest']; reflexivity.
Qed.

End StorageFacts.

(** ** Calendar arithmetic *)

Module JsFacts.
Import Js.

Lemma quarter_step (y : Z) :
  (y + 1 - 1969) / 4 = (y - 1969) / 4 + (if y mod 4 =? 0 then 1 else 0).
Proof. destruct (Z.eqb_spec (y mod 4) 0); Z.div_mod_to_equations; lia. Qed.

Lemma century_step (y : Z) :
  (y + 1 - 1901) / 100
  = (y - 1901) / 100 + (if y mod 100 =? 0 then 1 else 0).
Proof. destruct (Z.eqb_spec (y mod 100) 0); Z.div_mod_to_equations; lia. Qed.

Lemma cycle_step (y : Z) :
  (y + 1 - 1601) / 400
  = (y - 1601) / 400 + (if y mod 400 =? 0 then 1 else 0).
Proof. destruct (Z.eqb_spec (y mod 400) 0); Z.div_mod_to_equations; lia. Qed.

Lemma century_is_quarter (y : Z) : y mod 100 = 0 -> y mod 4 = 0.
Proof. intros; Z.div_mod_to_equations; lia. Qed.

Lemma cycle_is_century (y : Z) : y mod 400 = 0 -> y mod 100 = 0.
Proof. intros; Z.div_mod_to_equations; lia. Qed.

(** Years follow one another: a year starts where the one before ends. *)
Lemma DayFromYear_succ (y : Z) :
  DayFromYear (y + 1) = DayFromYear y + DaysInYear y.
Proof.
  unfold DayFromYear, DaysInYear.
  rewrite quarter_step, century_step, cycle_step.
  destruct (Z.eqb_spec (y mod 400) 0) as [H400|H400].
  - rewrite (cycle_is_century _ H400),
      (century_is_quarter _ (cycle_is_century _ H400)).
    cbn [Z.eqb negb]. lia.
  - destruct (Z.eqb_spec (y mod 100) 0) as [H100|H100].
    + rewrite (century_is_quarter _ H100). cbn [Z.eqb negb]. lia.
    + destruct (Z.eqb_spec (y mod 4) 0); cbn [negb]; lia.
Qed.

Lemma DaysInYear_range (y : Z) : 365 <= DaysInYear y <= 366.
Proof. unfold DaysInYear. repeat destruct (negb _); lia. Qed.

Lemma DayFromYear_lt (y : Z) : DayFromYear y < DayFromYear (y + 1).
Proof. rewrite DayFromYear_succ. pose proof (DaysInYear_range y). lia. Qed.

Lemma DayFromYear_mono (a b : Z) : a <= b -> DayFromYear a <= DayFromYear b.
Proof.
  intros Hab. replace b with (a + Z.of_nat (Z.to_nat (b - a))) by lia.
  induction (Z.to_nat (b - a)) as [|n IH].
  - replace (a + Z.of_nat 0) with a by lia. lia.
  - replace (a + Z.of_nat (S n)) with (a + Z.of_nat n + 1) by lia.
    pose proof (DayFromYear_lt (a + Z.of_nat n)). lia.
Qed.

(** [YearFromDay d] is the year whose days include [d] ... *)
Lemma YearFromDay_spec (d : Z) :
  DayFromYear (YearFromDay d) <= d < DayFromYear (YearFromDay d + 1).
Proof.
  unfold YearFromDay.
  set (y := 1970 + 400 * d / 146097).
  assert (Hy : DayFromYear (y - 1) <= d < DayFromYear (y + 2)).
  { subst y. unfold DayFromYear. Z.div_mod_to_equations. lia. }
  destruct (Z.ltb_spec d (DayFromYear y)).
  - replace (y - 1 + 1) with y by lia. lia.
  - destruct (Z.leb_spec (DayFromYear (y + 1)) d).
    + replace (y + 1 + 1) with (y + 2) by lia. lia.
    + lia.
Qed.

(** ... and the only one. *)
Lemma YearFromDay_unique (d y : Z) :
  DayFromYear y <= d < DayFromYear (y + 1) -> YearFromDay d = y.
Proof.
  intros Hy. pose proof (YearFromDay_spec d) as Hs.
  destruct (Z.lt_trichotomy (YearFromDay d) y) as [Hlt|[Heq|Hgt]].
  - pose proof (DayFromYear_mono (YearFromDay d + 1) y ltac:(lia)). lia.
  - exact Heq.
  - pose proof (DayFromYear_mono (y + 1) (YearFromDay d) ltac:(lia)). lia.
Qed.

Lemma DayWithinYear_range (d : Z) :
  0 <= DayWithinYear d < DaysInYear (YearFromDay d).
Proof.
  unfold DayWithinYear. pose proof (YearFromDay_spec d) as Hs.
  rewrite DayFromYear_succ in Hs. lia.
Qed.

Lemma InLeapYear_days (y : Z) : DaysInYear y = 365 + InLeapYear y.
Proof.
  unfold InLeapYear. pose proof (DaysInYear_range y).
  destruct (Z.eqb_spec (DaysInYear y) 366); lia.
Qed.

Lemma MonthFromDay_range (d : Z) : 0 <= MonthFromDay d <= 11.
Proof. unfold MonthFromDay. repeat destruct (_ <? _); lia. Qed.

(** The day of the month lies between 1 and 31. *)
Lemma DateFromDay_range (d : Z) : 1 <= DateFromDay d <= 31.
Proof.
  unfold DateFromDay, MonthFromDay.
  pose proof (DayWithinYear_range d) as Hw.
  rewrite InLeapYear_days in Hw.
  assert (Hl : 0 <= InLeapYear (YearFromDay d) <= 1)
    by (unfold InLeapYear; destruct (_ =? _); lia).
  repeat match goal with
         | |- context [?a <? ?b] => destruct (Z.ltb_spec a b)
         end; cbn [monthStart] in *; lia.
Qed.

(** Looks the starts of the months up once the month is a numeral. *)
Ltac month_table :=
  repeat match goal with
         | H : context [monthStart _ (?a + 1)] |- _ =>
             let v := eval compute in (a + 1) in
             change (a + 1) with v in H
         end;
  cbn [monthStart] in *.

(** A day of a month is found again in the day number it makes. *)
Lemma MakeDay_inverse (y m dt : Z) :
  0 <= m <= 11 -> 1 <= dt <= DaysInMonth y m ->
  YearFromDay (MakeDay y m dt) = y
  /\ MonthFromDay (MakeDay y m dt) = m
  /\ DateFromDay (MakeDay y m dt) = dt.
Proof.
  intros Hm Hdt.
  assert (Hl : 0 <= InLeapYear y <= 1)
    by (unfold InLeapYear; destruct (_ =? _); lia).
  assert (Hy : YearFromDay (MakeDay y m dt) = y).
  { apply YearFromDay_unique. rewrite DayFromYear_succ, InLeapYear_days.
    unfold MakeDay, DaysInMonth in *.
    assert (Hc : m = 0 \/ m = 1 \/ m = 2 \/ m = 3 \/ m = 4 \/ m = 5 \/ m = 6
                 \/ m = 7 \/ m = 8 \/ m = 9 \/ m = 10 \/ m = 11) by lia.
    destruct Hc as [?|[?|[?|[?|[?|[?|[?|[?|[?|[?|[?|?]]]]]]]]]]]; subst m;
      month_table; lia. }
  assert (Hw : DayWithinYear (MakeDay y m dt)
               = monthStart (InLeapYear y) m + dt - 1).
  { unfold DayWithinYear. rewrite Hy. unfold MakeDay. lia. }
  unfold DateFromDay, MonthFromDay. rewrite Hw, Hy.
  unfold DaysInMonth in Hdt.
  assert (Hc : m = 0 \/ m = 1 \/ m = 2 \/ m = 3 \/ m = 4 \/ m = 5 \/ m = 6
               \/ m = 7 \/ m = 8 \/ m = 9 \/ m = 10 \/ m = 11) by lia.
  split; [reflexivity|].
  destruct Hc as [?|[?|[?|[?|[?|[?|[?|[?|[?|[?|[?|?]]]]]]]]]]]; subst m;
    month_table;
    repeat match goal with
           | |- context [?a <? ?b] => destruct (Z.ltb_spec a b); try lia
           end; cbn [monthStart]; lia.
Qed.

End JsFacts.

(** ** What the handlers answer *)

Section ServiceFacts.

Variable host : Host.

Lemma byId_Some (oid : ObjectId) (l : list User.t) (u : User.t) :
  byId oid l = Some u -> In u l /\ User._id u = oid.
Proof.
  unfold byId. intros H. apply find_some in H. destruct H as [Hin Heq].
  apply N.eqb_eq in Heq. auto.
Qed.

Lemma byName_Some (username : string) (l : list User.t) (u : User.t) :
  byName username l = Some u -> In u l /\ User.username u = username.
Proof.
  unfold byName. intros H. apply find_some in H. destruct H as [Hin Heq].
  apply String.eqb_eq in Heq. auto.
Qed.

Lemma byId_app (oid : ObjectId) (l more : list User.t) (u : User.t) :
  byId oid l = Some u -> byId oid (l ++ more) = Some u.
Proof.
  unfold byId. induction l as [|v l IH]; simpl; [discriminate|].
  destruct (N.eqb (User._id v) oid); auto.
Qed.

(** The [catch] blocks never answer 200 or 404. *)
Lemma catchCreateUser_status (e : JsError) :
  status (catchCreateUser e) = 400 \/ status (catchCreateUser e) = 500.
Proof.
  unfold catchCreateUser. destruct (code e) as [c|]; [|auto].
  destruct c as [|p|p]; auto.
  destruct (Pos.eq_dec p 11000) as [->|Hne]; [auto|].
  right. repeat (destruct p as [p|p|]; try reflexivity; try congruence).
Qed.

Lemma catchAddExercise_status (e : JsError) :
  status (catchAddExercise e) = 400 \/ status (catchAddExercise e) = 500.
Proof. unfold catchAddExercise. destruct (isIdCastError e); auto. Qed.

Lemma catchFetchLogs_status (e : JsError) :
  status (catchFetchLogs e) = 400 \/ status (catchFetchLogs e) = 500.
Proof. unfold catchFetchLogs. destruct (isIdCastError e); auto. Qed.

Lemma truthyString_Some (v : option string) (s : string) :
  truthyString v = Some s <-> v = Some s /\ s <> "".
Proof.
  unfold truthyString, Js.falsy.
  destruct v as [[|c s']|]; split; intros H.
  - discriminate.
  - destruct H as [[= <-] Hne]. congruence.
  - injection H as <-. split; [reflexivity|discriminate].
  - destruct H as [[= <-] _]. reflexivity.
  - discriminate.
  - destruct H; discriminate.
Qed.

Lemma truthyString_None (v : option string) :
  truthyString v = None <-> Js.falsy v = true.
Proof.
  unfold truthyString. destruct (Js.falsy v) eqn:Hf.
  - tauto.
  - destruct v; [split; discriminate|discriminate].
Qed.

(** A successful call of [postExercise], taken apart. *)
Lemma postExercise_ok (req : ExerciseRequest) (w w' : World)
  (r : Response) :
  postExercise host req w = (r, w') -> status r = 200 ->
  exists description duration durationNum exerciseDate user,
    truthyString (ex_description req) = Some description
    /\ truthyString (ex_duration req) = Some duration
    /\ Js.parseInt duration = Some durationNum
    /\ resolveDate host (ex_date req) (clock w) = Some exerciseDate
    /\ castObjectId host (ex_params_id req) = Some (User._id user)
    /\ byId (User._id user) (users w) = Some user
    /\ r = json (JExercise (User.username user) description durationNum
                   (toDateString host exerciseDate) (User._id user))
    /\ w' = withExercise
              {| Exercise._id := nextId w;
                 Exercise.userId := User._id user;
                 Exercise.description := description;
                 Exercise.duration := durationNum;
                 Exercise.date := exerciseDate |}
              (consume (noteCall ExerciseSave
                 (drawId (consume (noteCall UserFindById w))))).
Proof.
  rewrite postExercise_run.
  destruct (truthyString (ex_description req)) as [description|];
    [|intros [= <- _]; discriminate].
  destruct (truthyString (ex_duration req)) as [duration|];
    [|intros [= <- _]; discriminate].
  destruct (Js.parseInt duration) as [durationNum|] eqn:Hn;
    [|intros [= <- _]; discriminate].
  destruct (resolveDate host (ex_date req) (clock w)) as [exerciseDate|];
    [|intros [= <- _]; discriminate].
  cbv zeta.
  destruct (castObjectId host (ex_params_id req)) as [oid|];
    [|intros [= <- _]; discriminate].
  assert (Hcatch : forall e, status (catchAddExercise e) <> 200)
    by (intro e; destruct (catchAddExercise_status e); lia).
  destruct (pending w) as [|[e|] [|[e'|] rest]] eqn:Hp; cbn [tl];
    try (intros [= <- _] H200; now apply Hcatch in H200);
    (destruct (byId oid (users w)) as [user|] eqn:Hu;
       [|intros [= <- _]; discriminate]);
    destruct (byId_Some _ _ _ Hu) as [_ <-];
    try (intros [= <- _] H200; now apply Hcatch in H200);
    intros [= <- <-] _;
    exists description, duration, durationNum, exerciseDate, user;
    repeat split; auto.
Qed.

(** A successful call of [getLogs], taken apart. *)
Lemma getLogs_ok (req : LogsRequest) (w w' : World) (r : Response) :
  getLogs host req w = (r, w') -> status r = 200 ->
  exists user fromFilter dateFilter,
    castObjectId host (log_params_id req) = Some (User._id user)
    /\ byId (User._id user) (users w) = Some user
    /\ applyFrom host (log_from req) emptyFilter = inr fromFilter
    /\ applyTo host (log_to req) fromFilter = inr dateFilter
    /\ let log :=
         map (logEntry host)
           (capped (q_limit (logQuery req dateFilter))
              (filter (selects (User._id user)
                         (q_where (logQuery req dateFilter)))
                 (exercises w))) in
       r = json (JLog (User.username user) (List.length log)
                   (User._id user) log).
Proof.
  rewrite getLogs_run. cbv zeta.
  destruct (castObjectId host (log_params_id req)) as [oid|];
    [|intros [= <- _]; discriminate].
  assert (Hcatch : forall e, status (catchFetchLogs e) <> 200)
    by (intro e; destruct (catchFetchLogs_status e); lia).
  assert (Hfrom : forall early f,
    applyFrom host (log_from req) f = inl early -> status early <> 200).
  { unfold applyFrom. intros early f.
    destruct (truthyString (log_from req)); [|discriminate].
    destruct (Date_new host s); [discriminate|].
    intros [= <-]. discriminate. }
  assert (Hto : forall early f,
    applyTo host (log_to req) f = inl early -> status early <> 200).
  { unfold applyTo. intros early f.
    destruct (truthyString (log_to req)); [|discriminate].
    destruct (Date_new host s); [discriminate|].
    intros [= <-]. discriminate. }
  destruct (pending w) as [|[e|] [|[e'|] rest]] eqn:Hp; cbn [tl];
    try (intros [= <- _] H200; now apply Hcatch in H200);
    (destruct (byId oid (users w)) as [user|] eqn:Hu;
       [|intros [= <- _]; discriminate]);
    destruct (byId_Some _ _ _ Hu) as [_ <-];
    (destruct (applyFrom host (log_from req) emptyFilter)
       as [early|fromFilter] eqn:Hf;
       [intros [= <- _] H200; now apply (Hfrom _ _ Hf) in H200|]);
    (destruct (applyTo host (log_to req) fromFilter)
       as [early|dateFilter] eqn:Ht;
       [intros [= <- _] H200; now apply (Hto _ _ Ht) in H200|]);
    try (intros [= <- _] H200; now apply Hcatch in H200);
    intros [= <- _] _;
    exists user, fromFilter, dateFilter; repeat split; auto.
Qed.

End ServiceFacts.

(** ** Adding an exercise *)

Section AddExercise.

Variable host : Host.

(** The text of a date depends on the local calendar day alone. *)
Lemma toDateString_day (t1 t2 : Z) :
  Js.Day (t1 + LocalTZA host t1) = Js.Day (t2 + LocalTZA host t2) ->
  toDateString host t1 = toDateString host t2.
Proof. unfold toDateString. intros ->. reflexivity. Qed.

(** C9. An empty [date] field is a missing one: the two requests are
    answered alike and leave the same world; the answer is never "Invalid
    date format"; and an exercise that gets stored carries the clock's
    date. *)
Theorem postExercise_empty_date (req : ExerciseRequest) (w : World) :
  postExercise host (withDate (Some "") req) w
  = postExercise host (withDate None req) w
  /\ body (fst (postExercise host (withDate (Some "") req) w))
     <> JError "Invalid date format"
  /\ (status (fst (postExercise host (withDate (Some "") req) w)) = 200 ->
      exists saved,
        exercises (snd (postExercise host (withDate (Some "") req) w))
        = (exercises w ++ [saved])%list
        /\ Exercise.date saved = clock w).
Proof.
  split; [reflexivity|]. split.
  - rewrite postExercise_run.
    cbn [withDate ex_description ex_duration ex_date ex_params_id].
    destruct (truthyString (ex_description req)); [|discriminate].
    destruct (truthyString (ex_duration req)) as [duration|];
      [|discriminate].
    destruct (Js.parseInt duration); [|discriminate].
    change (resolveDate host (Some "") (clock w)) with (Some (clock w)).
    cbv zeta.
    assert (Hcatch : forall e,
      body (catchAddExercise e) <> JError "Invalid date format")
      by (intro e; unfold catchAddExercise; destruct (isIdCastError e);
          discriminate).
    destruct (castObjectId host (ex_params_id req)) as [oid|];
      [|discriminate].
    destruct (pending w) as [|[e|] [|[e'|] rest]]; cbn [tl];
      try apply Hcatch;
      (destruct (byId oid (users w)); [|discriminate]);
      try apply Hcatch; discriminate.
  - intros H200.
    destruct (postExercise_ok host (withDate (Some "") req) w _ _
                (surjective_pairing _) H200)
      as (description & duration & durationNum & exerciseDate & user
          & _ & _ & _ & Hdate & _ & _ & _ & ->).
    eexists. split; [reflexivity|]. cbn in Hdate. cbn. congruence.
Qed.

End AddExercise.


(** ** Refusing an exercise *)

(** Walks down the decision list of a handler, one scrutinee at a time,
    keeping what each test found. *)
Ltac walk :=
  repeat match goal with
         | |- context [match truthyString ?v with _ => _ end] =>
             destruct (truthyString v) eqn:?
         | |- context [match Js.parseInt ?s with _ => _ end] =>
             destruct (Js.parseInt s) eqn:?
         | |- context [match resolveDate ?h ?d ?c with _ => _ end] =>
             destruct (resolveDate h d c) eqn:?
         | |- context [match castObjectId ?h ?i with _ => _ end] =>
             destruct (castObjectId h i) eqn:?
         | |- context [match pending ?w with _ => _ end] =>
             destruct (pending w) as [|[?|] [|[?|] ?]] eqn:?; cbn [tl]
         | |- context [match byId ?o ?l with _ => _ end] =>
             destruct (byId o l) eqn:?
         | |- context [match byName ?n ?l with _ => _ end] =>
             destruct (byName n l) eqn:?
         | |- context [match applyFrom ?h ?v ?f with _ => _ end] =>
             destruct (applyFrom h v f) eqn:?
         | |- context [match applyTo ?h ?v ?f with _ => _ end] =>
             destruct (applyTo h v f) eqn:?
         end.

(** What a truthy field says about the field itself. *)
Ltac fields :=
  repeat match goal with
         | H : truthyString _ = Some _ |- _ =>
             apply truthyString_Some in H; destruct H
         | H : truthyString _ = None |- _ =>
             apply truthyString_None in H
         end.

Section RefuseExercise.

Variable host : Host.

Lemma available_S (n : nat) (w : World) :
  available (S n) w <-> hd None (pending w) = None /\ available n (consume w).
Proof.
  unfold available. cbn [consume pending].
  destruct (pending w) as [|f rest]; cbn [firstn hd tl].
  - split; [intros _; split; [reflexivity|]|intros _; constructor].
    destruct n; constructor.
  - split.
    + intros H. inversion H; subst. auto.
    + intros [-> H]. constructor; auto.
Qed.

Lemma available_1 (w : World) :
  available 1 w <-> hd None (pending w) = None.
Proof.
  rewrite available_S. unfold available. cbn [firstn].
  split; [tauto|]. intros H. split; [exact H|constructor].
Qed.

Lemma available_2 (w : World) :
  available 2 w <->
  hd None (pending w) = None /\ hd None (tl (pending w)) = None.
Proof.
  rewrite available_S, available_1. reflexivity.
Qed.

Lemma catchAddExercise_404 (e : JsError) :
  status (catchAddExercise e) <> 404.
Proof. destruct (catchAddExercise_status e); lia. Qed.

Lemma falsy_Some (s : string) : Js.falsy (Some s) = true -> s = "".
Proof. destruct s; [reflexivity|discriminate]. Qed.

Lemma postExercise_missing (req : ExerciseRequest) (w : World) :
  Js.falsy (ex_description req) = true
  \/ Js.falsy (ex_duration req) = true ->
  answer (postExercise host req) w
  = fail 400 "Description and duration are required".
Proof.
  unfold answer. rewrite postExercise_run.
  intros [H|H]; apply truthyString_None in H; rewrite H;
    [|destruct (truthyString (ex_description req))]; reflexivity.
Qed.

Lemma postExercise_bad_duration (req : ExerciseRequest) (w : World)
  (duration : string) :
  ex_duration req = Some duration -> Js.parseInt duration = None ->
  status (answer (postExercise host req) w) = 400.
Proof.
  intros Hdu Hn. unfold answer. rewrite postExercise_run.
  walk; try reflexivity; fields; congruence.
Qed.

Lemma postExercise_bad_date (req : ExerciseRequest) (w : World)
  (date : string) :
  ex_date req = Some date -> date <> "" -> Date_new host date = None ->
  status (answer (postExercise host req) w) = 400.
Proof.
  intros Hdate Hne Hnone.
  assert (Hr : resolveDate host (ex_date req) (clock w) = None).
  { unfold resolveDate.
    rewrite (proj2 (truthyString_Some _ _) (conj Hdate Hne)). exact Hnone. }
  unfold answer. rewrite postExercise_run.
  walk; try reflexivity; congruence.
Qed.

Lemma postExercise_bad_id (req : ExerciseRequest) (w : World) :
  castObjectId host (ex_params_id req) = None ->
  status (answer (postExercise host req) w) = 400.
Proof.
  intros Hc. unfold answer. rewrite postExercise_run.
  walk; try reflexivity; congruence.
Qed.

Lemma postExercise_404 (req : ExerciseRequest) (w : World) :
  status (answer (postExercise host req) w) = 404 <->
  acceptable host req (clock w)
  /\ available 1 w
  /\ exists oid,
       castObjectId host (ex_params_id req) = Some oid
       /\ byId oid (users w) = None.
Proof.
  unfold answer, acceptable. rewrite available_1, postExercise_run.
  split.
  - walk; cbn [fst fail status]; try discriminate;
      try (intros H; now apply catchAddExercise_404 in H);
      intros _; (split; [eauto 10|split; [reflexivity|eauto]]).
  - intros [(description & duration & durationNum & exerciseDate
             & -> & -> & -> & ->) [Hav (oid & -> & ->)]].
    cbv zeta. destruct (pending w) as [|[e|] rest]; cbn in Hav;
      try discriminate; reflexivity.
Qed.

Lemma postExercise_order (req : ExerciseRequest) (w : World)
  (description duration : string) :
  truthyString (ex_description req) = Some description ->
  truthyString (ex_duration req) = Some duration ->
  (Js.parseInt duration = None ->
   answer (postExercise host req) w = fail 400 "Duration must be a number")
  /\ (forall durationNum,
        Js.parseInt duration = Some durationNum ->
        resolveDate host (ex_date req) (clock w) = None ->
        answer (postExercise host req) w = fail 400 "Invalid date format")
  /\ (acceptable host req (clock w) ->
      castObjectId host (ex_params_id req) = None ->
      answer (postExercise host req) w
      = fail 400 "Invalid user ID format").
Proof.
  intros Hd Hdu. unfold answer, acceptable. rewrite postExercise_run.
  rewrite Hd, Hdu. repeat split.
  - intros ->. reflexivity.
  - intros durationNum -> ->. reflexivity.
  - intros (? & ? & durationNum & exerciseDate & _ & [= <-] & -> & ->) ->.
    reflexivity.
Qed.

(** C4. [POST /api/users/:_id/exercises] answers 400 whenever the
    description or the duration is missing, whenever [parseInt] reads no
    number in the duration, whenever a date is given and cannot be parsed,
    and whenever the path identifier cannot be cast; it answers 404 exactly
    when the body passes, the identifier is cast, the lookup goes through
    and finds no user.  The checks come in that order: each message is
    sent when the checks before it pass. *)
Theorem postExercise_failures (req : ExerciseRequest) (w : World) :
  (Js.falsy (ex_description req) = true
   \/ Js.falsy (ex_duration req) = true ->
   answer (postExercise host req) w
   = fail 400 "Description and duration are required")
  /\ (forall duration,
        ex_duration req = Some duration -> Js.parseInt duration = None ->
        status (answer (postExercise host req) w) = 400)
  /\ (forall date,
        ex_date req = Some date -> date <> "" ->
        Date_new host date = None ->
        status (answer (postExercise host req) w) = 400)
  /\ (castObjectId host (ex_params_id req) = None ->
      status (answer (postExercise host req) w) = 400)
  /\ (status (answer (postExercise host req) w) = 404 <->
      acceptable host req (clock w)
      /\ available 1 w
      /\ exists oid,
           castObjectId host (ex_params_id req) = Some oid
           /\ byId oid (users w) = None)
  /\ (forall description duration,
        truthyString (ex_description req) = Some description ->
        truthyString (ex_duration req) = Some duration ->
        (Js.parseInt duration = None ->
         answer (postExercise host req) w
         = fail 400 "Duration must be a number")
        /\ (forall durationNum,
              Js.parseInt duration = Some durationNum ->
              resolveDate host (ex_date req) (clock w) = None ->
              answer (postExercise host req) w
              = fail 400 "Invalid date format")
        /\ (acceptable host req (clock w) ->
            castObjectId host (ex_params_id req) = None ->
            answer (postExercise host req) w
            = fail 400 "Invalid user ID format")).
Proof.
  split; [apply postExercise_missing|].
  split; [apply postExercise_bad_duration|].
  split; [apply postExercise_bad_date|].
  split; [apply postExercise_bad_id|].
  split; [apply postExercise_404|].
  apply postExercise_order.
Qed.

End RefuseExercise.

(** ** Reading a log *)

Section ReadLog.

Variable host : Host.

Lemma applyFrom_inr (from : option string) (f f' : DateFilter) :
  applyFrom host from f = inr f' ->
  (truthyString from = None /\ f' = f)
  \/ exists s fromDate,
       truthyString from = Some s /\ Date_new host s = Some fromDate
       /\ f' = {| gte := Some fromDate; lte := lte f |}.
Proof.
  unfold applyFrom. destruct (truthyString from) as [s|].
  - destruct (Date_new host s) as [fromDate|] eqn:Hd; [|discriminate].
    intros [= <-]. right. eauto.
  - intros [= <-]. auto.
Qed.

Lemma applyTo_inr (to : option string) (f f' : DateFilter) :
  applyTo host to f = inr f' ->
  (truthyString to = None /\ f' = f)
  \/ exists s toDate,
       truthyString to = Some s /\ Date_new host s = Some toDate
       /\ f' = {| gte := gte f; lte := Some toDate |}.
Proof.
  unfold applyTo. destruct (truthyString to) as [s|].
  - destruct (Date_new host s) as [toDate|] eqn:Hd; [|discriminate].
    intros [= <-]. right. eauto.
  - intros [= <-]. auto.
Qed.

(** The cap of the query is the limit when [parseInt] reads a positive
    number in it, and no cap otherwise. *)
Lemma logQuery_limit (req : LogsRequest) (f : DateFilter) :
  q_limit (logQuery req f)
  = match Js.parseInt (Js.ToString (log_limit req)) with
    | Some n => if Js.positive n then Some n else None
    | None => None
    end.
Proof.
  unfold logQuery, applyLimit.
  destruct (Js.parseInt _) as [n|]; [destruct (Js.positive n)|];
    destruct (0 <? keys f)%nat; reflexivity.
Qed.

Lemma logQuery_where (req : LogsRequest) (f : DateFilter) :
  q_where (logQuery req f) = if (0 <? keys f)%nat then Some f else None.
Proof.
  unfold logQuery. rewrite applyLimit_where.
  destruct (0 <? keys f)%nat; reflexivity.
Qed.

Lemma capped_length {A} (n : option Js.number) (l : list A) :
  (List.length (capped n l) <= List.length l)%nat.
Proof.
  destruct n as [[n|negative]|]; cbn [capped]; [|lia|lia].
  rewrite length_firstn. lia.
Qed.

Lemma capped_In {A} (n : option Js.number) (l : list A) (x : A) :
  In x (capped n l) -> In x l.
Proof.
  destruct n as [[n|negative]|]; cbn [capped]; [|auto|auto].
  rewrite <- (firstn_skipn (Z.to_nat n) l) at 2.
  intros H. apply in_or_app. auto.
Qed.

Lemma filter_length_weaker {A} (p q : A -> bool) (l : list A) :
  (forall x, p x = true -> q x = true) ->
  (List.length (filter p l) <= List.length (filter q l))%nat.
Proof.
  intros Hpq. induction l as [|x l IH]; [reflexivity|]. cbn [filter].
  destruct (p x) eqn:Hp.
  - rewrite (Hpq x Hp). cbn [List.length]. lia.
  - destruct (q x); cbn [List.length]; lia.
Qed.

Lemma matchesDate_spec (f : DateFilter) (d : Z) :
  matchesDate f d = true <->
  (forall a, gte f = Some a -> a <= d)
  /\ (forall b, lte f = Some b -> d <= b).
Proof.
  unfold matchesDate. rewrite andb_true_iff.
  destruct (gte f) as [a|], (lte f) as [b|]; rewrite ?Z.leb_le;
    split.
  all: try (intros [Ha Hb]; split; intros ? [= <-]; assumption).
  all: try (intros [Ha Hb]; split; intros; try discriminate; auto).
  all: try (intros [Ha Hb]; split; auto).
Qed.

(** A filter without keys is not applied, and holds of every date. *)
Lemma selects_keys (oid : ObjectId) (f : DateFilter) (ex : Exercise.t) :
  selects oid (if (0 <? keys f)%nat then Some f else None) ex = true <->
  Exercise.userId ex = oid /\ matchesDate f (Exercise.date ex) = true.
Proof.
  destruct f as [[a|] [b|]]; unfold selects;
    cbn [keys matchesDate gte lte Nat.add Nat.ltb Nat.leb];
    rewrite ?andb_true_iff, ?N.eqb_eq; intuition auto.
Qed.

(** The keys of the filter are the bounds that were given, not empty. *)
Lemma dateFilter_bounds (from to : option string) (f1 f2 : DateFilter) :
  applyFrom host from emptyFilter = inr f1 ->
  applyTo host to f1 = inr f2 ->
  (forall a, gte f2 = Some a <->
     exists s, from = Some s /\ s <> "" /\ Date_new host s = Some a)
  /\ (forall b, lte f2 = Some b <->
        exists s, to = Some s /\ s <> "" /\ Date_new host s = Some b).
Proof.
  intros Hfrom Hto. apply applyFrom_inr in Hfrom. apply applyTo_inr in Hto.
  assert (Hnone : forall v : option string, Js.falsy v = true ->
    forall (x : Z), (exists s, v = Some s /\ s <> "" /\ Date_new host s = Some x)
                    -> False).
  { intros v Hv x (s & -> & Hne & _). apply falsy_Some in Hv. auto. }
  destruct Hfrom as [[Hf ->]|(s1 & fromDate & Hf & Hfd & ->)];
    destruct Hto as [[Ht ->]|(s2 & toDate & Ht & Htd & ->)];
    fields; cbn [gte lte emptyFilter]; split; intros x; split.
  all: try discriminate.
  all: try (intros [= <-]; eauto; fail).
  all: intros Hex;
    try (exfalso;
         first [exact (Hnone _ Hf _ Hex)|exact (Hnone _ Ht _ Hex)]).
  all: destruct Hex as (s & Hs & Hne & Hd); congruence.
Qed.

(** C2. A successful [GET /api/users/:_id/logs] answers with the name and
    identifier of the user, a log, and a count that is the length of that
    log: the entries left after the date filter and the limit, at most as
    many as the user owns.  Every entry is the description, the duration
    and the date text of one of the user's exercises, and a limit in which
    [parseInt] reads a positive number bounds the length of the log. *)
Theorem getLogs_success_response (req : LogsRequest) (w w' : World)
  (r : Response) :
  getLogs host req w = (r, w') ->
  status r = 200 ->
  exists user count log,
    castObjectId host (log_params_id req) = Some (User._id user)
    /\ In user (users w)
    /\ body r = JLog (User.username user) count (User._id user) log
    /\ count = List.length log
    /\ (forall entry, In entry log ->
          exists ex,
            In ex (exercises w)
            /\ Exercise.userId ex = User._id user
            /\ entry = {| LogEntry.description := Exercise.description ex;
                          LogEntry.duration := Exercise.duration ex;
                          LogEntry.date :=
                            toDateString host (Exercise.date ex) |})
    /\ (count <= List.length
                   (filter (fun ex => N.eqb (Exercise.userId ex)
                                        (User._id user))
                      (exercises w)))%nat
    /\ (forall lim n,
          log_limit req = Some lim ->
          Js.parseInt lim = Some (Js.Finite n) -> 0 < n ->
          Z.of_nat (List.length log) <= n).
Proof.
  intros Hrun H200.
  destruct (getLogs_ok host req w w' r Hrun H200)
    as (user & fromFilter & dateFilter & Hcast & Hu & _ & _ & Hr).
  cbv zeta in Hr. subst r.
  destruct (byId_Some _ _ _ Hu) as [Hin _].
  eexists user, _, _.
  split; [exact Hcast|]. split; [exact Hin|].
  split; [reflexivity|]. split; [reflexivity|]. split; [|split].
  - intros entry Hentry. apply in_map_iff in Hentry.
    destruct Hentry as (ex & <- & Hex). apply capped_In in Hex.
    apply filter_In in Hex. destruct Hex as [Hex Hsel].
    unfold selects in Hsel. apply andb_true_iff in Hsel.
    destruct Hsel as [Hid _]. apply N.eqb_eq in Hid.
    exists ex. auto.
  - rewrite length_map.
    etransitivity; [apply capped_length|].
    apply filter_length_weaker. intros ex Hsel. unfold selects in Hsel.
    apply andb_true_iff in Hsel. tauto.
  - intros lim n Hlim Hn Hpos. rewrite length_map, logQuery_limit, Hlim.
    cbn [Js.ToString]. rewrite Hn. cbn [Js.positive].
    destruct (Z.ltb_spec 0 n); [|lia]. cbn [capped].
    rewrite length_firstn. lia.
Qed.

(** C3, as the code has it.  With bounds that parse, the log of a
    successful [GET /api/users/:_id/logs] holds, in stored order and cut
    to the first [limit] entries when a positive limit is given, exactly
    the user's exercises whose stored instant lies between the instants
    read from [from] and [to], each bound applying only when given and
    not empty.  The comparison is between instants, not calendar days. *)
Theorem getLogs_date_range (req : LogsRequest) (w w' : World)
  (r : Response) :
  getLogs host req w = (r, w') ->
  status r = 200 ->
  exists user keep log,
    castObjectId host (log_params_id req) = Some (User._id user)
    /\ body r = JLog (User.username user) (List.length log)
                  (User._id user) log
    /\ (forall ex,
          keep ex = true <->
          Exercise.userId ex = User._id user
          /\ (forall from fromDate,
                log_from req = Some from -> from <> "" ->
                Date_new host from = Some fromDate ->
                fromDate <= Exercise.date ex)
          /\ (forall to toDate,
                log_to req = Some to -> to <> "" ->
                Date_new host to = Some toDate ->
                Exercise.date ex <= toDate))
    /\ (forall n,
          Js.parseInt (Js.ToString (log_limit req)) = Some (Js.Finite n) ->
          0 < n ->
          log = map (logEntry host)
                  (firstn (Z.to_nat n) (filter keep (exercises w))))
    /\ (Js.parseInt (Js.ToString (log_limit req)) = None
        \/ (exists n,
              Js.parseInt (Js.ToString (log_limit req))
              = Some (Js.Finite n)
              /\ n <= 0)
        \/ Js.parseInt (Js.ToString (log_limit req))
           = Some (Js.Infinite true) ->
        log = map (logEntry host) (filter keep (exercises w))).
Proof.
  intros Hrun H200.
  destruct (getLogs_ok host req w w' r Hrun H200)
    as (user & fromFilter & dateFilter & Hcast & Hu & Hfrom & Hto & Hr).
  cbv zeta in Hr. subst r.
  exists user,
    (selects (User._id user) (q_where (logQuery req dateFilter))).
  eexists. split; [exact Hcast|]. split; [reflexivity|]. split; [|split].
  - intros ex. rewrite logQuery_where, selects_keys.
    rewrite matchesDate_spec.
    destruct (dateFilter_bounds _ _ _ _ Hfrom Hto) as [Hlo Hhi].
    split; intros (Hid & Hge & Hle); (split; [exact Hid|split]).
    + intros from fromDate Hs Hne Hd. apply Hge, Hlo. eauto.
    + intros to toDate Hs Hne Hd. apply Hle, Hhi. eauto.
    + intros a Ha. apply Hlo in Ha. destruct Ha as (s & Hs & Hne & Hd).
      eauto.
    + intros b Hb. apply Hhi in Hb. destruct Hb as (s & Hs & Hne & Hd).
      eauto.
  - intros n Hn Hpos. rewrite logQuery_limit, Hn. cbn [Js.positive].
    destruct (Z.ltb_spec 0 n); [reflexivity|lia].
  - intros [Hn|[(n & Hn & Hle)|Hn]];
      rewrite logQuery_limit, Hn; cbn [Js.positive];
      [reflexivity| |reflexivity].
    destruct (Z.ltb_spec 0 n); [lia|reflexivity].
Qed.

End ReadLog.

(** ** Limits that are not applied *)

Section IgnoredLimit.

Variable host : Host.

Lemma applyLimit_ignored (lim : string) (q : ExerciseQuery) :
  Js.parseInt lim = None
  \/ (exists n, Js.parseInt lim = Some (Js.Finite n) /\ n <= 0)
  \/ Js.parseInt lim = Some (Js.Infinite true) ->
  applyLimit (Some lim) q = applyLimit None q.
Proof.
  unfold applyLimit. cbn [Js.ToString].
  change (Js.parseInt "undefined") with (@None Js.number).
  intros [->|[(n & -> & Hn)| ->]]; [reflexivity| |reflexivity].
  cbn [Js.positive]. destruct (Z.ltb_spec 0 n); [lia|reflexivity].
Qed.

(** C10. A limit in which [parseInt] reads no number, zero or a negative
    number, the negative infinity included, is not applied and raises no error: the request is answered as
    the same request without limit, and leaves the same world. *)
Theorem getLogs_ignores_limit (req : LogsRequest) (lim : string)
  (w : World) :
  Js.parseInt lim = None
  \/ (exists n, Js.parseInt lim = Some (Js.Finite n) /\ n <= 0)
  \/ Js.parseInt lim = Some (Js.Infinite true) ->
  getLogs host (withLimit (Some lim) req) w
  = getLogs host (withLimit None req) w.
Proof.
  intros Hlim. rewrite !getLogs_run. unfold logQuery.
  cbn [withLimit log_params_id log_from log_to log_limit].
  cbv zeta. walk; try reflexivity;
    rewrite (applyLimit_ignored lim _ Hlim); reflexivity.
Qed.

End IgnoredLimit.

(** ** Creating a user *)

Section CreateUser.

(** The first user of a name is the user of that name when names are
    unique. *)
Lemma byName_unique (l : list User.t) (u : User.t) :
  NoDup (map User.username l) -> In u l ->
  byName (User.username u) l = Some u.
Proof.
  unfold byName. induction l as [|v l IH]; [contradiction|].
  cbn [map find]. intros Hnd Hin. inversion Hnd as [|? ? Hnotin Hnd']; subst.
  destruct Hin as [->|Hin].
  - rewrite String.eqb_refl. reflexivity.
  - destruct (String.eqb_spec (User.username v) (User.username u))
      as [Heq|Hne]; [|auto].
    exfalso. apply Hnotin. rewrite Heq. apply in_map. exact Hin.
Qed.

(** C6. When the lookup of [POST /api/users] finds nobody, so that the
    insert is tried, and the backend refuses the insert with an error
    whose code is 11000, the answer is 400 with the message "Username
    already taken" (so capitalised in the source), not the 500 of the
    other storage failures. *)
Theorem postUsers_duplicate_key (username : option string) (name : string)
  (w : World) (e : JsError) (rest : list (option JsError)) :
  truthyString username = Some name ->
  byName name (users w) = None ->
  pending w = None :: Some e :: rest ->
  code e = Some 11000 ->
  answer (postUsers username) w = fail 400 "Username already taken"
  /\ status (answer (postUsers username) w) <> 500.
Proof.
  intros Hname Hnone Hp Hcode. unfold answer.
  rewrite postUsers_run, Hname, Hp, Hnone. cbn [tl fst].
  unfold catchCreateUser. rewrite Hcode. split; [reflexivity|discriminate].
Qed.

(** C7. Creating a user whose name is already in the store answers with
    the stored user, name and identifier, and stores nothing. *)
Theorem postUsers_existing (w : World) (u : User.t) :
  In u (users w) ->
  uniqueNames w ->
  User.username u <> "" ->
  available 1 w ->
  answer (postUsers (Some (User.username u))) w
  = json (JUser (User.username u) (User._id u))
  /\ users (snd (postUsers (Some (User.username u)) w)) = users w
  /\ exercises (snd (postUsers (Some (User.username u)) w)) = exercises w.
Proof.
  intros Hin Huniq Hne Hav. unfold answer.
  rewrite postUsers_run.
  rewrite (proj2 (truthyString_Some _ _) (conj eq_refl Hne)).
  rewrite (byName_unique _ _ Huniq Hin).
  apply available_1 in Hav.
  destruct (pending w) as [|[e|] rest]; cbn in Hav; try discriminate;
    repeat split.
Qed.

(** The unique index at work: no request makes two users share a name. *)
Lemma postUsers_uniqueNames (username : option string) (w : World) :
  uniqueNames w -> uniqueNames (snd (postUsers username w)).
Proof.
  unfold uniqueNames. intros Huniq. rewrite postUsers_run.
  walk; cbn [snd users consume noteCall drawId withUser]; try exact Huniq.
  all: rewrite map_app; cbn [map User.username].
  all: apply NoDup_app; [exact Huniq|repeat constructor; auto|].
  all: intros a Ha [<-|[]]; apply in_map_iff in Ha;
    destruct Ha as (v & Hv & Hin).
  all: match goal with
       | H : byName ?n _ = None |- _ =>
           apply (find_none _ _ H) in Hin; cbn in Hin;
           rewrite Hv, String.eqb_refl in Hin; discriminate
       end.
Qed.

End CreateUser.

(** ** Validation and the store *)

Section Validation.

Variable host : Host.

(** Whether a date resolves does not depend on the clock. *)
Lemma resolveDate_None (date : option string) (now now' : Z) :
  resolveDate host date now = None -> resolveDate host date now' = None.
Proof.
  unfold resolveDate. destruct (truthyString date); [auto|discriminate].
Qed.

Lemma acceptable_clock (req : ExerciseRequest) (now now' : Z) :
  acceptable host req now -> acceptable host req now'.
Proof.
  intros (description & duration & durationNum & exerciseDate
          & Hd & Hdu & Hn & Hdate).
  destruct (resolveDate host (ex_date req) now') as [d|] eqn:Hd'.
  - exists description, duration, durationNum, d. auto.
  - apply (resolveDate_None _ _ now) in Hd'. congruence.
Qed.

Lemma postExercise_refused_body (req : ExerciseRequest) (now : Z) :
  ~ acceptable host req now ->
  exists m, forall w, postExercise host req w = (fail 400 m, w).
Proof.
  unfold acceptable. intros Hno.
  destruct (truthyString (ex_description req)) as [description|] eqn:Hd.
  2: { eexists. intros w. rewrite postExercise_run, Hd. reflexivity. }
  destruct (truthyString (ex_duration req)) as [duration|] eqn:Hdu.
  2: { eexists. intros w. rewrite postExercise_run, Hd, Hdu. reflexivity. }
  destruct (Js.parseInt duration) as [durationNum|] eqn:Hn.
  2: { eexists. intros w. rewrite postExercise_run, Hd, Hdu, Hn.
       reflexivity. }
  destruct (resolveDate host (ex_date req) now) as [exerciseDate|] eqn:Hdate.
  - exfalso. apply Hno. eauto 10.
  - eexists. intros w. rewrite postExercise_run, Hd, Hdu, Hn.
    rewrite (resolveDate_None _ _ _ Hdate). reflexivity.
Qed.

Lemma postExercise_refused_id (req : ExerciseRequest) (now : Z) :
  acceptable host req now ->
  castObjectId host (ex_params_id req) = None ->
  forall w,
    postExercise host req w
    = (fail 400 "Invalid user ID format", noteCall UserFindById w).
Proof.
  intros Hacc Hc w. apply (acceptable_clock _ _ (clock w)) in Hacc.
  destruct Hacc as (description & duration & durationNum & exerciseDate
                    & Hd & Hdu & Hn & Hdate).
  rewrite postExercise_run, Hd, Hdu, Hn, Hdate, Hc. reflexivity.
Qed.

Lemma getLogs_refused_id (req : LogsRequest) (w : World) :
  castObjectId host (log_params_id req) = None ->
  getLogs host req w
  = (fail 400 "Invalid user ID format", noteCall UserFindById w).
Proof. intros Hc. rewrite getLogs_run, Hc. reflexivity. Qed.

Lemma catchFetchLogs_400 (e : JsError) :
  status (catchFetchLogs e) = 400 ->
  body (catchFetchLogs e) = JError "Invalid user ID format".
Proof.
  unfold catchFetchLogs. destruct (isIdCastError e);
    [reflexivity|discriminate].
Qed.

(** The bounds of a log are checked once the user is found. *)
Lemma getLogs_refused_bound (req : LogsRequest) (w : World) :
  status (answer (getLogs host req) w) = 400 ->
  body (answer (getLogs host req) w) <> JError "Invalid user ID format" ->
  snd (getLogs host req w) = consume (noteCall UserFindById w)
  /\ available 1 w
  /\ exists oid user,
       castObjectId host (log_params_id req) = Some oid
       /\ byId oid (users w) = Some user.
Proof.
  unfold answer. rewrite available_1, getLogs_run. cbv zeta.
  walk; cbn [fst snd hd]; intros H400 Hbody;
    try discriminate;
    try (exfalso; apply Hbody; reflexivity);
    try (exfalso; apply Hbody; now apply catchFetchLogs_400);
    eauto 10.
Qed.

(** C5, as the code has it.  A missing username, and a body of an
    exercise that fails one of its checks, are answered 400 before any
    storage call, in the same words whatever the world.  An identifier
    that cannot be cast is answered 400 whatever the world too, by the
    lookup call itself, before any round trip to the backend.  The bounds
    of a log are checked only after the user was looked up and found. *)
Theorem validation_and_storage :
  (forall username w,
     Js.falsy username = true ->
     postUsers username w = (fail 400 "Username is required", w))
  /\ (forall req now,
        ~ acceptable host req now ->
        exists m, forall w, postExercise host req w = (fail 400 m, w))
  /\ (forall req now,
        acceptable host req now ->
        castObjectId host (ex_params_id req) = None ->
        forall w,
          postExercise host req w
          = (fail 400 "Invalid user ID format", noteCall UserFindById w))
  /\ (forall req w,
        castObjectId host (log_params_id req) = None ->
        getLogs host req w
        = (fail 400 "Invalid user ID format", noteCall UserFindById w))
  /\ (forall req w,
        status (answer (getLogs host req) w) = 400 ->
        body (answer (getLogs host req) w)
        <> JError "Invalid user ID format" ->
        snd (getLogs host req w) = consume (noteCall UserFindById w)
        /\ available 1 w
        /\ exists oid user,
             castObjectId host (log_params_id req) = Some oid
             /\ byId oid (users w) = Some user).
Proof.
  split.
  { intros username w Hf. rewrite postUsers_run.
    apply truthyString_None in Hf. rewrite Hf. reflexivity. }
  split; [exact postExercise_refused_body|].
  split; [exact postExercise_refused_id|].
  split; [exact getLogs_refused_id|exact getLogs_refused_bound].
Qed.

End Validation.

(** ** The store over time *)

Section OverTime.

Variable host : Host.

Lemma extends_refl (w : World) : extends w w.
Proof. split; exists []; rewrite app_nil_r; reflexivity. Qed.

Lemma extends_trans (w1 w2 w3 : World) :
  extends w1 w2 -> extends w2 w3 -> extends w1 w3.
Proof.
  intros [[u1 Hu1] [e1 He1]] [[u2 Hu2] [e2 He2]]. split.
  - exists (u1 ++ u2)%list. rewrite Hu2, Hu1, app_assoc. reflexivity.
  - exists (e1 ++ e2)%list. rewrite He2, He1, app_assoc. reflexivity.
Qed.

Lemma extends_same (w w' : World) :
  users w' = users w -> exercises w' = exercises w -> extends w w'.
Proof.
  intros Hu He. split; exists []; rewrite app_nil_r; assumption.
Qed.

(** No handler removes or changes a stored document. *)
Lemma handle_extends (r : Request) (w : World) :
  extends w (snd (handle host r w)).
Proof.
  destruct r as [username| |req|req]; cbn [handle].
  - rewrite postUsers_run. cbv zeta.
    walk; cbn [snd]; try (apply extends_same; reflexivity).
    all: split; [eexists; reflexivity|exists []; rewrite app_nil_r;
                                      reflexivity].
  - rewrite getUsers_run.
    destruct (pending w) as [|[e|] rest]; apply extends_same; reflexivity.
  - rewrite postExercise_run. cbv zeta.
    walk; cbn [snd]; try (apply extends_same; reflexivity).
    all: split; [exists []; rewrite app_nil_r; reflexivity|
                 eexists; reflexivity].
  - rewrite getLogs_run. cbv zeta.
    walk; cbn [snd]; apply extends_same; reflexivity.
Qed.

Lemma later_extends (w1 w2 : World) : later host w1 w2 -> extends w1 w2.
Proof.
  induction 1 as [w|w1 w2 w3 _ IH Hstep]; [apply extends_refl|].
  apply (extends_trans _ _ _ IH).
  destruct Hstep as [r w2|clock' pending' w2].
  - apply handle_extends.
  - apply extends_same; reflexivity.
Qed.

(** Only [postUsers] touches the users and the next identifier grows. *)
Lemma handle_users (r : Request) (w : World) :
  (users (snd (handle host r w)) = users w
   /\ (nextId w <= nextId (snd (handle host r w)))%N)
  \/ exists username,
       r = PostUsers username
       /\ snd (handle host r w) = snd (postUsers username w).
Proof.
  destruct r as [username| |req|req]; cbn [handle].
  - right. eauto.
  - left. rewrite getUsers_run.
    destruct (pending w) as [|[e|] rest]; cbn; split; (reflexivity || lia).
  - left. rewrite postExercise_run. cbv zeta.
    walk; cbn; split; (reflexivity || lia).
  - left. rewrite getLogs_run. cbv zeta.
    walk; cbn; split; (reflexivity || lia).
Qed.

Lemma postUsers_freshIds (username : option string) (w : World) :
  freshIds w -> freshIds (snd (postUsers username w)).
Proof.
  unfold freshIds. intros Hfresh. rewrite postUsers_run. cbv zeta.
  walk; cbn [snd users nextId consume noteCall drawId withUser];
    try exact Hfresh.
  all: intros u Hin;
    first [ apply in_app_or in Hin;
            destruct Hin as [Hin|[<-|[]]]; [apply Hfresh in Hin|cbn]; lia
          | apply Hfresh in Hin; lia ].
Qed.

Lemma step_invariants (w w' : World) :
  step host w w' ->
  (uniqueNames w -> uniqueNames w') /\ (freshIds w -> freshIds w').
Proof.
  intros [r w0|clock' pending' w0]; [|split; auto].
  destruct (handle_users r w0) as [[Hu Hn]|(username & -> & ->)].
  - unfold uniqueNames, freshIds. rewrite Hu. split; [auto|].
    intros Hfresh u Hin. apply Hfresh in Hin. lia.
  - split; [apply postUsers_uniqueNames|apply postUsers_freshIds].
Qed.

(** What the unique index and the identifier supply maintain holds at
    every later time. *)
Lemma later_invariants (w1 w2 : World) :
  later host w1 w2 ->
  (uniqueNames w1 -> uniqueNames w2) /\ (freshIds w1 -> freshIds w2).
Proof.
  induction 1 as [w|w1 w2 w3 _ [IHu IHf] Hstep]; [auto|].
  destruct (step_invariants _ _ Hstep). auto.
Qed.

Lemma filter_In_app {A} (p : A -> bool) (l1 l2 : list A) (x : A) :
  p x = true -> In x (filter p ((l1 ++ [x]) ++ l2)).
Proof.
  intros Hp. apply filter_In. split; [|exact Hp].
  apply in_or_app. left. apply in_or_app. right. left. reflexivity.
Qed.

(** C8. An exercise that was added with success is found in the
    unfiltered log of the same user at any later time, with the
    description, the duration and the date text of the answer that
    acknowledged it. *)
Theorem exercise_round_trip (req : ExerciseRequest) (w w1 w2 : World)
  (r : Response) :
  postExercise host req w = (r, w1) ->
  status r = 200 ->
  later host w1 w2 ->
  available 2 w2 ->
  exists username description duration date _id log,
    body r = JExercise username description duration date _id
    /\ answer (getLogs host (logsOf (ex_params_id req))) w2
       = json (JLog username (List.length log) _id log)
    /\ In {| LogEntry.description := description;
             LogEntry.duration := duration;
             LogEntry.date := date |} log.
Proof.
  intros Hrun H200 Hlater Hav.
  destruct (postExercise_ok host req w w1 r Hrun H200)
    as (description & duration & durationNum & exerciseDate & user
        & Hd & Hdu & Hn & Hdate & Hcast & Hu & -> & ->).
  apply later_extends in Hlater.
  destruct Hlater as [[moreUsers Husers] [moreExercises Hexercises]].
  cbn [users exercises withExercise consume noteCall drawId]
    in Husers, Hexercises.
  apply available_2 in Hav. destruct Hav as [Hav1 Hav2].
  eexists _, _, _, _, _, _. split; [reflexivity|].
  unfold answer. rewrite getLogs_run.
  cbn [logsOf log_params_id log_from log_to]. rewrite Hcast.
  rewrite Husers, (byId_app _ _ moreUsers _ Hu), Hexercises.
  change (applyFrom host None emptyFilter) with (@inr Response _ emptyFilter).
  cbv beta iota.
  change (applyTo host None emptyFilter) with (@inr Response _ emptyFilter).
  cbv beta iota zeta.
  assert (Hq : logQuery (logsOf (ex_params_id req)) emptyFilter
               = Exercise_find (ex_params_id req)) by reflexivity.
  rewrite Hq. cbn [Exercise_find q_limit q_where capped].
  destruct (pending w2) as [|[e|] [|[e'|] rest]]; cbn in Hav1, Hav2;
    try discriminate; cbn [tl fst]; (split; [reflexivity|]);
    apply in_map_iff; eexists; (split; [|apply filter_In_app]);
    try reflexivity; unfold selects; cbn [Exercise.userId];
    rewrite N.eqb_refl; reflexivity.
Qed.

End OverTime.

(** ** The properties at work on the reference host *)

(** The refusals of an exercise, one request for each, and one request
    that fails every check and is told about the first. *)
Example refusals_in_order :
  answer (postExercise utcHost
            {| ex_params_id := annId; ex_description := Some "";
               ex_duration := Some "45"; ex_date := None |}) annWorld
  = fail 400 "Description and duration are required"
  /\ answer (postExercise utcHost
               {| ex_params_id := annId; ex_description := Some "run";
                  ex_duration := Some "fast"; ex_date := None |}) annWorld
     = fail 400 "Duration must be a number"
  /\ answer (postExercise utcHost
               {| ex_params_id := annId; ex_description := Some "run";
                  ex_duration := Some "45"; ex_date := Some "someday" |})
        annWorld
     = fail 400 "Invalid date format"
  /\ answer (postExercise utcHost
               {| ex_params_id := "nobody"; ex_description := Some "run";
                  ex_duration := Some "45"; ex_date := None |}) annWorld
     = fail 400 "Invalid user ID format"
  /\ answer (postExercise utcHost runRequest) emptyWorld
     = fail 404 "User not found"
  /\ answer (postExercise utcHost
               {| ex_params_id := "nobody"; ex_description := None;
                  ex_duration := Some "fast"; ex_date := Some "someday" |})
        emptyWorld
     = fail 400 "Description and duration are required".
Proof. repeat split. Qed.

(** An empty date and no date, side by side. *)
Example empty_date_is_today :
  answer (postExercise utcHost (withDate (Some "") runRequest)) annWorld
  = json (JExercise "ann" "run" (Js.Finite 45) "Tue Jan 31 2023" (User._id ann))
  /\ answer (postExercise utcHost (withDate None runRequest)) annWorld
     = json (JExercise "ann" "run" (Js.Finite 45) "Tue Jan 31 2023" (User._id ann)).
Proof. split; reflexivity. Qed.

(** The count is the length of the log, not what the user owns: Ann ran
    twice, and a log limited to one entry counts one. *)
Example count_is_not_total :
  List.length
    (filter (fun ex => N.eqb (Exercise.userId ex) (User._id ann))
       (exercises (snd (postExercise utcHost runRequest annRanWorld))))
  = 2%nat
  /\ exists entry,
       answer (getLogs utcHost (withLimit (Some "1") (logsOf annId)))
         (snd (postExercise utcHost runRequest annRanWorld))
       = json (JLog "ann" 1 (User._id ann) [entry]).
Proof. split; [reflexivity|]. eexists. reflexivity. Qed.

(** C3 as stated fails: an exercise logged at noon on 31 January 2023 is
    dated on that day, and the log up to [2023-01-31] leaves it out,
    because the bound is the midnight that starts the day. *)
Lemma to_day_left_out :
  Date_new utcHost "2023-01-31" = Some 1675123200000
  /\ toDateString utcHost 1675123200000 = "Tue Jan 31 2023"
  /\ (exists ex,
        exercises annRanWorld = [ex]
        /\ Exercise.userId ex = User._id ann
        /\ toDateString utcHost (Exercise.date ex) = "Tue Jan 31 2023")
  /\ answer (getLogs utcHost untilJan31) annRanWorld
     = json (JLog "ann" 0 (User._id ann) []).
Proof.
  split; [reflexivity|]. split; [reflexivity|]. split; [|reflexivity].
  eexists. split; [reflexivity|]. split; reflexivity.
Qed.

(** C1 as stated fails: a duration of 310 digits is coercible, the
    request succeeds, and the duration of the answer is no integer but an
    infinity, which the answer shows as [null]. *)
Lemma duration_beyond_the_doubles :
  truthyString (ex_duration endlessRun) = Some (String "1" (Js.zeros 309))
  /\ Js.parseMathInt (String "1" (Js.zeros 309)) = Some (10 ^ 309)
  /\ Js.isNaN (Js.parseInt (String "1" (Js.zeros 309))) = false
  /\ answer (postExercise utcHost endlessRun) annWorld
     = json (JExercise "ann" "run" (Js.Infinite false) "Sun Jan 01 2023"
               (User._id ann))
  /\ Js.jsonNumber (Js.Infinite false) = None.
Proof. repeat split; vm_compute; reflexivity. Qed.

(** C5 as stated fails: the bound of a log is refused with 400 after the
    lookup of the user, and the same request is answered 404 in a store
    without that user. *)
Lemma bound_refused_after_lookup :
  answer (getLogs utcHost sinceYesterday) annWorld
  = fail 400 "Invalid 'from' date format"
  /\ calls (snd (getLogs utcHost sinceYesterday annWorld)) = [UserFindById]
  /\ answer (getLogs utcHost sinceYesterday) emptyWorld
     = fail 404 "User not found".
Proof. repeat split. Qed.

(** The first entry of January in the log of Ann, after her run. *)
Lemma getLogs_success_witness :
  status (answer (getLogs utcHost firstOfJanuary) annRanWorld) = 200
  /\ exists user count log,
       body (answer (getLogs utcHost firstOfJanuary) annRanWorld)
       = JLog (User.username user) count (User._id user) log
       /\ count = List.length log
       /\ Z.of_nat (List.length log) <= 1.
Proof.
  split; [reflexivity|].
  destruct (getLogs_success_response utcHost firstOfJanuary annRanWorld
              _ _ (surjective_pairing _) eq_refl)
    as (user & count & log & _ & _ & Hbody & Hcount & _ & _ & Hlim).
  exists user, count, log. split; [exact Hbody|]. split; [exact Hcount|].
  apply (Hlim "1"); [reflexivity|reflexivity|lia].
Defined.

(** The same request, read as a range of instants and a cap. *)
Lemma getLogs_date_range_witness :
  status (answer (getLogs utcHost firstOfJanuary) annRanWorld) = 200
  /\ exists user keep log,
       body (answer (getLogs utcHost firstOfJanuary) annRanWorld)
       = JLog (User.username user) (List.length log) (User._id user) log
       /\ log = map (logEntry utcHost)
                  (firstn 1 (filter keep (exercises annRanWorld))).
Proof.
  split; [reflexivity|].
  destruct (getLogs_date_range utcHost firstOfJanuary annRanWorld
              _ _ (surjective_pairing _) eq_refl)
    as (user & keep & log & _ & Hbody & _ & Hcap & _).
  exists user, keep, log. split; [exact Hbody|].
  apply (Hcap 1); [reflexivity|lia].
Defined.

(** Bob signs up while another request takes his name. *)
Lemma postUsers_duplicate_key_witness :
  truthyString (Some "bob") = Some "bob"
  /\ byName "bob" (users raceWorld) = None
  /\ pending raceWorld = [None; Some DuplicateKeyError]
  /\ code DuplicateKeyError = Some 11000
  /\ answer (postUsers (Some "bob")) raceWorld
     = fail 400 "Username already taken".
Proof.
  repeat (split; [reflexivity|]).
  exact (proj1 (postUsers_duplicate_key (Some "bob") "bob" raceWorld
                  DuplicateKeyError [] eq_refl eq_refl eq_refl eq_refl)).
Defined.

Lemma uniqueNames_annWorld : uniqueNames annWorld.
Proof. repeat constructor. cbn. tauto. Defined.

Lemma available_annWorld (n : nat) : available n annWorld.
Proof. unfold available. cbn. destruct n; constructor. Defined.

(** Ann signs up again. *)
Lemma postUsers_existing_witness :
  In ann (users annWorld)
  /\ User.username ann <> ""
  /\ answer (postUsers (Some (User.username ann))) annWorld
     = json (JUser (User.username ann) (User._id ann))
  /\ users (snd (postUsers (Some (User.username ann)) annWorld))
     = users annWorld.
Proof.
  assert (Hin : In ann (users annWorld)) by (left; reflexivity).
  assert (Hne : User.username ann <> "") by discriminate.
  split; [exact Hin|]. split; [exact Hne|].
  destruct (postUsers_existing annWorld ann Hin uniqueNames_annWorld Hne
              (available_annWorld 1)) as (Hanswer & Husers & _).
  split; assumption.
Defined.

(** Ann logs a run, Bob signs up, and the run is in the log of Ann. *)
Lemma exercise_round_trip_witness :
  status (answer (postExercise utcHost runRequest) annWorld) = 200
  /\ exists log,
       answer (getLogs utcHost (logsOf annId))
         (snd (postUsers (Some "bob") annRanWorld))
       = json (JLog "ann" (List.length log) (User._id ann) log)
       /\ In {| LogEntry.description := "run"; LogEntry.duration := Js.Finite 45;
                LogEntry.date := "Tue Jan 31 2023" |} log.
Proof.
  split; [reflexivity|].
  assert (Hlater : later utcHost annRanWorld
                     (snd (postUsers (Some "bob") annRanWorld))).
  { eapply later_step; [apply later_now|].
    exact (step_request utcHost (PostUsers (Some "bob")) annRanWorld). }
  assert (Hav : available 2 (snd (postUsers (Some "bob") annRanWorld)))
    by (unfold available; cbn; constructor).
  destruct (exercise_round_trip utcHost runRequest annWorld annRanWorld _
              (answer (postExercise utcHost runRequest) annWorld)
              eq_refl eq_refl Hlater Hav)
    as (username & description & duration & date & _id & log
        & Hbody & Hlog & Hin).
  cbn in Hbody. injection Hbody as <- <- <- <- <-.
  exists log. split; assumption.
Defined.

(** A limit that is a word, a limit below zero, and a limit below every
    double. *)
Lemma getLogs_ignores_limit_witness :
  Js.parseInt "none" = None
  /\ getLogs utcHost (withLimit (Some "none") (logsOf annId)) annRanWorld
     = getLogs utcHost (withLimit None (logsOf annId)) annRanWorld
  /\ getLogs utcHost (withLimit (Some "-3") (logsOf annId)) annRanWorld
     = getLogs utcHost (withLimit None (logsOf annId)) annRanWorld
  /\ getLogs utcHost
       (withLimit (Some (String "-" (String "1" (Js.zeros 309))))
          (logsOf annId)) annRanWorld
     = getLogs utcHost (withLimit None (logsOf annId)) annRanWorld.
Proof.
  split; [reflexivity|]. split; [|split].
  - apply getLogs_ignores_limit. left. reflexivity.
  - apply getLogs_ignores_limit. right. left. exists (-3).
    split; [reflexivity|lia].
  - apply getLogs_ignores_limit. right. right. vm_compute. reflexivity.
Defined.

(** * Further properties of the handlers *)

(** ** Users: creating, creating again, listing *)

Section Users.

Variable host : Host.

(** A 200 answer of [postUsers], taken apart: the user was found, or was
    added at the end with the next identifier. *)
Lemma postUsers_ok (username : option string) (w w' : World)
  (r : Response) :
  postUsers username w = (r, w') -> status r = 200 ->
  exists name u,
    truthyString username = Some name
    /\ User.username u = name
    /\ r = json (JUser name (User._id u))
    /\ exercises w' = exercises w
    /\ ((byName name (users w) = Some u /\ users w' = users w)
        \/ (byName name (users w) = None
            /\ users w' = (users w ++ [u])%list
            /\ User._id u = nextId w)).
Proof.
  rewrite postUsers_run. cbv zeta.
  assert (Hcatch : forall e, status (catchCreateUser e) <> 200)
    by (intro e; destruct (catchCreateUser_status e); lia).
  destruct (truthyString username) as [name|];
    [|intros [= <- _]; discriminate].
  destruct (pending w) as [|[e|] [|[e'|] rest]]; cbn [tl];
    try (intros [= <- _] H200; now apply Hcatch in H200);
    (destruct (byName name (users w)) as [found|] eqn:Hf;
     [destruct (byName_Some _ _ _ Hf) as [_ Hname];
      intros [= <- <-] _; exists name, found; rewrite Hname; auto 10|]);
    try (intros [= <- _] H200; now apply Hcatch in H200);
    intros [= <- <-] _;
    exists name, {| User._id := nextId w; User.username := name |};
    cbn; auto 10.
Qed.

Lemma named_absent (l : list User.t) (username : string) :
  ~ In username (map User.username l) -> named username l = [].
Proof.
  unfold named. induction l as [|v l IH]; [reflexivity|].
  cbn [map filter In]. intros Hnotin.
  destruct (String.eqb_spec (User.username v) username) as [Heq|Hne];
    [tauto|apply IH; tauto].
Qed.

Lemma named_unique (l : list User.t) (u : User.t) :
  NoDup (map User.username l) -> In u l ->
  named (User.username u) l = [u].
Proof.
  induction l as [|v l IH]; [contradiction|].
  cbn [map]. intros Hnd Hin.
  inversion Hnd as [|? ? Hnotin Hnd']; subst.
  unfold named. cbn [filter]. fold (named (User.username u) l).
  destruct Hin as [->|Hin].
  - rewrite String.eqb_refl, (named_absent _ _ Hnotin). reflexivity.
  - destruct (String.eqb_spec (User.username v) (User.username u))
      as [Heq|Hne]; [|auto].
    exfalso. apply Hnotin. rewrite Heq. apply in_map. exact Hin.
Qed.

Lemma getUsers_available (w : World) :
  available 1 w ->
  getUsers w = (json (JUsers (users w)), consume (noteCall UserFind w)).
Proof.
  intros Hav. apply available_1 in Hav. rewrite getUsers_run.
  destruct (pending w) as [|[e|] rest]; cbn in Hav; try discriminate;
    reflexivity.
Qed.

(** What a 200 answer of [postUsers] leaves in every later store. *)
Lemma created_user_stays (username : option string) (w w1 w2 : World)
  (r : Response) :
  postUsers username w = (r, w1) -> status r = 200 ->
  uniqueNames w -> later host w1 w2 ->
  exists u,
    body r = JUser (User.username u) (User._id u)
    /\ username = Some (User.username u)
    /\ User.username u <> ""
    /\ In u (users w2)
    /\ uniqueNames w2.
Proof.
  intros Hrun H200 Huniq Hlater.
  assert (Huniq1 : uniqueNames w1).
  { replace w1 with (snd (postUsers username w)) by (rewrite Hrun; auto).
    apply postUsers_uniqueNames. exact Huniq. }
  destruct (postUsers_ok _ _ _ _ Hrun H200)
    as (name & u & Hname & Hu & -> & _ & Hcase).
  apply truthyString_Some in Hname. destruct Hname as [-> Hne].
  assert (Hin1 : In u (users w1)).
  { destruct Hcase as [[Hf ->]|(_ & -> & _)].
    - apply (byName_Some _ _ _ Hf).
    - apply in_or_app. right. left. reflexivity. }
  destruct (later_extends host _ _ Hlater) as [[more Hmore] _].
  exists u. subst name. repeat split; auto.
  - rewrite Hmore. apply in_or_app. auto.
  - apply (later_invariants host _ _ Hlater). exact Huniq1.
Qed.

(** X1. A user that was created is listed ever after: when [POST
    /api/users] answers 200 in a store with unique names, [GET /api/users]
    at any later time whose round trip goes through answers with a list
    that holds that name with that identifier, and holds the name once. *)
Theorem created_user_is_listed (username : option string)
  (w w1 w2 : World) (r : Response) :
  postUsers username w = (r, w1) ->
  status r = 200 ->
  uniqueNames w ->
  later host w1 w2 ->
  available 1 w2 ->
  exists name id all,
    body r = JUser name id
    /\ answer getUsers w2 = json (JUsers all)
    /\ named name all = [{| User._id := id; User.username := name |}].
Proof.
  intros Hrun H200 Huniq Hlater Hav.
  destruct (created_user_stays _ _ _ _ _ Hrun H200 Huniq Hlater)
    as (u & Hbody & _ & _ & Hin & Huniq2).
  exists (User.username u), (User._id u), (users w2).
  split; [exact Hbody|]. unfold answer.
  rewrite (getUsers_available _ Hav). split; [reflexivity|].
  rewrite (named_unique _ _ Huniq2 Hin). destruct u; reflexivity.
Qed.

(** X2. Creating a user again gives the same identifier, whatever
    happened in between: when [POST /api/users] answers 200 in a store
    with unique names, the same request at any later time whose lookup
    goes through gets the same answer, and adds no user. *)
Theorem created_user_is_kept (username : option string)
  (w w1 w2 : World) (r : Response) :
  postUsers username w = (r, w1) ->
  status r = 200 ->
  uniqueNames w ->
  later host w1 w2 ->
  available 1 w2 ->
  answer (postUsers username) w2 = r
  /\ users (snd (postUsers username w2)) = users w2.
Proof.
  intros Hrun H200 Huniq Hlater Hav.
  destruct (created_user_stays _ _ _ _ _ Hrun H200 Huniq Hlater)
    as (u & Hbody & -> & Hne & Hin & Huniq2).
  unfold answer. rewrite postUsers_run.
  rewrite (proj2 (truthyString_Some _ _) (conj eq_refl Hne)).
  rewrite (byName_unique _ _ Huniq2 Hin).
  apply available_1 in Hav.
  assert (Hr : r = json (JUser (User.username u) (User._id u))).
  { destruct r as [st b]. cbn in H200, Hbody. subst. reflexivity. }
  destruct (pending w2) as [|[e|] rest]; cbn in Hav; try discriminate;
    rewrite Hr; split; reflexivity.
Qed.

End Users.

(** ** Answers and the store *)

Section AnswersAndStore.

Variable host : Host.

Lemma catchCreateUser_other (e : JsError) :
  code e <> Some 11000 ->
  catchCreateUser e = fail 500 "Could not create user".
Proof.
  unfold catchCreateUser. intros Hcode.
  destruct (code e) as [c|]; [|reflexivity].
  destruct c as [|p|p]; try reflexivity.
  destruct (Pos.eq_dec p 11000) as [->|Hne]; [congruence|].
  repeat (destruct p as [p|p|]; try reflexivity; try congruence).
Qed.

Lemma code_11000_dec (e : JsError) :
  {code e = Some 11000} + {code e <> Some 11000}.
Proof.
  destruct (code e) as [c|]; [|right; discriminate].
  destruct (Z.eq_dec c 11000) as [->|Hne]; [left; reflexivity|].
  right. congruence.
Qed.

Lemma catchCreateUser_fail (e : JsError) :
  exists s m, catchCreateUser e = fail s m /\ (s = 400 \/ s = 500).
Proof.
  destruct (code_11000_dec e) as [Hc|Hc].
  - unfold catchCreateUser. rewrite Hc. eauto.
  - rewrite (catchCreateUser_other e Hc). eauto.
Qed.

Lemma catchAddExercise_fail (e : JsError) :
  exists s m, catchAddExercise e = fail s m /\ (s = 400 \/ s = 500).
Proof. unfold catchAddExercise. destruct (isIdCastError e); eauto. Qed.

Lemma catchFetchLogs_fail (e : JsError) :
  exists s m, catchFetchLogs e = fail s m /\ (s = 400 \/ s = 500).
Proof. unfold catchFetchLogs. destruct (isIdCastError e); eauto. Qed.

Lemma applyFrom_inl (from : option string) (f : DateFilter)
  (early : Response) :
  applyFrom host from f = inl early ->
  early = fail 400 "Invalid 'from' date format"
  /\ exists s, truthyString from = Some s /\ Date_new host s = None.
Proof.
  unfold applyFrom. destruct (truthyString from) as [s|]; [|discriminate].
  destruct (Date_new host s) eqn:Hd; [discriminate|].
  intros [= <-]. eauto.
Qed.

Lemma applyTo_inl (to : option string) (f : DateFilter)
  (early : Response) :
  applyTo host to f = inl early ->
  early = fail 400 "Invalid 'to' date format"
  /\ exists s, truthyString to = Some s /\ Date_new host s = None.
Proof.
  unfold applyTo. destruct (truthyString to) as [s|]; [|discriminate].
  destruct (Date_new host s) eqn:Hd; [discriminate|].
  intros [= <-]. eauto.
Qed.

(** Names the answer of a [catch] block, and of a refused bound. *)
Ltac name_failures :=
  repeat match goal with
         | |- context [catchCreateUser ?e] =>
             let s := fresh "s" in let m := fresh "m" in
             let E := fresh "E" in let H := fresh "H" in
             destruct (catchCreateUser_fail e) as (s & m & E & H);
             rewrite E in *; clear E
         | |- context [catchAddExercise ?e] =>
             let s := fresh "s" in let m := fresh "m" in
             let E := fresh "E" in let H := fresh "H" in
             destruct (catchAddExercise_fail e) as (s & m & E & H);
             rewrite E in *; clear E
         | |- context [catchFetchLogs ?e] =>
             let s := fresh "s" in let m := fresh "m" in
             let E := fresh "E" in let H := fresh "H" in
             destruct (catchFetchLogs_fail e) as (s & m & E & H);
             rewrite E in *; clear E
         | H : applyFrom _ _ _ = inl ?early |- _ =>
             apply applyFrom_inl in H; destruct H as [-> _]
         | H : applyTo _ _ _ = inl ?early |- _ =>
             apply applyTo_inl in H; destruct H as [-> _]
         end.

(** Runs a request down to its answer and world, case by case. *)
Ltac run_handle r :=
  destruct r as [?username| |?req|?req]; cbn [handle];
  [rewrite postUsers_run|rewrite getUsers_run
   |rewrite postExercise_run|rewrite getLogs_run];
  cbv zeta; walk; name_failures; cbn [fst snd].

(** X3. Every answer of the service is a 200, a 400, a 404 or a 500; it
    carries an [error] message exactly when it is not a 200; creating a
    user never answers 404 and listing the users answers 200 or 500. *)
Theorem answers_are_classified (r : Request) (w : World) :
  (status (answer (handle host r) w) = 200
   \/ status (answer (handle host r) w) = 400
   \/ status (answer (handle host r) w) = 404
   \/ status (answer (handle host r) w) = 500)
  /\ (status (answer (handle host r) w) <> 200 <->
      exists m, body (answer (handle host r) w) = JError m)
  /\ (forall username,
        r = PostUsers username ->
        status (answer (handle host r) w) <> 404)
  /\ (r = GetUsers ->
      status (answer (handle host r) w) = 200
      \/ status (answer (handle host r) w) = 500).
Proof.
  unfold answer. run_handle r.
  all: repeat split; cbn [status body fail json]; auto.
  all: try discriminate; try (intros; discriminate).
  all: try (intros _; eauto; fail).
  all: try (intros [? [=]]; fail).
  all: try (intros; congruence).
  all: try (intros; eexists; reflexivity).
  all: repeat match goal with
              | H : _ = 400 \/ _ = 500 |- _ => destruct H; subst
              end; auto; try lia; try discriminate;
       try (intros; lia).
Qed.

(** X4. A request that is not answered 200 stores nothing, and neither
    does any [GET]: the users and the exercises are what they were. *)
Theorem refused_requests_store_nothing (r : Request) (w : World) :
  status (answer (handle host r) w) <> 200
  \/ r = GetUsers
  \/ (exists req, r = GetLogs req) ->
  users (snd (handle host r w)) = users w
  /\ exercises (snd (handle host r w)) = exercises w.
Proof.
  unfold answer. run_handle r.
  all: cbn [status json fail]; intros [H200|[Hr|[q Hr]]];
    try discriminate; try (exfalso; apply H200; reflexivity);
    split; reflexivity.
Qed.

(** X5. A failure of the backend during [POST /api/users], at the lookup
    or at the insert, is answered by the [catch] block and no user is
    stored; when the code of the error is not 11000 the answer is 500
    "Could not create user", whatever else the error says. *)
Theorem postUsers_backend_failure (username : option string)
  (name : string) (w : World) (e : JsError) :
  truthyString username = Some name ->
  hd None (pending w) = Some e
  \/ (hd None (pending w) = None
      /\ byName name (users w) = None
      /\ hd None (tl (pending w)) = Some e) ->
  answer (postUsers username) w = catchCreateUser e
  /\ (code e <> Some 11000 ->
      answer (postUsers username) w = fail 500 "Could not create user")
  /\ users (snd (postUsers username w)) = users w.
Proof.
  intros Hname Hfail. unfold answer. rewrite postUsers_run, Hname.
  cbv zeta.
  assert (Hgoal : forall (a : Response) (w' : World),
    a = catchCreateUser e -> users w' = users w ->
    fst (a, w') = catchCreateUser e
    /\ (code e <> Some 11000 ->
        fst (a, w') = fail 500 "Could not create user")
    /\ users (snd (a, w')) = users w).
  { intros a w' -> Hu. cbn [fst snd]. split; [reflexivity|].
    split; [apply catchCreateUser_other|exact Hu]. }
  destruct Hfail as [H1|(H1 & Hnone & H2)].
  - destruct (pending w) as [|[e1|] rest]; cbn in H1; try discriminate.
    injection H1 as ->. apply Hgoal; reflexivity.
  - rewrite Hnone.
    destruct (pending w) as [|[e1|] [|[e2|] rest]]; cbn in H1, H2;
      try discriminate.
    injection H2 as ->. cbn [tl]. apply Hgoal; reflexivity.
Qed.

Lemma step_referenced (w w' : World) :
  step host w w' -> referenced w -> referenced w'.
Proof.
  intros [r w0|clock' pending' w0] Href; [|exact Href].
  unfold referenced in *. run_handle r.
  all: cbn [users exercises consume noteCall drawId withUser withExercise];
    try exact Href.
  all: intros ex Hex;
    first
      [ apply in_app_or in Hex; destruct Hex as [Hex|[<-|[]]];
        [ apply Href, Hex
        | match goal with
          | H : byId _ _ = Some ?u |- _ =>
              exists u; split; [apply (byId_Some _ _ _ H)|reflexivity]
          end ]
      | destruct (Href ex Hex) as (u & Hu & Hid);
        exists u; split; [apply in_or_app; auto|exact Hid] ].
Qed.

(** X6. Every stored exercise belongs to a stored user, and stays so:
    when it holds of a store it holds at every later time, whatever the
    requests, since an exercise is stored under the identifier of the user
    that the lookup returned and no user is ever removed. *)
Theorem exercises_stay_referenced (w1 w2 : World) :
  later host w1 w2 -> referenced w1 -> referenced w2.
Proof.
  induction 1 as [w|w1 w2 w3 _ IH Hstep]; [auto|].
  intros Href. apply (step_referenced _ _ Hstep). auto.
Qed.

Lemma step_filled (w w' : World) :
  step host w w' -> filled w -> filled w'.
Proof.
  intros [r w0|clock' pending' w0] Hfill; [|exact Hfill].
  destruct Hfill as [Hu He]. unfold filled. run_handle r.
  all: cbn [users exercises consume noteCall drawId withUser withExercise];
    try (split; assumption).
  all: fields; split; try assumption.
  all: intros x Hx; apply in_app_or in Hx; destruct Hx as [Hx|[<-|[]]];
    auto.
Qed.

(** X7. No stored user has an empty name and no stored exercise an empty
    description, at any later time, whatever the requests: the handlers
    refuse an empty field before they store. *)
Theorem stored_fields_stay_filled (w1 w2 : World) :
  later host w1 w2 -> filled w1 -> filled w2.
Proof.
  induction 1 as [w|w1 w2 w3 _ IH Hstep]; [auto|].
  intros Hfill. apply (step_filled _ _ Hstep). auto.
Qed.

End AnswersAndStore.

(** ** Logs: refusals, bounds and limits *)

Section Logs.

Variable host : Host.

Lemma catchFetchLogs_404 (e : JsError) : status (catchFetchLogs e) <> 404.
Proof. destruct (catchFetchLogs_status e); lia. Qed.

Lemma catchFetchLogs_other (e : JsError) :
  isIdCastError e = false ->
  catchFetchLogs e = fail 500 "Could not retrieve logs".
Proof. unfold catchFetchLogs. intros ->. reflexivity. Qed.

(** X8. [GET /api/users/:_id/logs] answers 404 exactly when the
    identifier is cast, the lookup goes through and finds no user,
    whatever the bounds and the limit.  Once the user is found, a lower
    bound that does not parse is refused first, an upper bound that does
    not parse next, and no query is run.  A failure of the backend that is
    not a cast error on [_id] is answered 500 "Could not retrieve logs". *)
Theorem getLogs_failures (req : LogsRequest) (w : World) :
  (status (answer (getLogs host req) w) = 404 <->
   available 1 w
   /\ exists oid,
        castObjectId host (log_params_id req) = Some oid
        /\ byId oid (users w) = None)
  /\ (forall oid user from,
        castObjectId host (log_params_id req) = Some oid ->
        available 1 w ->
        byId oid (users w) = Some user ->
        truthyString (log_from req) = Some from ->
        Date_new host from = None ->
        getLogs host req w
        = (fail 400 "Invalid 'from' date format",
           consume (noteCall UserFindById w)))
  /\ (forall oid user fromFilter to,
        castObjectId host (log_params_id req) = Some oid ->
        available 1 w ->
        byId oid (users w) = Some user ->
        applyFrom host (log_from req) emptyFilter = inr fromFilter ->
        truthyString (log_to req) = Some to ->
        Date_new host to = None ->
        getLogs host req w
        = (fail 400 "Invalid 'to' date format",
           consume (noteCall UserFindById w)))
  /\ (forall oid e,
        castObjectId host (log_params_id req) = Some oid ->
        hd None (pending w) = Some e ->
        isIdCastError e = false ->
        answer (getLogs host req) w = fail 500 "Could not retrieve logs").
Proof.
  unfold answer. rewrite available_1, getLogs_run. cbv zeta.
  split; [|split; [|split]].
  - split.
    + walk;
        repeat match goal with
               | H : applyFrom _ _ _ = inl _ |- _ =>
                   apply applyFrom_inl in H; destruct H as [-> _]
               | H : applyTo _ _ _ = inl _ |- _ =>
                   apply applyTo_inl in H; destruct H as [-> _]
               end;
        cbn [fst status fail json]; intros H404;
        try discriminate H404;
        try (now apply catchFetchLogs_404 in H404);
        (split; [reflexivity|eauto]).
    + intros [Hav (oid & -> & ->)].
      destruct (pending w) as [|[e|] rest]; cbn in Hav; try discriminate;
        reflexivity.
  - intros oid user from -> Hav -> Hfrom Hnone. apply available_1 in Hav.
    unfold applyFrom. rewrite Hfrom, Hnone.
    destruct (pending w) as [|[e|] rest]; cbn in Hav; try discriminate;
      reflexivity.
  - intros oid user fromFilter to -> Hav -> -> Hto Hnone.
    apply available_1 in Hav. unfold applyTo. rewrite Hto, Hnone.
    destruct (pending w) as [|[e|] rest]; cbn in Hav; try discriminate;
      reflexivity.
  - intros oid e -> Hhd Hother.
    destruct (pending w) as [|[e'|] rest]; cbn in Hhd; try discriminate.
    injection Hhd as ->. cbn [fst]. apply catchFetchLogs_other, Hother.
Qed.

Lemma filter_none {A} (p : A -> bool) (l : list A) :
  (forall x, In x l -> p x = false) -> filter p l = [].
Proof.
  induction l as [|x l IH]; [reflexivity|]. intros Hp. cbn [filter].
  rewrite (Hp x (or_introl eq_refl)). apply IH.
  intros y Hy. apply Hp. right. exact Hy.
Qed.

Lemma capped_nil {A} (n : option Js.number) : capped n (@nil A) = [].
Proof.
  destruct n as [[n|negative]|]; [apply firstn_nil|reflexivity|reflexivity].
Qed.

(** X9. A range whose lower bound lies after its upper bound is no
    error: the answer is a 200 with an empty log and a count of zero. *)
Theorem inverted_range_is_empty (req : LogsRequest) (w w' : World)
  (r : Response) (from to : string) (fromDate toDate : Z) :
  getLogs host req w = (r, w') ->
  status r = 200 ->
  truthyString (log_from req) = Some from ->
  Date_new host from = Some fromDate ->
  truthyString (log_to req) = Some to ->
  Date_new host to = Some toDate ->
  toDate < fromDate ->
  exists user, r = json (JLog (User.username user) 0 (User._id user) []).
Proof.
  intros Hrun H200 Hfrom Hfd Hto Htd Hinv.
  destruct (getLogs_ok host req w w' r Hrun H200)
    as (user & fromFilter & dateFilter & _ & _ & Hf & Ht & Hr).
  cbv zeta in Hr. exists user. rewrite Hr.
  unfold applyFrom in Hf. rewrite Hfrom, Hfd in Hf. injection Hf as <-.
  unfold applyTo in Ht. rewrite Hto, Htd in Ht. injection Ht as <-.
  rewrite logQuery_where. cbn [keys gte lte emptyFilter Nat.add Nat.ltb
                               Nat.leb].
  rewrite filter_none; [rewrite capped_nil; reflexivity|].
  intros ex _. unfold selects, matchesDate. cbn [gte lte].
  destruct (Z.leb_spec fromDate (Exercise.date ex));
    destruct (Z.leb_spec (Exercise.date ex) toDate);
    rewrite ?andb_false_r; try reflexivity; lia.
Qed.

(** X10. The limit keeps the entries stored first: the log asked with a
    limit in which [parseInt] reads a positive number [n] is the first [n]
    entries of the log asked without limit, and the count is their
    number. *)
Theorem limit_keeps_the_first (req : LogsRequest) (lim : string) (n : Z)
  (w : World) (name : string) (count : nat) (id : ObjectId)
  (log : list LogEntry.t) :
  Js.parseInt lim = Some (Js.Finite n) ->
  0 < n ->
  answer (getLogs host (withLimit None req)) w
  = json (JLog name count id log) ->
  answer (getLogs host (withLimit (Some lim) req)) w
  = json (JLog name (List.length (firstn (Z.to_nat n) log)) id
            (firstn (Z.to_nat n) log)).
Proof.
  intros Hn Hpos. unfold answer. rewrite !getLogs_run.
  cbn [withLimit log_params_id log_from log_to]. cbv zeta.
  walk; cbn [fst]; try discriminate.
  all: try (match goal with
            | |- context [catchFetchLogs ?e] =>
                destruct (catchFetchLogs_fail e) as (s & m & -> & _)
            end; discriminate).
  all: try (match goal with
            | H : applyFrom _ _ _ = inl _ |- _ =>
                apply applyFrom_inl in H; destruct H as [-> _]
            | H : applyTo _ _ _ = inl _ |- _ =>
                apply applyTo_inl in H; destruct H as [-> _]
            end; discriminate).
  all: rewrite !logQuery_limit, !logQuery_where;
    cbn [withLimit log_limit Js.ToString]; rewrite Hn;
    change (Js.parseInt "undefined") with (@None Js.number);
    cbn [Js.positive];
    (destruct (Z.ltb_spec 0 n); [|lia]); cbn [capped];
    intros [= <- _ <- <-]; rewrite !firstn_map; reflexivity.
Qed.

End Logs.

(** ** Adding an exercise and the logs *)

Section AddAndRead.

Variable host : Host.

(** What [postExercise] does to the store: nothing, or one exercise of
    the user of the request, added at the end. *)
Lemma postExercise_stores (req : ExerciseRequest) (w : World) :
  users (snd (postExercise host req w)) = users w
  /\ (exercises (snd (postExercise host req w)) = exercises w
      \/ exists oid saved,
           castObjectId host (ex_params_id req) = Some oid
           /\ Exercise.userId saved = oid
           /\ exercises (snd (postExercise host req w))
              = (exercises w ++ [saved])%list).
Proof.
  rewrite postExercise_run. cbv zeta.
  walk; cbn [snd users exercises consume noteCall drawId withExercise];
    (split; [reflexivity|]); auto.
  all: right;
    match goal with
    | H : byId ?o _ = Some ?u |- _ =>
        destruct (byId_Some _ _ _ H) as [_ <-]
    end;
    refine (ex_intro _ _ (ex_intro _ _ (conj eq_refl (conj _ eq_refl))));
    reflexivity.
Qed.

Lemma selects_other (oid oid' : ObjectId) (f : option DateFilter)
  (ex : Exercise.t) :
  Exercise.userId ex = oid -> oid' <> oid -> selects oid' f ex = false.
Proof.
  intros <- Hne. unfold selects.
  destruct (N.eqb_spec (Exercise.userId ex) oid'); [congruence|reflexivity].
Qed.

Lemma selects_own (oid : ObjectId) (ex : Exercise.t) :
  Exercise.userId ex = oid -> selects oid None ex = true.
Proof. intros <-. unfold selects. rewrite N.eqb_refl. reflexivity. Qed.

(** X11. Adding an exercise leaves the logs of the other users as they
    were: whatever [POST /api/users/:_id/exercises] answered, a log asked
    under an identifier that is cast to another user is answered, under
    the same clock and backend, as it was before. *)
Theorem other_logs_are_untouched (req : ExerciseRequest)
  (other : LogsRequest) (w : World) (clock' : Z)
  (pending' : list (option JsError)) :
  castObjectId host (log_params_id other)
  <> castObjectId host (ex_params_id req) ->
  answer (getLogs host other)
    (elapse clock' pending' (snd (postExercise host req w)))
  = answer (getLogs host other) (elapse clock' pending' w).
Proof.
  intros Hother. unfold answer. rewrite !getLogs_run.
  destruct (postExercise_stores req w) as [Hu He].
  cbn [elapse users exercises pending]. rewrite Hu. cbv zeta.
  destruct pending' as [|[e|] [|[e'|] rest]]; cbn [tl].
  all: destruct He as [He|(oid & saved & Hcast & Hid & He)];
    rewrite ?He; [walk; reflexivity|].
  all: rewrite Hcast in Hother.
  all: walk; cbn [fst]; try reflexivity.
  all: rewrite filter_app; cbn [filter];
    rewrite (selects_other oid _ _ saved Hid) by congruence;
    rewrite app_nil_r; reflexivity.
Qed.

(** X12. Adding an exercise adds one entry at the end of the user's own
    log: when the add is answered 200 and the unfiltered log of the user
    was answered 200 before, the same log asked after the add, under the
    same clock and backend, is the old log followed by the description,
    duration and date text of the answer to the add, and counts one
    more. *)
Theorem added_exercise_ends_the_log (req : ExerciseRequest)
  (w w1 : World) (r : Response) (clock' : Z)
  (pending' : list (option JsError)) (name : string) (count : nat)
  (id : ObjectId) (log : list LogEntry.t) :
  postExercise host req w = (r, w1) ->
  status r = 200 ->
  answer (getLogs host (logsOf (ex_params_id req)))
    (elapse clock' pending' w)
  = json (JLog name count id log) ->
  exists description duration date,
    body r = JExercise name description duration date id
    /\ answer (getLogs host (logsOf (ex_params_id req)))
         (elapse clock' pending' w1)
       = json (JLog name (S count) id
                 (log ++ [{| LogEntry.description := description;
                             LogEntry.duration := duration;
                             LogEntry.date := date |}])).
Proof.
  intros Hrun H200.
  destruct (postExercise_ok host req w w1 r Hrun H200)
    as (description & duration & durationNum & exerciseDate & user
        & _ & _ & _ & _ & Hcast & Hu & -> & ->).
  unfold answer. rewrite !getLogs_run.
  cbn [elapse users exercises pending withExercise consume noteCall drawId
       logsOf log_params_id log_from log_to].
  rewrite Hcast, Hu.
  change (applyFrom host None emptyFilter) with (@inr Response _ emptyFilter).
  cbv beta iota.
  change (applyTo host None emptyFilter) with (@inr Response _ emptyFilter).
  cbv beta iota zeta.
  assert (Hq : logQuery (logsOf (ex_params_id req)) emptyFilter
               = Exercise_find (ex_params_id req)) by reflexivity.
  rewrite Hq. cbn [Exercise_find q_limit q_where capped].
  assert (Hcatch : forall e a, catchFetchLogs e <> json a).
  { intros e a. destruct (catchFetchLogs_fail e) as (s & m & -> & Hs).
    destruct Hs; subst s; discriminate. }
  intros Hlog. exists description, durationNum,
    (toDateString host exerciseDate).
  destruct pending' as [|[e|] [|[e'|] rest]]; cbn [tl fst] in *;
    try (now apply Hcatch in Hlog);
    injection Hlog as <- <- <- <-; (split; [reflexivity|]);
    rewrite filter_app, map_app, length_app; cbn [filter];
    rewrite selects_own by reflexivity;
    cbn [map List.length logEntry Exercise.description Exercise.duration
         Exercise.date];
    rewrite Nat.add_1_r; reflexivity.
Qed.

End AddAndRead.

(** ** Dates: what is stored and what is shown *)

Section Dates.

Variable host : Host.

Lemma decimalDigit_range (c : ascii) (d : Z) :
  Js.decimalDigit c = Some d -> 0 <= d <= 9.
Proof.
  unfold Js.decimalDigit.
  destruct (Z.leb_spec 48 (Z.of_nat (nat_of_ascii c)));
    destruct (Z.leb_spec (Z.of_nat (nat_of_ascii c)) 57);
    cbn [andb]; intros [= <-]; lia.
Qed.

Lemma decimalField_2 (c1 c2 : ascii) (v : Z) :
  Js.decimalField [c1; c2] 0 = Some v -> 0 <= v <= 99.
Proof.
  cbn [Js.decimalField].
  destruct (Js.decimalDigit c1) as [d1|] eqn:H1; [|discriminate].
  destruct (Js.decimalDigit c2) as [d2|] eqn:H2; [|discriminate].
  apply decimalDigit_range in H1, H2. intros [= <-]. lia.
Qed.

Lemma decimalField_4 (c1 c2 c3 c4 : ascii) (v : Z) :
  Js.decimalField [c1; c2; c3; c4] 0 = Some v -> 0 <= v <= 9999.
Proof.
  cbn [Js.decimalField].
  destruct (Js.decimalDigit c1) as [d1|] eqn:H1; [|discriminate].
  destruct (Js.decimalDigit c2) as [d2|] eqn:H2; [|discriminate].
  destruct (Js.decimalDigit c3) as [d3|] eqn:H3; [|discriminate].
  destruct (Js.decimalDigit c4) as [d4|] eqn:H4; [|discriminate].
  apply decimalDigit_range in H1, H2, H3, H4. intros [= <-]. lia.
Qed.

(** A string that [parseDateOnly] reads, taken apart. *)
Lemma parseDateOnly_Some (s : string) (t : Z) :
  Js.parseDateOnly s = Some t ->
  exists y1 y2 y3 y4 m1 m2 d1 d2 y m d,
    list_ascii_of_string s
    = [y1; y2; y3; y4; "-"%char; m1; m2; "-"%char; d1; d2]
    /\ Js.decimalField [y1; y2; y3; y4] 0 = Some y
    /\ Js.decimalField [m1; m2] 0 = Some m
    /\ Js.decimalField [d1; d2] 0 = Some d
    /\ 1 <= m <= 12
    /\ 1 <= d <= Js.DaysInMonth y (m - 1)
    /\ t = Js.MakeDay y (m - 1) d * Js.msPerDay.
Proof.
  unfold Js.parseDateOnly.
  destruct (list_ascii_of_string s)
    as [|y1 [|y2 [|y3 [|y4 [|h1 [|m1 [|m2 [|h2 [|d1 [|d2 [|x l]]]]]]]]]]];
    try discriminate.
  all: try (destruct h1 as [[] [] [] [] [] [] [] []]; try discriminate).
  all: try (destruct h2 as [[] [] [] [] [] [] [] []]; try discriminate).
  destruct (Js.decimalField [y1; y2; y3; y4] 0) as [y|] eqn:Hy;
    [|discriminate].
  destruct (Js.decimalField [m1; m2] 0) as [m|] eqn:Hm; [|discriminate].
  destruct (Js.decimalField [d1; d2] 0) as [d|] eqn:Hd; [|discriminate].
  destruct (Z.leb_spec 1 m); [|discriminate].
  destruct (Z.leb_spec m 12); [|discriminate].
  destruct (Z.leb_spec 1 d); [|discriminate].
  destruct (Z.leb_spec d (Js.DaysInMonth y (m - 1))); [|discriminate].
  cbn [andb]. intros [= <-].
  exists y1, y2, y3, y4, m1, m2, d1, d2, y, m, d.
  repeat split; auto.
Qed.

Lemma Day_of_midnight (n off : Z) :
  (0 <= off < Js.msPerDay -> Js.Day (n * Js.msPerDay + off) = n)
  /\ (- Js.msPerDay <= off < 0 -> Js.Day (n * Js.msPerDay + off) = n - 1).
Proof.
  unfold Js.Day, Js.msPerDay. split; intros Hoff;
    Z.div_mod_to_equations; lia.
Qed.

(** X13. A date given as [YYYY-MM-DD] is stored as midnight UTC of that
    day: the year, month and day of the stored instant are those of the
    string.  Its date text shows that day on a host whose local time is at
    or ahead of UTC by less than a day, and shows the day before on a host
    whose local time is behind UTC. *)
Theorem date_only_is_utc_midnight (s : string) (t : Z) :
  Js.parseDateOnly s = Some t ->
  Date_new host s = Some t
  /\ (exists y1 y2 y3 y4 m1 m2 d1 d2 y m d,
        list_ascii_of_string s
        = [y1; y2; y3; y4; "-"%char; m1; m2; "-"%char; d1; d2]
        /\ Js.decimalField [y1; y2; y3; y4] 0 = Some y
        /\ Js.decimalField [m1; m2] 0 = Some m
        /\ Js.decimalField [d1; d2] 0 = Some d
        /\ Js.YearFromDay (Js.Day t) = y
        /\ Js.MonthFromDay (Js.Day t) = m - 1
        /\ Js.DateFromDay (Js.Day t) = d)
  /\ t mod Js.msPerDay = 0
  /\ (0 <= LocalTZA host t < Js.msPerDay ->
      toDateString host t = Js.DateString (Js.Day t))
  /\ (- Js.msPerDay <= LocalTZA host t < 0 ->
      toDateString host t = Js.DateString (Js.Day t - 1)).
Proof.
  intros Hparse. split; [unfold Date_new; rewrite Hparse; reflexivity|].
  destruct (parseDateOnly_Some s t Hparse)
    as (y1 & y2 & y3 & y4 & m1 & m2 & d1 & d2 & y & m & d
        & Hs & Hy & Hm & Hd & Hmr & Hdr & ->).
  assert (Hday : Js.Day (Js.MakeDay y (m - 1) d * Js.msPerDay)
                 = Js.MakeDay y (m - 1) d).
  { replace (Js.MakeDay y (m - 1) d * Js.msPerDay)
      with (Js.MakeDay y (m - 1) d * Js.msPerDay + 0) by lia.
    apply Day_of_midnight. unfold Js.msPerDay. lia. }
  destruct (JsFacts.MakeDay_inverse y (m - 1) d ltac:(lia) Hdr)
    as (Hyear & Hmonth & Hdate).
  split.
  { exists y1, y2, y3, y4, m1, m2, d1, d2, y, m, d. rewrite Hday.
    repeat split; assumption. }
  split; [apply Z.mod_mul; unfold Js.msPerDay; lia|].
  unfold toDateString. rewrite Hday.
  split; intros Hoff; f_equal; apply Day_of_midnight; exact Hoff.
Qed.

Lemma length_append (a b : string) :
  String.length (a ++ b) = (String.length a + String.length b)%nat.
Proof. induction a as [|c a IH]; cbn; [reflexivity|]. rewrite IH. reflexivity. Qed.

Lemma zeros_length (k : nat) : String.length (Js.zeros k) = k.
Proof. induction k as [|k IH]; cbn; [reflexivity|]. rewrite IH. reflexivity. Qed.

(** A number below [10 ^ k] is written with at most [k] digits. *)
Lemma decimalDigits_length (k fuel : nat) (n : Z) (acc : string) :
  0 <= n < 10 ^ Z.of_nat (S k) ->
  (String.length (Js.decimalDigits fuel n acc)
   <= String.length acc + S k)%nat.
Proof.
  revert fuel n acc. induction k as [|k IH]; intros fuel n acc Hn;
    (destruct fuel as [|fuel]; cbn [Js.decimalDigits]; [lia|]).
  - change (10 ^ Z.of_nat 1) with 10 in Hn.
    destruct (Z.ltb_spec n 10); [cbn [String.length]; lia|lia].
  - destruct (Z.ltb_spec n 10); [cbn [String.length]; lia|].
    etransitivity; [apply IH|cbn [String.length]; lia].
    replace (Z.of_nat (S (S k))) with (Z.succ (Z.of_nat (S k))) in Hn
      by lia.
    rewrite Z.pow_succ_r in Hn by lia.
    split; [apply Z.div_pos; lia|].
    apply Z.div_lt_upper_bound; lia.
Qed.

Lemma padded_length (n : Z) (k : nat) :
  0 <= n < 10 ^ Z.of_nat (S k) ->
  String.length (Js.ToZeroPaddedDecimalString n (S k)) = S k.
Proof.
  intros Hn. unfold Js.ToZeroPaddedDecimalString, Js.decimalString.
  rewrite length_append, zeros_length.
  pose proof (decimalDigits_length k (S (Z.to_nat (Z.log2 n))) n "" Hn)
    as Hle.
  cbn [String.length] in Hle. lia.
Qed.

Lemma weekDayName_length (w : Z) : String.length (Js.weekDayName w) = 3%nat.
Proof.
  destruct w as [|p|p]; try reflexivity.
  repeat (destruct p as [p|p|]; try reflexivity).
Qed.

Lemma monthName_length (m : Z) : String.length (Js.monthName m) = 3%nat.
Proof.
  destruct m as [|p|p]; try reflexivity.
  repeat (destruct p as [p|p|]; try reflexivity).
Qed.

(** X14. The date text has no time in it: for a local day in the years
    0 to 9999 it is fifteen characters long, a week day and a month of
    three letters, a day of two digits and a year of four, three spaces
    between them. *)
Theorem date_text_is_a_calendar_day (t : Z) :
  0 <= Js.YearFromDay (Js.Day (t + LocalTZA host t)) <= 9999 ->
  String.length (toDateString host t) = 15%nat
  /\ exists weekDay month day year,
       toDateString host t
       = weekDay ++ " " ++ month ++ " " ++ day ++ " " ++ year
       /\ String.length weekDay = 3%nat
       /\ String.length month = 3%nat
       /\ String.length day = 2%nat
       /\ String.length year = 4%nat.
Proof.
  intros Hyear. unfold toDateString, Js.DateString.
  set (d := Js.Day (t + LocalTZA host t)) in *.
  destruct (Z.leb_spec 0 (Js.YearFromDay d)) as [_|Hneg]; [|lia].
  pose proof (JsFacts.DateFromDay_range d) as Hdate.
  assert (Hdd : String.length
                  (Js.ToZeroPaddedDecimalString (Js.DateFromDay d) 2)
                = 2%nat)
    by (apply padded_length; change (10 ^ Z.of_nat 2) with 100; lia).
  assert (Hyyyy : String.length
                    (Js.ToZeroPaddedDecimalString
                       (Z.abs (Js.YearFromDay d)) 4)
                  = 4%nat)
    by (apply padded_length; change (10 ^ Z.of_nat 4) with 10000; lia).
  split.
  - rewrite !length_append, weekDayName_length, monthName_length, Hdd,
      Hyyyy. reflexivity.
  - exists (Js.weekDayName (Js.WeekDay d)),
      (Js.monthName (Js.MonthFromDay d)),
      (Js.ToZeroPaddedDecimalString (Js.DateFromDay d) 2),
      (Js.ToZeroPaddedDecimalString (Z.abs (Js.YearFromDay d)) 4).
    split; [reflexivity|].
    rewrite weekDayName_length, monthName_length, Hdd, Hyyyy. auto.
Qed.

End Dates.

(** ** Numbers: what [parseInt] reads *)

Section Numbers.

Lemma digitChar_decimal (d : Z) :
  0 <= d <= 9 -> Js.decimalDigit (Js.digitChar d) = Some d.
Proof.
  intros Hd.
  assert (Hc : d = 0 \/ d = 1 \/ d = 2 \/ d = 3 \/ d = 4 \/ d = 5 \/ d = 6
               \/ d = 7 \/ d = 8 \/ d = 9) by lia.
  destruct Hc as [?|[?|[?|[?|[?|[?|[?|[?|[?|?]]]]]]]]]; subst d;
    reflexivity.
Qed.

Lemma decimalDigit_cases (c : ascii) (d : Z) :
  Js.decimalDigit c = Some d ->
  c = "0"%char \/ c = "1"%char \/ c = "2"%char \/ c = "3"%char
  \/ c = "4"%char \/ c = "5"%char \/ c = "6"%char \/ c = "7"%char
  \/ c = "8"%char \/ c = "9"%char.
Proof.
  destruct c as [[] [] [] [] [] [] [] []]; cbv; intros H;
    try discriminate H; tauto.
Qed.

Lemma digitsPrefix_decimal (c : ascii) (d : Z) (s : string) :
  Js.decimalDigit c = Some d ->
  Js.digitsPrefix 10 (String c s) = d :: Js.digitsPrefix 10 s.
Proof.
  intros Hc. pose proof (decimalDigit_cases c d Hc) as Hcases.
  destruct Hcases as [?|[?|[?|[?|[?|[?|[?|[?|[?|?]]]]]]]]]; subst c;
    injection Hc as <-; reflexivity.
Qed.

Lemma digitsPrefix_end (rest : string) :
  endsNumber rest = true -> Js.digitsPrefix 10 rest = [].
Proof.
  destruct rest as [|c rest]; [reflexivity|]. cbn [endsNumber].
  destruct (Js.decimalDigit c) eqn:Hc; [discriminate|]. intros _.
  revert Hc. destruct c as [[] [] [] [] [] [] [] []]; cbv; intros Hc;
    try discriminate Hc; reflexivity.
Qed.

(** Reading the digits that [decimalDigits] wrote gives the number back. *)
Lemma read_decimalDigits (rest : string) (fuel : nat) (n : Z)
  (acc : string) :
  0 <= n < 2 ^ Z.of_nat fuel ->
  fold_left (fun a d => a * 10 + d)
    (Js.digitsPrefix 10 (Js.decimalDigits fuel n acc ++ rest)) 0
  = fold_left (fun a d => a * 10 + d)
      (Js.digitsPrefix 10 (acc ++ rest)) n.
Proof.
  revert n acc. induction fuel as [|fuel IH]; intros n acc Hn.
  - change (2 ^ Z.of_nat 0) with 1 in Hn. cbn [Js.decimalDigits].
    replace n with 0 by lia. reflexivity.
  - cbn [Js.decimalDigits].
    assert (Hmod : 0 <= n mod 10 <= 9)
      by (pose proof (Z.mod_pos_bound n 10); lia).
    destruct (Z.ltb_spec n 10).
    + cbn [append].
      rewrite (digitsPrefix_decimal _ (n mod 10))
        by (apply digitChar_decimal; exact Hmod).
      cbn [fold_left]. rewrite Z.mod_small by lia. reflexivity.
    + rewrite IH.
      * cbn [append].
        rewrite (digitsPrefix_decimal _ (n mod 10))
          by (apply digitChar_decimal; exact Hmod).
        cbn [fold_left]. f_equal.
        pose proof (Z.div_mod n 10). lia.
      * replace (Z.of_nat (S fuel)) with (Z.succ (Z.of_nat fuel)) in Hn
          by lia.
        rewrite Z.pow_succ_r in Hn by lia.
        split; [apply Z.div_pos; lia|].
        apply Z.div_lt_upper_bound; lia.
Qed.

Lemma decimalDigits_allDecimal (fuel : nat) (n : Z) (acc : string) :
  0 <= n -> allDecimal acc = true ->
  allDecimal (Js.decimalDigits fuel n acc) = true.
Proof.
  revert n acc. induction fuel as [|fuel IH]; intros n acc Hn Hacc;
    cbn [Js.decimalDigits]; [exact Hacc|].
  assert (Hmod : 0 <= n mod 10 <= 9)
    by (pose proof (Z.mod_pos_bound n 10); lia).
  assert (Hacc' : allDecimal (String (Js.digitChar (n mod 10)) acc) = true).
  { cbn [allDecimal]. rewrite (digitChar_decimal _ Hmod). exact Hacc. }
  destruct (n <? 10); [exact Hacc'|].
  apply IH; [apply Z.div_pos; lia|exact Hacc'].
Qed.

Lemma decimalDigits_longer (fuel : nat) (n : Z) (acc : string) :
  (String.length acc <= String.length (Js.decimalDigits fuel n acc))%nat.
Proof.
  revert n acc. induction fuel as [|fuel IH]; intros n acc;
    cbn [Js.decimalDigits]; [lia|].
  destruct (n <? 10); [cbn [String.length]; lia|].
  etransitivity; [|apply IH]. cbn [String.length]. lia.
Qed.

(** The decimal text of a number starts with a digit and holds digits
    only. *)
Lemma decimalString_head (n : Z) :
  0 <= n ->
  exists c s d,
    Js.decimalString n = String c s
    /\ Js.decimalDigit c = Some d
    /\ allDecimal s = true.
Proof.
  intros Hn. unfold Js.decimalString.
  pose proof (decimalDigits_allDecimal (S (Z.to_nat (Z.log2 n))) n ""
                Hn eq_refl) as Hall.
  assert (Hlen : (1 <= String.length
                         (Js.decimalDigits (S (Z.to_nat (Z.log2 n))) n ""))
                 %nat).
  { cbn [Js.decimalDigits]. destruct (n <? 10); [cbn; lia|].
    etransitivity; [|apply decimalDigits_longer]. cbn. lia. }
  destruct (Js.decimalDigits (S (Z.to_nat (Z.log2 n))) n "") as [|c s].
  - cbn in Hlen. lia.
  - cbn [allDecimal] in Hall.
    destruct (Js.decimalDigit c) as [d|] eqn:Hc; [|discriminate].
    exists c, s, d. auto.
Qed.

(** What follows a run of digits that ends a number is no [x]. *)
Lemma no_hex_after (s rest : string) :
  allDecimal s = true -> endsNumber rest = true ->
  forall t, (s ++ rest)%string <> String "x" t
            /\ (s ++ rest)%string <> String "X" t.
Proof.
  intros Hs Hrest t. destruct s as [|c s]; cbn [append].
  - destruct rest as [|c rest]; [split; discriminate|].
    cbn [endsNumber] in Hrest.
    destruct (Js.decimalDigit c); [discriminate|].
    apply andb_true_iff in Hrest. destruct Hrest as [Hx HX].
    split; intros [= -> _]; discriminate.
  - cbn [allDecimal] in Hs.
    destruct (Js.decimalDigit c) eqn:Hc; [|discriminate].
    split; intros [= -> _]; discriminate.
Qed.

(** Once the sign is read, a string that starts with a digit and has no
    hexadecimal prefix is read in base ten, as far as its digits go. *)
Lemma parseMathInt_after_sign (sign : Z) (c : ascii) (d : Z) (t : string) :
  Js.decimalDigit c = Some d ->
  (forall t', t <> String "x" t' /\ t <> String "X" t') ->
  (let '(R, S2) :=
     match String c t with
     | String "0" (String "x" rest) => (16, rest)
     | String "0" (String "X" rest) => (16, rest)
     | _ => (10, String c t)
     end in
   match Js.digitsPrefix R S2 with
   | [] => None
   | ds => Some (sign * Js.mathInt R ds)
   end)
  = Some (sign * Js.mathInt 10 (Js.digitsPrefix 10 (String c t))).
Proof.
  intros Hc Hhex. pose proof (decimalDigit_cases c d Hc) as Hcases.
  assert (Hread :
    match Js.digitsPrefix 10 (String c t) with
    | [] => None
    | ds => Some (sign * Js.mathInt 10 ds)
    end = Some (sign * Js.mathInt 10 (Js.digitsPrefix 10 (String c t))))
    by (rewrite (digitsPrefix_decimal c d t Hc); reflexivity).
  destruct Hcases as [?|[?|[?|[?|[?|[?|[?|[?|[?|?]]]]]]]]]; subst c;
    try exact Hread.
  destruct t as [|c2 t2]; [exact Hread|].
  destruct (Hhex t2) as [Hx HX].
  destruct c2 as [[] [] [] [] [] [] [] []]; try exact Hread; congruence.
Qed.

Lemma parseMathInt_decimal_head (c : ascii) (d : Z) (t : string) :
  Js.decimalDigit c = Some d ->
  (forall t', t <> String "x" t' /\ t <> String "X" t') ->
  Js.parseMathInt (String c t)
  = Some (Js.mathInt 10 (Js.digitsPrefix 10 (String c t))).
Proof.
  intros Hc Hhex. rewrite <- (Z.mul_1_l (Js.mathInt 10 _)).
  rewrite <- (parseMathInt_after_sign 1 c d t Hc Hhex).
  pose proof (decimalDigit_cases c d Hc) as Hcases.
  destruct Hcases as [?|[?|[?|[?|[?|[?|[?|[?|[?|?]]]]]]]]]; subst c;
    reflexivity.
Qed.

Lemma parseMathInt_negative_head (c : ascii) (d : Z) (t : string) :
  Js.decimalDigit c = Some d ->
  (forall t', t <> String "x" t' /\ t <> String "X" t') ->
  Js.parseMathInt (String "-" (String c t))
  = Some (- Js.mathInt 10 (Js.digitsPrefix 10 (String c t))).
Proof.
  intros Hc Hhex.
  replace (- Js.mathInt 10 (Js.digitsPrefix 10 (String c t)))
    with (-1 * Js.mathInt 10 (Js.digitsPrefix 10 (String c t))) by lia.
  rewrite <- (parseMathInt_after_sign (-1) c d t Hc Hhex). reflexivity.
Qed.

Lemma read_decimalString (n : Z) (rest : string) :
  0 <= n -> endsNumber rest = true ->
  Js.mathInt 10 (Js.digitsPrefix 10 (Js.decimalString n ++ rest)) = n.
Proof.
  intros Hn Hrest. unfold Js.mathInt, Js.decimalString.
  rewrite read_decimalDigits.
  - cbn [append]. rewrite (digitsPrefix_end _ Hrest). reflexivity.
  - split; [exact Hn|].
    destruct (Z.eq_dec n 0) as [->|Hne]; [reflexivity|].
    rewrite Nat2Z.inj_succ, Z2Nat.id by apply Z.log2_nonneg.
    apply Z.log2_spec. lia.
Qed.

(** The digits of an integer, negative or not, followed by the end of
    the string or by anything that does not start with a digit or an
    [x], denote that integer. *)
Lemma parseMathInt_reads (z : Z) (rest : string) :
  endsNumber rest = true ->
  Js.parseMathInt (integerString z ++ rest) = Some z.
Proof.
  intros Hrest. unfold integerString.
  destruct (Z.ltb_spec z 0) as [Hneg|Hpos].
  - destruct (decimalString_head (- z) ltac:(lia))
      as (c & s & d & Hs & Hc & Hall).
    cbn [append]. pose proof (read_decimalString (- z) rest ltac:(lia) Hrest)
      as Hread.
    rewrite Hs in *. cbn [append] in *.
    rewrite (parseMathInt_negative_head c d _ Hc)
      by (apply no_hex_after; assumption).
    rewrite Hread. f_equal. lia.
  - destruct (decimalString_head z Hpos) as (c & s & d & Hs & Hc & Hall).
    pose proof (read_decimalString z rest Hpos Hrest) as Hread.
    rewrite Hs in *. cbn [append] in *.
    rewrite (parseMathInt_decimal_head c d _ Hc)
      by (apply no_hex_after; assumption).
    rewrite Hread. reflexivity.
Qed.

(** Integers up to 2^53 in absolute value are doubles. *)
Lemma toNumber_exact (z : Z) :
  Z.abs z <= 2 ^ 53 -> Js.toNumber z = Js.Finite z.
Proof.
  intros Hz. unfold Js.toNumber.
  assert (Hround : Js.roundToDouble (Z.abs z) = Z.abs z).
  { unfold Js.roundToDouble.
    destruct (Z.ltb_spec (Z.abs z) (2 ^ 53)) as [_|Hge]; [reflexivity|].
    replace (Z.abs z) with (2 ^ 53) by lia. reflexivity. }
  rewrite Hround.
  destruct (Z.leb_spec (2 ^ 1024) (Z.abs z)) as [Hbig|_].
  - exfalso. assert (2 ^ 53 < 2 ^ 1024) by reflexivity. lia.
  - f_equal. lia.
Qed.

(** Above 2^53 a double keeps 53 bits: the double nearest to [a] is a
    multiple of the unit in the last place of [a] and lies within half
    that unit of [a]. *)
Lemma roundToDouble_near (a : Z) :
  2 ^ 53 <= a ->
  let ulp := 2 ^ (Z.log2 a - 52) in
  Js.roundToDouble a mod ulp = 0
  /\ 2 * Z.abs (Js.roundToDouble a - a) <= ulp.
Proof.
  intros Ha. cbv zeta. unfold Js.roundToDouble.
  destruct (Z.ltb_spec a (2 ^ 53)) as [Hlt|_]; [lia|].
  assert (He : 1 <= Z.log2 a - 52).
  { assert (53 <= Z.log2 a); [|lia].
    apply Z.log2_le_pow2; [|exact Ha].
    assert (0 < 2 ^ 53) by reflexivity. lia. }
  set (e := Z.log2 a - 52) in *.
  assert (Hpow : 2 ^ e = 2 * 2 ^ (e - 1)).
  { replace e with (Z.succ (e - 1)) at 1 by lia.
    apply Z.pow_succ_r. lia. }
  assert (Hhalf : 0 < 2 ^ (e - 1)) by (apply Z.pow_pos_nonneg; lia).
  pose proof (Z.div_mod a (2 ^ e) ltac:(lia)) as Hdm.
  pose proof (Z.mod_pos_bound a (2 ^ e) ltac:(lia)) as Hr.
  set (q := a / 2 ^ e) in *. set (r := a mod 2 ^ e) in *.
  set (half := 2 ^ (e - 1)) in *. set (ulp := 2 ^ e) in *.
  split; [apply Z.mod_mul; lia|].
  destruct (Z.ltb_spec half r) as [Hup|Hdown]; cbn [orb].
  - replace ((q + 1) * ulp - a) with (ulp - r) by lia. lia.
  - destruct (Z.eqb_spec r half) as [Heq|Hne]; cbn [andb].
    + destruct (Z.odd q).
      * replace ((q + 1) * ulp - a) with (ulp - r) by lia. lia.
      * replace (q * ulp - a) with (- r) by lia. lia.
    + replace (q * ulp - a) with (- r) by lia. lia.
Qed.

(** From 2^1024 on there is no double. *)
Lemma toNumber_overflow (z : Z) :
  2 ^ 1024 <= Z.abs z -> Js.toNumber z = Js.Infinite (z <? 0).
Proof.
  intros Hz. unfold Js.toNumber.
  assert (H53 : 2 ^ 53 < 2 ^ 1024) by reflexivity.
  destruct (Z.leb_spec (2 ^ 1024) (Js.roundToDouble (Z.abs z)))
    as [_|Hsmall]; [reflexivity|]. exfalso.
  set (a := Z.abs z) in *.
  assert (Ha : 2 ^ 53 <= a) by lia.
  assert (HL : 1024 <= Z.log2 a).
  { apply Z.log2_le_pow2; [|exact Hz].
    assert (0 < 2 ^ 1024) by reflexivity. lia. }
  destruct (roundToDouble_near a Ha) as [_ Hnear]. cbv zeta in Hnear.
  assert (Hulp : 2 * 2 ^ (Z.log2 a - 52) <= a).
  { pose proof (Z.log2_spec a ltac:(lia)) as [Hlow _].
    replace (Z.log2 a) with (Z.succ (Z.log2 a - 52) + 51) in Hlow at 1
      by lia.
    rewrite Z.pow_add_r, Z.pow_succ_r in Hlow by lia.
    assert (1 <= 2 ^ 51) by (change (2 ^ 51) with 2251799813685248; lia).
    assert (0 < 2 ^ (Z.log2 a - 52)) by (apply Z.pow_pos_nonneg; lia).
    nia. }
  assert (Hmult : Js.roundToDouble a mod 2 ^ (Z.log2 a - 52) = 0)
    by (apply roundToDouble_near; exact Ha).
  assert (Hdiv : (2 ^ 1024) mod 2 ^ (Z.log2 a - 52) = 0
                 \/ 2 ^ 1024 < 2 ^ (Z.log2 a - 52)).
  { destruct (Z.le_gt_cases (Z.log2 a - 52) 1024) as [Hle|Hgt].
    - left.
      replace 1024 with ((1024 - (Z.log2 a - 52)) + (Z.log2 a - 52)) by lia.
      rewrite Z.pow_add_r by lia. apply Z.mod_mul.
      assert (0 < 2 ^ (Z.log2 a - 52)) by (apply Z.pow_pos_nonneg; lia).
      lia.
    - right. apply Z.pow_lt_mono_r; lia. }
  destruct Hdiv as [Hdiv|Hfar]; [|lia].
  set (ulp := 2 ^ (Z.log2 a - 52)) in *.
  assert (Hpos : 0 < ulp) by (apply Z.pow_pos_nonneg; lia).
  apply Z.mod_divide in Hmult; [|lia]. apply Z.mod_divide in Hdiv; [|lia].
  destruct Hmult as [m Hm]. destruct Hdiv as [k Hk].
  assert (Hmk : m * ulp < k * ulp) by lia.
  assert (Hstep : (m + 1) * ulp <= k * ulp).
  { apply Z.mul_le_mono_nonneg_r; [lia|].
    apply Z.mul_lt_mono_pos_r in Hmk; lia. }
  lia.
Qed.

(** X15. [parseInt] reads the integer a string starts with and ignores
    what follows: the decimal text of an integer, negative or not,
    followed by the end of the string or by anything that does not start
    with a digit or an [x], is read as the number value of that integer.
    That is the integer itself up to 2^53 in absolute value; beyond, it
    is the nearest double, within half a unit in the last place, and an
    infinity with the sign of the integer from 2^1024 on. *)
Theorem parseInt_reads_the_leading_integer (z : Z) (rest : string) :
  endsNumber rest = true ->
  Js.parseInt (integerString z ++ rest) = Some (Js.toNumber z)
  /\ (Z.abs z <= 2 ^ 53 ->
      Js.parseInt (integerString z ++ rest) = Some (Js.Finite z))
  /\ (forall m,
        2 ^ 53 <= Z.abs z ->
        Js.parseInt (integerString z ++ rest) = Some (Js.Finite m) ->
        2 * Z.abs (m - z) <= 2 ^ (Z.log2 (Z.abs z) - 52))
  /\ (2 ^ 1024 <= Z.abs z ->
      Js.parseInt (integerString z ++ rest) = Some (Js.Infinite (z <? 0))).
Proof.
  intros Hrest. unfold Js.parseInt. rewrite (parseMathInt_reads z rest Hrest).
  split; [reflexivity|]. split; [|split].
  - intros Hz. rewrite (toNumber_exact z Hz). reflexivity.
  - intros m Hz. unfold Js.toNumber.
    destruct (2 ^ 1024 <=? Js.roundToDouble (Z.abs z)); [discriminate|].
    intros [= <-].
    destruct (roundToDouble_near (Z.abs z) Hz) as [_ Hnear].
    cbv zeta in Hnear. lia.
  - intros Hz. rewrite (toNumber_overflow z Hz). reflexivity.
Qed.

End Numbers.

(** ** The answer to an added exercise *)

Section AddedExercise.

Variable host : Host.

Lemma append_empty (s : string) : (s ++ "")%string = s.
Proof. induction s as [|c s IH]; cbn; [reflexivity|]. rewrite IH. reflexivity. Qed.

(** Two texts that start with parts of the same length agree part by
    part. *)
Lemma append_inj_length (a a' b b' : string) :
  String.length a = String.length a' ->
  (a ++ b)%string = (a' ++ b')%string -> a = a' /\ b = b'.
Proof.
  revert a'. induction a as [|c a IH]; intros [|c' a'] Hlen Heq;
    try discriminate Hlen.
  - split; [reflexivity|exact Heq].
  - cbn [append] in Heq. injection Heq as -> Heq.
    cbn [String.length] in Hlen. injection Hlen as Hlen.
    destruct (IH a' Hlen Heq) as [-> ->]. split; reflexivity.
Qed.

Lemma weekDayName_listed (w : Z) :
  In (Js.weekDayName w) ["Sun"; "Mon"; "Tue"; "Wed"; "Thu"; "Fri"; "Sat"].
Proof.
  destruct w as [|p|p]; cbn; try tauto.
  repeat (destruct p as [p|p|]; cbn; try tauto).
Qed.

Lemma monthName_listed (m : Z) :
  In (Js.monthName m)
    ["Jan"; "Feb"; "Mar"; "Apr"; "May"; "Jun"; "Jul"; "Aug"; "Sep"; "Oct";
     "Nov"; "Dec"].
Proof.
  destruct m as [|p|p]; cbn; try tauto.
  repeat (destruct p as [p|p|]; cbn; try tauto).
Qed.

Lemma monthName_inj (m m' : Z) :
  0 <= m <= 11 -> 0 <= m' <= 11 ->
  Js.monthName m = Js.monthName m' -> m = m'.
Proof.
  intros Hm Hm'.
  assert (Hc : m = 0 \/ m = 1 \/ m = 2 \/ m = 3 \/ m = 4 \/ m = 5 \/ m = 6
               \/ m = 7 \/ m = 8 \/ m = 9 \/ m = 10 \/ m = 11) by lia.
  assert (Hc' : m' = 0 \/ m' = 1 \/ m' = 2 \/ m' = 3 \/ m' = 4 \/ m' = 5
                \/ m' = 6 \/ m' = 7 \/ m' = 8 \/ m' = 9 \/ m' = 10
                \/ m' = 11) by lia.
  destruct Hc as [?|[?|[?|[?|[?|[?|[?|[?|[?|[?|[?|?]]]]]]]]]]]; subst m;
    destruct Hc' as [?|[?|[?|[?|[?|[?|[?|[?|[?|[?|[?|?]]]]]]]]]]]; subst m';
    cbn [Js.monthName]; intros Heq; first [reflexivity|discriminate Heq].
Qed.

(** Zeros in front do not change what the digits denote. *)
Lemma read_zeros (k : nat) (s : string) :
  Js.mathInt 10 (Js.digitsPrefix 10 (Js.zeros k ++ s))
  = Js.mathInt 10 (Js.digitsPrefix 10 s).
Proof.
  induction k as [|k IH]; [reflexivity|]. cbn [Js.zeros append].
  rewrite (digitsPrefix_decimal "0" 0) by reflexivity.
  unfold Js.mathInt in *. cbn [fold_left]. exact IH.
Qed.

(** A number is read back from its padded decimal text. *)
Lemma read_padded (n : Z) (k : nat) :
  0 <= n ->
  Js.mathInt 10 (Js.digitsPrefix 10 (Js.ToZeroPaddedDecimalString n k)) = n.
Proof.
  intros Hn. unfold Js.ToZeroPaddedDecimalString. rewrite read_zeros.
  rewrite <- (append_empty (Js.decimalString n)).
  apply read_decimalString; [exact Hn|reflexivity].
Qed.

(** A padded decimal text starts with a digit. *)
Lemma padded_head (n : Z) (k : nat) :
  0 <= n ->
  exists c s d,
    Js.ToZeroPaddedDecimalString n k = String c s
    /\ Js.decimalDigit c = Some d.
Proof.
  intros Hn. unfold Js.ToZeroPaddedDecimalString.
  destruct (decimalString_head n Hn) as (c & s & d & Hs & Hc & _).
  rewrite Hs. destruct (k - String.length (String c s))%nat as [|j].
  - exists c, s, d. split; [reflexivity|exact Hc].
  - exists "0"%char, (Js.zeros j ++ String c s)%string, 0.
    split; reflexivity.
Qed.

(** A day number is made of its year, its month and its day of the
    month. *)
Lemma Day_from_fields (d : Z) :
  d = Js.MakeDay (Js.YearFromDay d) (Js.MonthFromDay d) (Js.DateFromDay d).
Proof. unfold Js.MakeDay, Js.DateFromDay, Js.DayWithinYear. lia. Qed.

Lemma date_text_length (d : Z) :
  String.length (Js.ToZeroPaddedDecimalString (Js.DateFromDay d) 2) = 2%nat.
Proof.
  pose proof (JsFacts.DateFromDay_range d).
  apply padded_length. change (10 ^ Z.of_nat 2) with 100. lia.
Qed.

(** The text of a day names that day and no other. *)
Lemma DateString_inj (d1 d2 : Z) :
  Js.DateString d1 = Js.DateString d2 -> d1 = d2.
Proof.
  unfold Js.DateString. intros Heq.
  apply append_inj_length in Heq;
    [|rewrite !weekDayName_length; reflexivity].
  destruct Heq as [_ Heq]. cbn [append] in Heq. injection Heq as Heq.
  apply append_inj_length in Heq;
    [|rewrite !monthName_length; reflexivity].
  destruct Heq as [Hmonth Heq]. cbn [append] in Heq. injection Heq as Heq.
  apply append_inj_length in Heq;
    [|rewrite !date_text_length; reflexivity].
  destruct Heq as [Hdate Heq]. cbn [append] in Heq. injection Heq as Heq.
  apply monthName_inj in Hmonth; try apply JsFacts.MonthFromDay_range.
  assert (Hd : Js.DateFromDay d1 = Js.DateFromDay d2).
  { pose proof (JsFacts.DateFromDay_range d1).
    pose proof (JsFacts.DateFromDay_range d2).
    rewrite <- (read_padded (Js.DateFromDay d1) 2) by lia.
    rewrite <- (read_padded (Js.DateFromDay d2) 2) by lia.
    rewrite Hdate. reflexivity. }
  assert (Hy : Js.YearFromDay d1 = Js.YearFromDay d2).
  { destruct (padded_head (Z.abs (Js.YearFromDay d1)) 4 ltac:(lia))
      as (c1 & s1 & v1 & Hp1 & Hc1).
    destruct (padded_head (Z.abs (Js.YearFromDay d2)) 4 ltac:(lia))
      as (c2 & s2 & v2 & Hp2 & Hc2).
    pose proof (read_padded (Z.abs (Js.YearFromDay d1)) 4 ltac:(lia))
      as Hr1.
    pose proof (read_padded (Z.abs (Js.YearFromDay d2)) 4 ltac:(lia))
      as Hr2.
    destruct (Z.leb_spec 0 (Js.YearFromDay d1)) as [Hy1|Hy1];
      destruct (Z.leb_spec 0 (Js.YearFromDay d2)) as [Hy2|Hy2];
      cbn [append] in Heq.
    - rewrite Heq in Hr1. lia.
    - rewrite Hp1 in Heq. injection Heq as -> _. discriminate Hc1.
    - rewrite Hp2 in Heq. injection Heq as <- _. discriminate Hc2.
    - injection Heq as Heq. rewrite Heq in Hr1. lia. }
  rewrite (Day_from_fields d1), (Day_from_fields d2), Hy, Hmonth, Hd.
  reflexivity.
Qed.

(** C1, as the code has it.  A successful
    [POST /api/users/:_id/exercises] answers with the name of the user,
    the description sent, the duration as the number [parseInt] returns,
    the date of the exercise written as a calendar day, and the
    identifier of the user, which is not the identifier of the new
    exercise.  The duration is the integer written in the field when that
    is at most 2^53 in absolute value; from 2^1024 on it is an infinity,
    which the answer shows as [null].  The date text is the week day, the
    month, the day of the month and the year of the local day of the
    exercise, fifteen characters for the years 0 to 9999; two instants
    have the same text exactly when they fall on the same local day.  The
    exercise is stored with the date sent, or with the clock's date when
    the request has no date or an empty one. *)
Theorem postExercise_success_response (req : ExerciseRequest)
  (w w' : World) (r : Response) :
  postExercise host req w = (r, w') ->
  status r = 200 ->
  exists user description duration z durationNum exerciseDate saved,
    castObjectId host (ex_params_id req) = Some (User._id user)
    /\ In user (users w)
    /\ truthyString (ex_description req) = Some description
    /\ truthyString (ex_duration req) = Some duration
    /\ Js.parseMathInt duration = Some z
    /\ Js.parseInt duration = Some durationNum
    /\ durationNum = Js.toNumber z
    /\ (Z.abs z <= 2 ^ 53 -> durationNum = Js.Finite z)
    /\ (2 ^ 1024 <= Z.abs z -> Js.jsonNumber durationNum = None)
    /\ body r = JExercise (User.username user) description durationNum
                  (toDateString host exerciseDate) (User._id user)
    /\ exercises w' = (exercises w ++ [saved])%list
    /\ users w' = users w
    /\ Exercise.userId saved = User._id user
    /\ Exercise.description saved = description
    /\ Exercise.duration saved = durationNum
    /\ Exercise.date saved = exerciseDate
    /\ (Js.falsy (ex_date req) = true -> exerciseDate = clock w)
    /\ (forall date, ex_date req = Some date -> date <> "" ->
          Date_new host date = Some exerciseDate)
    /\ (let d := Js.Day (exerciseDate + LocalTZA host exerciseDate) in
        let y := Js.YearFromDay d in
        let yearSign := if 0 <=? y then "" else "-" in
        toDateString host exerciseDate
        = (Js.weekDayName (Js.WeekDay d) ++ " "
           ++ Js.monthName (Js.MonthFromDay d) ++ " "
           ++ Js.ToZeroPaddedDecimalString (Js.DateFromDay d) 2 ++ " "
           ++ yearSign ++ Js.ToZeroPaddedDecimalString (Z.abs y) 4)%string
        /\ In (Js.weekDayName (Js.WeekDay d))
             ["Sun"; "Mon"; "Tue"; "Wed"; "Thu"; "Fri"; "Sat"]
        /\ In (Js.monthName (Js.MonthFromDay d))
             ["Jan"; "Feb"; "Mar"; "Apr"; "May"; "Jun"; "Jul"; "Aug";
              "Sep"; "Oct"; "Nov"; "Dec"]
        /\ 0 <= Js.MonthFromDay d <= 11
        /\ 1 <= Js.DateFromDay d <= 31
        /\ d = Js.MakeDay y (Js.MonthFromDay d) (Js.DateFromDay d)
        /\ (0 <= y <= 9999 ->
            String.length (toDateString host exerciseDate) = 15%nat)
        /\ (forall t,
              toDateString host t = toDateString host exerciseDate
              <-> Js.Day (t + LocalTZA host t) = d))
    /\ (freshIds w -> Exercise._id saved <> User._id user).
Proof.
  intros Hrun H200.
  destruct (postExercise_ok host req w w' r Hrun H200)
    as (description & duration & durationNum & exerciseDate & user
        & Hd & Hdu & Hn & Hdate & Hcast & Hu & -> & ->).
  destruct (byId_Some _ _ _ Hu) as [Hin _].
  assert (Hz : exists z, Js.parseMathInt duration = Some z
                         /\ durationNum = Js.toNumber z).
  { unfold Js.parseInt in Hn.
    destruct (Js.parseMathInt duration) as [z|]; [|discriminate].
    injection Hn as <-. exists z. split; reflexivity. }
  destruct Hz as (z & Hmath & Hnum).
  exists user, description, duration, z, durationNum, exerciseDate.
  eexists.
  split; [exact Hcast|]. split; [exact Hin|]. split; [exact Hd|].
  split; [exact Hdu|]. split; [exact Hmath|]. split; [exact Hn|].
  split; [exact Hnum|].
  split; [intros Hsmall; rewrite Hnum; apply toNumber_exact; exact Hsmall|].
  split.
  { intros Hbig. rewrite Hnum, (toNumber_overflow z Hbig). reflexivity. }
  split; [reflexivity|]. split; [reflexivity|]. split; [reflexivity|].
  split; [reflexivity|]. split; [reflexivity|]. split; [reflexivity|].
  split; [reflexivity|].
  split.
  { intros Hfalsy. unfold resolveDate in Hdate.
    apply truthyString_None in Hfalsy. rewrite Hfalsy in Hdate.
    congruence. }
  split.
  { intros date Hsome Hne. unfold resolveDate in Hdate.
    assert (Ht : truthyString (ex_date req) = Some date)
      by (apply truthyString_Some; auto).
    rewrite Ht in Hdate. exact Hdate. }
  split.
  { cbv zeta.
    set (d := Js.Day (exerciseDate + LocalTZA host exerciseDate)).
    split; [reflexivity|].
    split; [apply weekDayName_listed|].
    split; [apply monthName_listed|].
    split; [apply JsFacts.MonthFromDay_range|].
    split; [apply JsFacts.DateFromDay_range|].
    split; [apply Day_from_fields|].
    split.
    - intros Hyear. unfold toDateString, Js.DateString. fold d.
      destruct (Z.leb_spec 0 (Js.YearFromDay d)) as [_|Hneg]; [|lia].
      rewrite !length_append, weekDayName_length, monthName_length,
        date_text_length, padded_length
        by (change (10 ^ Z.of_nat 4) with 10000; lia).
      reflexivity.
    - intros t. unfold toDateString. fold d. split.
      + apply DateString_inj.
      + apply toDateString_day. }
  intros Hfresh Heq. cbn in Heq. apply Hfresh in Hin. lia.
Qed.

End AddedExercise.

Lemma freshIds_signedUpWorld : freshIds signedUpWorld.
Proof. intros u [<-|[]]. reflexivity. Defined.

(** Ann signs up in an empty store and logs a run at noon on 31 January
    2023 without a date; in the store of the examples she logs a run on
    New Year's Day with a duration beyond the doubles. *)
Lemma postExercise_success_witness :
  freshIds signedUpWorld
  /\ status (answer (postExercise utcHost firstRun) signedUpWorld) = 200
  /\ body (answer (postExercise utcHost firstRun) signedUpWorld)
     = JExercise "ann" "run" (Js.Finite 45) "Tue Jan 31 2023" 1%N
  /\ String.length "Tue Jan 31 2023" = 15%nat
  /\ toDateString utcHost (noonJan31 + 3600000) = "Tue Jan 31 2023"
  /\ Js.Day (1675123200000 + LocalTZA utcHost 1675123200000)
     = Js.Day (noonJan31 + LocalTZA utcHost noonJan31)
  /\ (exists saved,
        exercises (snd (postExercise utcHost firstRun signedUpWorld))
        = (exercises signedUpWorld ++ [saved])%list
        /\ Exercise.date saved = clock signedUpWorld
        /\ Exercise._id saved <> 1%N)
  /\ status (answer (postExercise utcHost endlessRun) annWorld) = 200
  /\ exists durationNum saved,
       body (answer (postExercise utcHost endlessRun) annWorld)
       = JExercise "ann" "run" durationNum "Sun Jan 01 2023" (User._id ann)
       /\ Js.jsonNumber durationNum = None
       /\ exercises (snd (postExercise utcHost endlessRun annWorld))
          = (exercises annWorld ++ [saved])%list
       /\ Exercise.date saved = 1672531200000.
Proof.
  split; [exact freshIds_signedUpWorld|]. split; [reflexivity|].
  destruct (postExercise_success_response utcHost firstRun signedUpWorld
              _ _ (surjective_pairing _) eq_refl)
    as (user & description & duration & z & durationNum & exerciseDate
        & saved & _ & Hin & Hd & Hdu & Hmath & _ & _ & Hexact & _ & Hbody
        & Hex & _ & _ & _ & _ & Hdt & Hnow & _ & Hfmt & Hfresh).
  destruct Hin as [<-|[]].
  injection Hd as <-. injection Hdu as <-. injection Hmath as <-.
  specialize (Hnow eq_refl). rewrite Hnow in *. clear Hnow.
  specialize (Hexact ltac:(vm_compute; discriminate)).
  rewrite Hexact in *. clear Hexact.
  cbv zeta in Hfmt.
  destruct Hfmt as (Htext & _ & _ & _ & _ & _ & Hlen & Hday).
  split; [exact Hbody|].
  split; [apply Hlen; vm_compute; split; discriminate|].
  split; [apply (Hday (noonJan31 + 3600000)); reflexivity|].
  split; [apply (Hday 1675123200000); reflexivity|].
  split.
  { exists saved. split; [exact Hex|]. split; [exact Hdt|].
    exact (Hfresh freshIds_signedUpWorld). }
  split; [reflexivity|].
  destruct (postExercise_success_response utcHost endlessRun annWorld
              _ _ (surjective_pairing _) eq_refl)
    as (user' & description' & duration' & z' & durationNum' & exerciseDate'
        & saved' & _ & Hin' & Hd' & Hdu' & Hmath' & _ & _ & _ & Hover'
        & Hbody' & Hex' & _ & _ & _ & _ & Hdt' & _ & Hgiven' & _ & _).
  destruct Hin' as [<-|[]].
  injection Hd' as <-.
  vm_compute in Hdu'. injection Hdu' as <-.
  vm_compute in Hmath'. injection Hmath' as <-.
  specialize (Hgiven' "2023-01-01" eq_refl ltac:(discriminate)).
  injection Hgiven' as Hgiven'. rewrite <- Hgiven' in *. clear Hgiven'.
  exists durationNum', saved'.
  split; [exact Hbody'|].
  split; [apply Hover'; vm_compute; discriminate|].
  split; [exact Hex'|exact Hdt'].
Defined.

(** ** When requests succeed *)

Section Success.

Variable host : Host.

Lemma available_2_pending (w : World) :
  available 2 w ->
  exists p, pending w = p
            /\ (p = [] \/ p = [None] \/ exists rest, p = None :: None :: rest).
Proof.
  intros Hav. apply available_2 in Hav. destruct Hav as [H1 H2].
  exists (pending w). split; [reflexivity|].
  destruct (pending w) as [|[e|] [|[e'|] rest]]; cbn in H1, H2;
    try discriminate; eauto.
Qed.

(** X16. [POST /api/users/:_id/exercises] succeeds whenever the
    description is not empty, [parseInt] reads a number in the duration,
    whatever its sign, the date is absent or parses, the identifier is
    that of a stored user and the backend answers: the answer is a 200
    with the number that [parseInt] returns, a double that may differ
    from the integer written or an infinity, and the exercise is stored
    with that number at the end of the collection under the identifier of
    the user. *)
Theorem postExercise_succeeds (req : ExerciseRequest) (w : World)
  (description duration : string) (durationNum : Js.number)
  (exerciseDate : Z) (user : User.t) :
  truthyString (ex_description req) = Some description ->
  truthyString (ex_duration req) = Some duration ->
  Js.parseInt duration = Some durationNum ->
  resolveDate host (ex_date req) (clock w) = Some exerciseDate ->
  castObjectId host (ex_params_id req) = Some (User._id user) ->
  byId (User._id user) (users w) = Some user ->
  available 2 w ->
  answer (postExercise host req) w
  = json (JExercise (User.username user) description durationNum
            (toDateString host exerciseDate) (User._id user))
  /\ exists saved,
       exercises (snd (postExercise host req w))
       = (exercises w ++ [saved])%list
       /\ Exercise.userId saved = User._id user
       /\ Exercise.description saved = description
       /\ Exercise.duration saved = durationNum
       /\ Exercise.date saved = exerciseDate.
Proof.
  intros Hd Hdu Hn Hdate Hcast Hu Hav. unfold answer.
  rewrite postExercise_run, Hd, Hdu, Hn, Hdate, Hcast, Hu. cbv zeta.
  destruct (available_2_pending w Hav) as (p & -> & [->|[->|(rest & ->)]]);
    cbn [tl fst snd exercises withExercise consume noteCall drawId];
    (split; [reflexivity|]); eexists; repeat split.
Qed.

(** X17. [GET /api/users/:_id/logs] succeeds whenever the identifier is
    that of a stored user, each bound is absent, empty or parses, and the
    backend answers, whatever the limit: the answer is a 200 and the store
    is left as it was, after one lookup and one query. *)
Theorem getLogs_succeeds (req : LogsRequest) (w : World) (user : User.t)
  (fromFilter dateFilter : DateFilter) :
  castObjectId host (log_params_id req) = Some (User._id user) ->
  byId (User._id user) (users w) = Some user ->
  applyFrom host (log_from req) emptyFilter = inr fromFilter ->
  applyTo host (log_to req) fromFilter = inr dateFilter ->
  available 2 w ->
  status (answer (getLogs host req) w) = 200
  /\ users (snd (getLogs host req w)) = users w
  /\ exercises (snd (getLogs host req w)) = exercises w
  /\ calls (snd (getLogs host req w))
     = (calls w ++ [UserFindById; ExerciseFind])%list.
Proof.
  intros Hcast Hu Hfrom Hto Hav. unfold answer.
  rewrite getLogs_run, Hcast, Hu, Hfrom, Hto. cbv zeta.
  destruct (available_2_pending w Hav) as (p & -> & [->|[->|(rest & ->)]]);
    cbn [tl fst snd status json users exercises calls consume noteCall];
    rewrite <- app_assoc; repeat split.
Qed.

(** X18. [POST /api/users] with a name that is not empty and not in the
    store, when the backend answers, stores the user at the end of the
    collection and answers with the name and the identifier stored; when
    the identifiers in use lie below the next fresh one, no user stored
    before has that identifier. *)
Theorem postUsers_creates (username : option string) (name : string)
  (w : World) :
  truthyString username = Some name ->
  byName name (users w) = None ->
  available 2 w ->
  exists id,
    answer (postUsers username) w = json (JUser name id)
    /\ users (snd (postUsers username w))
       = (users w ++ [{| User._id := id; User.username := name |}])%list
    /\ exercises (snd (postUsers username w)) = exercises w
    /\ (freshIds w -> forall u, In u (users w) -> User._id u <> id).
Proof.
  intros Hname Hnone Hav. exists (nextId w). unfold answer.
  rewrite postUsers_run, Hname, Hnone. cbv zeta.
  destruct (available_2_pending w Hav) as (p & -> & [->|[->|(rest & ->)]]);
    cbn [tl fst snd users exercises withUser consume noteCall drawId];
    repeat split;
    intros Hfresh u Hin Heq; apply Hfresh in Hin; lia.
Qed.

End Success.

(** ** Days and empty logs *)

Section DaysAndEmptyLogs.

Variable host : Host.

Lemma parseDateOnly_not_empty (date : string) (t : Z) :
  Js.parseDateOnly date = Some t -> truthyString (Some date) = Some date.
Proof.
  intros Hparse. apply truthyString_Some. split; [reflexivity|].
  intros ->. discriminate Hparse.
Qed.

(** X19. An exercise added with a date [YYYY-MM-DD] is found in the log
    asked from that date to that same date, at any later time when the
    backend answers: both bounds are the midnight the exercise is stored
    at, and both comparisons admit equality. *)
Theorem dated_exercise_is_in_its_day (req : ExerciseRequest)
  (w w1 w2 : World) (r : Response) (date : string) (t : Z) :
  postExercise host req w = (r, w1) ->
  status r = 200 ->
  ex_date req = Some date ->
  Js.parseDateOnly date = Some t ->
  later host w1 w2 ->
  available 2 w2 ->
  exists username description duration text id log,
    body r = JExercise username description duration text id
    /\ answer (getLogs host (logOfDay (ex_params_id req) date)) w2
       = json (JLog username (List.length log) id log)
    /\ In {| LogEntry.description := description;
             LogEntry.duration := duration;
             LogEntry.date := text |} log.
Proof.
  intros Hrun H200 Hdate Hparse Hlater Hav.
  destruct (postExercise_ok host req w w1 r Hrun H200)
    as (description & duration & durationNum & exerciseDate & user
        & _ & _ & _ & Hres & Hcast & Hu & -> & ->).
  assert (Ht : truthyString (Some date) = Some date)
    by exact (parseDateOnly_not_empty date t Hparse).
  assert (Hnew : Date_new host date = Some t)
    by (unfold Date_new; rewrite Hparse; reflexivity).
  unfold resolveDate in Hres. rewrite Hdate, Ht, Hnew in Hres.
  injection Hres as <-.
  apply later_extends in Hlater.
  destruct Hlater as [[moreUsers Husers] [moreExercises Hexercises]].
  cbn [users exercises withExercise consume noteCall drawId]
    in Husers, Hexercises.
  apply available_2 in Hav. destruct Hav as [Hav1 Hav2].
  eexists _, _, _, _, _, _. split; [reflexivity|].
  unfold answer. rewrite getLogs_run.
  cbn [logOfDay log_params_id log_from log_to]. rewrite Hcast.
  rewrite Husers, (byId_app _ _ moreUsers _ Hu), Hexercises.
  unfold applyFrom, applyTo. rewrite Ht, Hnew.
  cbv beta iota zeta. rewrite logQuery_limit, logQuery_where.
  cbn [logOfDay log_limit Js.ToString emptyFilter keys gte lte Nat.add
       Nat.ltb Nat.leb].
  change (Js.parseInt "undefined") with (@None Js.number). cbn [capped].
  destruct (pending w2) as [|[e|] [|[e'|] rest]]; cbn in Hav1, Hav2;
    try discriminate; cbn [tl fst]; (split; [reflexivity|]);
    apply in_map_iff; eexists; (split; [|apply filter_In_app]);
    try reflexivity; unfold selects, matchesDate;
    cbn [Exercise.userId Exercise.date gte lte];
    rewrite N.eqb_refl, Z.leb_refl; reflexivity.
Qed.

(** X20. A user without exercises has an empty log: when the user is
    found, no stored exercise bears the identifier of the user, the bounds
    are absent or parse and the backend answers, the answer is a 200 with
    a count of zero and no entry, whatever the limit. *)
Theorem log_without_exercises_is_empty (req : LogsRequest) (w : World)
  (user : User.t) (fromFilter dateFilter : DateFilter) :
  castObjectId host (log_params_id req) = Some (User._id user) ->
  byId (User._id user) (users w) = Some user ->
  (forall ex, In ex (exercises w) -> Exercise.userId ex <> User._id user) ->
  applyFrom host (log_from req) emptyFilter = inr fromFilter ->
  applyTo host (log_to req) fromFilter = inr dateFilter ->
  available 2 w ->
  answer (getLogs host req) w
  = json (JLog (User.username user) 0 (User._id user) []).
Proof.
  intros Hcast Hu Hnone Hfrom Hto Hav. unfold answer.
  rewrite getLogs_run, Hcast, Hu, Hfrom, Hto. cbv zeta.
  rewrite filter_none.
  - rewrite capped_nil. apply available_2 in Hav.
    destruct Hav as [Hav1 Hav2].
    destruct (pending w) as [|[e|] [|[e'|] rest]]; cbn in Hav1, Hav2;
      try discriminate; reflexivity.
  - intros ex Hex. unfold selects.
    destruct (N.eqb_spec (Exercise.userId ex) (User._id user)) as [Heq|Hne];
      [exfalso; exact (Hnone ex Hex Heq)|reflexivity].
Qed.

End DaysAndEmptyLogs.

(** ** The further properties at work on the reference host *)

Lemma later_one (host : Host) (r : Request) (w : World) :
  later host w (snd (handle host r w)).
Proof.
  eapply later_step; [apply later_now|apply step_request].
Defined.

Lemma available_no_pending (n : nat) (w : World) :
  pending w = [] -> available n w.
Proof.
  unfold available. intros ->. destruct n; constructor.
Defined.

(** Bob signs up in the world of Ann, Ann logs a run, and Bob is listed. *)
Lemma created_user_is_listed_witness :
  status (answer (postUsers (Some "bob")) annWorld) = 200
  /\ exists name id all,
       body (answer (postUsers (Some "bob")) annWorld) = JUser name id
       /\ answer getUsers
            (snd (postExercise utcHost runRequest
                    (snd (postUsers (Some "bob") annWorld))))
          = json (JUsers all)
       /\ named name all = [{| User._id := id; User.username := name |}].
Proof.
  split; [reflexivity|].
  apply (created_user_is_listed utcHost (Some "bob") annWorld
           (snd (postUsers (Some "bob") annWorld)) _
           (answer (postUsers (Some "bob")) annWorld)
           eq_refl eq_refl uniqueNames_annWorld
           (later_one utcHost (PostExercise runRequest) _)).
  apply available_no_pending. reflexivity.
Defined.

(** Bob signs up, Ann logs a run, and Bob signs up again. *)
Lemma created_user_is_kept_witness :
  status (answer (postUsers (Some "bob")) annWorld) = 200
  /\ answer (postUsers (Some "bob"))
       (snd (postExercise utcHost runRequest
               (snd (postUsers (Some "bob") annWorld))))
     = answer (postUsers (Some "bob")) annWorld.
Proof.
  split; [reflexivity|].
  apply (created_user_is_kept utcHost (Some "bob") annWorld
           (snd (postUsers (Some "bob") annWorld))
           (snd (postExercise utcHost runRequest
                   (snd (postUsers (Some "bob") annWorld))))
           (answer (postUsers (Some "bob")) annWorld)
           eq_refl eq_refl uniqueNames_annWorld
           (later_one utcHost (PostExercise runRequest) _)).
  apply available_no_pending. reflexivity.
Defined.

(** A run for a user that is not there stores nothing. *)
Lemma refused_requests_store_nothing_witness :
  status (answer (handle utcHost (PostExercise runRequest)) emptyWorld)
  <> 200
  /\ exercises (snd (handle utcHost (PostExercise runRequest) emptyWorld))
     = exercises emptyWorld.
Proof.
  assert (H : status (answer (handle utcHost (PostExercise runRequest))
                        emptyWorld) <> 200) by discriminate.
  split; [exact H|].
  apply (refused_requests_store_nothing utcHost (PostExercise runRequest)
           emptyWorld (or_introl H)).
Defined.

(** The backend is down when Bob signs up. *)
Lemma postUsers_backend_failure_witness :
  answer (postUsers (Some "bob"))
    (elapse noonJan31
       [Some {| name := "MongoNetworkError"; code := None; path := None |}]
       annWorld)
  = fail 500 "Could not create user".
Proof.
  apply (postUsers_backend_failure (Some "bob") "bob"
           (elapse noonJan31
              [Some {| name := "MongoNetworkError"; code := None;
                       path := None |}] annWorld)
           _ eq_refl (or_introl eq_refl)).
  discriminate.
Defined.

Lemma referenced_annWorld : referenced annWorld.
Proof. intros e []. Defined.

Lemma filled_annWorld : filled annWorld.
Proof.
  split; [|intros e []]. intros u [<-|[]]. discriminate.
Defined.

(** The run of Ann belongs to Ann. *)
Lemma exercises_stay_referenced_witness : referenced annRanWorld.
Proof.
  exact (exercises_stay_referenced utcHost annWorld annRanWorld
           (later_one utcHost (PostExercise runRequest) annWorld)
           referenced_annWorld).
Defined.

Lemma stored_fields_stay_filled_witness : filled annRanWorld.
Proof.
  exact (stored_fields_stay_filled utcHost annWorld annRanWorld
           (later_one utcHost (PostExercise runRequest) annWorld)
           filled_annWorld).
Defined.

(** The log of Ann from February back to January. *)
Lemma inverted_range_is_empty_witness :
  exists user,
    answer (getLogs utcHost backwards) annRanWorld
    = json (JLog (User.username user) 0 (User._id user) []).
Proof.
  apply (inverted_range_is_empty utcHost backwards annRanWorld
           (snd (getLogs utcHost backwards annRanWorld))
           (answer (getLogs utcHost backwards) annRanWorld)
           "2023-02-01" "2023-01-01" 1675209600000 1672531200000
           eq_refl eq_refl eq_refl eq_refl eq_refl eq_refl).
  reflexivity.
Defined.

(** Ann ran twice; a limit of one keeps the first run. *)
Lemma limit_keeps_the_first_witness :
  answer (getLogs utcHost (withLimit None (logsOf annId)))
    (snd (postExercise utcHost runRequest annRanWorld))
  = json (JLog "ann" 2 (User._id ann)
            [logEntry utcHost
               {| Exercise._id := 1%N; Exercise.userId := User._id ann;
                  Exercise.description := "run"; Exercise.duration := Js.Finite 45;
                  Exercise.date := noonJan31 |};
             logEntry utcHost
               {| Exercise._id := 2%N; Exercise.userId := User._id ann;
                  Exercise.description := "run"; Exercise.duration := Js.Finite 45;
                  Exercise.date := noonJan31 |}])
  /\ answer (getLogs utcHost (withLimit (Some "1") (logsOf annId)))
       (snd (postExercise utcHost runRequest annRanWorld))
     = json (JLog "ann" 1 (User._id ann)
               [logEntry utcHost
                  {| Exercise._id := 1%N; Exercise.userId := User._id ann;
                     Exercise.description := "run";
                     Exercise.duration := Js.Finite 45;
                     Exercise.date := noonJan31 |}]).
Proof.
  split; [reflexivity|].
  exact (limit_keeps_the_first utcHost (logsOf annId) "1" 1
           (snd (postExercise utcHost runRequest annRanWorld))
           "ann" 2 (User._id ann) _ eq_refl eq_refl eq_refl).
Defined.

(** The run of Ann does not show in the log asked for Bob. *)
Lemma other_logs_are_untouched_witness :
  castObjectId utcHost bobId <> castObjectId utcHost annId
  /\ answer (getLogs utcHost (logsOf bobId))
       (elapse noonJan31 [] annRanWorld)
     = answer (getLogs utcHost (logsOf bobId))
         (elapse noonJan31 [] annWorld).
Proof.
  assert (H : castObjectId utcHost bobId <> castObjectId utcHost annId)
    by (vm_compute; discriminate).
  split; [exact H|].
  exact (other_logs_are_untouched utcHost runRequest (logsOf bobId)
           annWorld noonJan31 [] H).
Defined.

(** The second run of Ann comes after the first in her log. *)
Lemma added_exercise_ends_the_log_witness :
  exists first description duration date,
    answer (getLogs utcHost (logsOf annId))
      (elapse noonJan31 [] annRanWorld)
    = json (JLog "ann" 1 (User._id ann) [first])
    /\ answer (getLogs utcHost (logsOf annId))
         (elapse noonJan31 []
            (snd (postExercise utcHost runRequest annRanWorld)))
       = json (JLog "ann" 2 (User._id ann)
                 [first; {| LogEntry.description := description;
                            LogEntry.duration := duration;
                            LogEntry.date := date |}]).
Proof.
  destruct (added_exercise_ends_the_log utcHost runRequest annRanWorld
              (snd (postExercise utcHost runRequest annRanWorld))
              (answer (postExercise utcHost runRequest) annRanWorld)
              noonJan31 [] "ann" 1 (User._id ann) _
              eq_refl eq_refl eq_refl)
    as (description & duration & date & _ & Hlog).
  eexists _, description, duration, date. split; [reflexivity|].
  exact Hlog.
Defined.

(** New Year's Day of 2023, shown in UTC and five hours west of it. *)
Lemma date_only_is_utc_midnight_witness :
  Js.parseDateOnly "2023-01-01" = Some 1672531200000
  /\ toDateString utcHost 1672531200000 = "Sun Jan 01 2023"
  /\ toDateString westHost 1672531200000 = "Sat Dec 31 2022".
Proof.
  split; [reflexivity|].
  destruct (date_only_is_utc_midnight utcHost "2023-01-01" 1672531200000
              eq_refl) as (_ & _ & _ & Heast & _).
  destruct (date_only_is_utc_midnight westHost "2023-01-01" 1672531200000
              eq_refl) as (_ & _ & _ & _ & Hwest).
  split.
  - rewrite Heast; [reflexivity|]. cbn. unfold Js.msPerDay. lia.
  - rewrite Hwest; [reflexivity|]. cbn. unfold Js.msPerDay. lia.
Defined.

Lemma date_text_is_a_calendar_day_witness :
  String.length (toDateString utcHost noonJan31) = 15%nat.
Proof.
  apply (date_text_is_a_calendar_day utcHost noonJan31).
  vm_compute. split; discriminate.
Defined.

(** Forty-five minutes, five below zero, the first integer that is no
    double, and a one followed by 309 zeros. *)
Lemma parseInt_reads_the_leading_integer_witness :
  Js.parseInt "45 minutes" = Some (Js.Finite 45)
  /\ Js.parseInt "-5" = Some (Js.Finite (-5))
  /\ Js.parseInt "9007199254740993" = Some (Js.Finite 9007199254740992)
  /\ 2 * Z.abs (9007199254740992 - 9007199254740993) <= 2 ^ (53 - 52)
  /\ Js.parseInt (String "1" (Js.zeros 309)) = Some (Js.Infinite false).
Proof.
  split; [|split; [|split; [|split]]].
  - apply (parseInt_reads_the_leading_integer 45 " minutes" eq_refl).
    vm_compute. discriminate.
  - apply (parseInt_reads_the_leading_integer (-5) "" eq_refl).
    vm_compute. discriminate.
  - vm_compute. reflexivity.
  - apply (parseInt_reads_the_leading_integer 9007199254740993 "" eq_refl).
    + vm_compute. discriminate.
    + vm_compute. reflexivity.
  - apply (parseInt_reads_the_leading_integer (10 ^ 309) "" eq_refl).
    vm_compute. discriminate.
Defined.

(** Ann logs a run of minus five minutes, and one of 2^53 + 1 minutes,
    which comes back as 2^53. *)
Lemma postExercise_succeeds_witness :
  answer (postExercise utcHost
            {| ex_params_id := annId; ex_description := Some "rest";
               ex_duration := Some "-5"; ex_date := Some "2023-01-01" |})
    annWorld
  = json (JExercise "ann" "rest" (Js.Finite (-5)) "Sun Jan 01 2023"
            (User._id ann))
  /\ answer (postExercise utcHost
               {| ex_params_id := annId; ex_description := Some "run";
                  ex_duration := Some "9007199254740993";
                  ex_date := Some "2023-01-01" |})
       annWorld
     = json (JExercise "ann" "run" (Js.Finite 9007199254740992)
               "Sun Jan 01 2023" (User._id ann)).
Proof.
  split.
  - apply (postExercise_succeeds utcHost
             {| ex_params_id := annId; ex_description := Some "rest";
                ex_duration := Some "-5"; ex_date := Some "2023-01-01" |}
             annWorld "rest" "-5" (Js.Finite (-5)) 1672531200000 ann
             eq_refl eq_refl eq_refl eq_refl eq_refl eq_refl
             (available_no_pending 2 annWorld eq_refl)).
  - apply (postExercise_succeeds utcHost
             {| ex_params_id := annId; ex_description := Some "run";
                ex_duration := Some "9007199254740993";
                ex_date := Some "2023-01-01" |}
             annWorld "run" "9007199254740993"
             (Js.Finite 9007199254740992) 1672531200000 ann
             eq_refl eq_refl eq_refl eq_refl eq_refl eq_refl
             (available_no_pending 2 annWorld eq_refl)).
Defined.

Lemma getLogs_succeeds_witness :
  status (answer (getLogs utcHost backwards) annRanWorld) = 200
  /\ exercises (snd (getLogs utcHost backwards annRanWorld))
     = exercises annRanWorld.
Proof.
  destruct (getLogs_succeeds utcHost backwards annRanWorld ann
              {| gte := Some 1675209600000; lte := None |}
              {| gte := Some 1675209600000; lte := Some 1672531200000 |}
              eq_refl eq_refl eq_refl eq_refl
              (available_no_pending 2 annRanWorld eq_refl))
    as (Hstatus & _ & Hex & _).
  split; assumption.
Defined.

Lemma postUsers_creates_witness :
  exists id,
    answer (postUsers (Some "bob")) annWorld = json (JUser "bob" id)
    /\ users (snd (postUsers (Some "bob") annWorld))
       = [ann; {| User._id := id; User.username := "bob" |}].
Proof.
  destruct (postUsers_creates (Some "bob") "bob" annWorld eq_refl eq_refl
              (available_no_pending 2 annWorld eq_refl))
    as (id & Hanswer & Husers & _).
  exists id. split; assumption.
Defined.

(** Ann logs a walk dated New Year's Day and asks for that day. *)
Lemma dated_exercise_is_in_its_day_witness :
  exists log,
    answer (getLogs utcHost (logOfDay annId "2023-01-01"))
      (snd (postExercise utcHost walkRequest annRanWorld))
    = json (JLog "ann" (List.length log) (User._id ann) log)
    /\ In {| LogEntry.description := "walk"; LogEntry.duration := Js.Finite 30;
             LogEntry.date := "Sun Jan 01 2023" |} log.
Proof.
  destruct (dated_exercise_is_in_its_day utcHost walkRequest annRanWorld
              (snd (postExercise utcHost walkRequest annRanWorld))
              (snd (postExercise utcHost walkRequest annRanWorld))
              (answer (postExercise utcHost walkRequest) annRanWorld)
              "2023-01-01" 1672531200000
              eq_refl eq_refl eq_refl eq_refl
              (later_now utcHost _)
              (available_no_pending 2
                 (snd (postExercise utcHost walkRequest annRanWorld))
                 eq_refl))
    as (username & description & duration & text & id & log
        & Hbody & Hlog & Hin).
  cbn in Hbody. injection Hbody as <- <- <- <- <-.
  exists log. split; assumption.
Defined.

(** Ann has logged nothing yet. *)
Lemma log_without_exercises_is_empty_witness :
  answer (getLogs utcHost (logsOf annId)) annWorld
  = json (JLog "ann" 0 (User._id ann) []).
Proof.
  apply (log_without_exercises_is_empty utcHost (logsOf annId) annWorld ann
           emptyFilter emptyFilter eq_refl eq_refl);
    [intros ex []|reflexivity|reflexivity|].
  apply available_no_pending. reflexivity.
Defined.
